(** * Request routing and response shaping of the documentation workers

    A shallow embedding of the two Cloudflare workers of the repository:

    - the unified worker [worker/src/index.ts] (search on [/ask], the
      JSON-RPC tool endpoint [/mcp], ingestion on [/api/ingest], static
      assets), and
    - the older multi-endpoint proxy (module [Legacy]: search, ingest,
      render-ingest, sync, status).

    JavaScript values are an inductive type, [async] functions are
    computations in a small monad that records the calls made to external
    services and either returns a value or throws, and the external
    services themselves (retrieval backend, object store, REST endpoints,
    external LLM) are oracles collected in a record [World].

    Modelling choices: strings are byte sequences in UTF-8; [trim] and
    the class [\s] take the white space of ECMAScript, [toLowerCase]
    acts on ASCII letters (its results are only compared with ASCII
    literals); finite numbers are
    rationals; the clock is read once per request; the conversions
    between strings and numbers are parameters ([Runtime]); a headless
    browser session is a single outside call. *)

From Stdlib Require Import Ascii String QArith Qminmax Lqa DecimalString.
From stdpp Require Import base option list strings gmap.

Local Open Scope string_scope.
Local Open Scope list_scope.

(** ** Exceptions and asynchronous computations *)

(** A thrown JavaScript [Error]: its constructor name and its [message]. *)
Record JsError : Type := mkError { err_name : string; message : string }.

Definition TypeError (msg : string) : JsError := mkError "TypeError" msg.
Definition SyntaxError (msg : string) : JsError := mkError "SyntaxError" msg.
Definition Error (msg : string) : JsError := mkError "Error" msg.

(** The completion of an evaluation: a value, or a thrown exception
    (for a promise: fulfilled or rejected). *)
Inductive Result (A : Type) : Type :=
  | Ok (a : A)
  | Throw (e : JsError).
Arguments Ok {A} a.
Arguments Throw {A} e.

(** ** Numbers *)

(** A JavaScript number.  Finite doubles are embedded in the rationals:
    the code only compares numbers ([Math.min], [Math.max]) and never
    computes with them, so no rounding is involved. *)
Inductive JsNum : Type :=
  | NaN
  | NegInf
  | PosInf
  | Fin (q : Q).

Definition num_of_nat (n : nat) : JsNum := Fin (inject_Z (Z.of_nat n)).

(** [Math.max(a, b)] and [Math.min(a, b)]: [NaN] is contagious. *)
Definition Math_max (a b : JsNum) : JsNum :=
  match a, b with
  | NaN, _ | _, NaN => NaN
  | PosInf, _ | _, PosInf => PosInf
  | NegInf, x | x, NegInf => x
  | Fin p, Fin q => if Qle_bool p q then Fin q else Fin p
  end.

Definition Math_min (a b : JsNum) : JsNum :=
  match a, b with
  | NaN, _ | _, NaN => NaN
  | NegInf, _ | _, NegInf => NegInf
  | PosInf, x | x, PosInf => x
  | Fin p, Fin q => if Qle_bool p q then Fin p else Fin q
  end.

(** [x] is a finite number within [lo, hi]. *)
Definition within (lo hi : Q) (x : JsNum) : Prop :=
  match x with
  | Fin q => (lo <= q)%Q /\ (q <= hi)%Q
  | _ => False
  end.

Definition is_NaN (x : JsNum) : bool :=
  match x with NaN => true | _ => false end.

(** ** Strings *)

Module Str.

(** The white space of ECMAScript - [WhiteSpace] and [LineTerminator],
    which is also the class [\s] - one code point per entry, as the
    bytes of its UTF-8 encoding: U+0009 to U+000D, U+0020, U+00A0,
    U+1680, U+2000 to U+200A, U+2028, U+2029, U+202F, U+205F, U+3000 and
    U+FEFF. *)
Definition space_codes : list (list nat) :=
  [ [9]; [10]; [11]; [12]; [13]; [32];
    [194; 160];
    [225; 154; 128];
    [226; 128; 128]; [226; 128; 129]; [226; 128; 130]; [226; 128; 131];
    [226; 128; 132]; [226; 128; 133]; [226; 128; 134]; [226; 128; 135];
    [226; 128; 136]; [226; 128; 137]; [226; 128; 138];
    [226; 128; 168]; [226; 128; 169]; [226; 128; 175];
    [226; 129; 159];
    [227; 128; 128];
    [239; 187; 191] ].

Definition spaces : list string :=
  Eval vm_compute in
    List.map (fun code => string_of_list_ascii (List.map ascii_of_nat code)) space_codes.

(** [t] is one white-space code point. *)
Definition isSpace (t : string) : bool := existsb (String.eqb t) spaces.

(** One white-space code point at the start of [s]: what follows it. *)
Definition afterSpace (s : string) : option string :=
  match s with
  | String c1 r1 =>
      if isSpace (String c1 EmptyString) then Some r1
      else
        match r1 with
        | String c2 r2 =>
            if isSpace (String c1 (String c2 EmptyString)) then Some r2
            else
              match r2 with
              | String c3 r3 =>
                  if isSpace (String c1 (String c2 (String c3 EmptyString)))
                  then Some r3 else None
              | EmptyString => None
              end
        | EmptyString => None
        end
  | EmptyString => None
  end.

Fixpoint trimStart (s : string) : string :=
  match s with
  | String c1 r1 =>
      if isSpace (String c1 EmptyString) then trimStart r1
      else
        match r1 with
        | String c2 r2 =>
            if isSpace (String c1 (String c2 EmptyString)) then trimStart r2
            else
              match r2 with
              | String c3 r3 =>
                  if isSpace (String c1 (String c2 (String c3 EmptyString)))
                  then trimStart r3 else s
              | EmptyString => s
              end
        | EmptyString => s
        end
  | EmptyString => EmptyString
  end.

(** White space is removed from the end, one code point at a time: what
    is left of the tail, with the byte in front of it, is dropped when
    the two make up a white-space code point. *)
Fixpoint trimEnd (s : string) : string :=
  match s with
  | EmptyString => EmptyString
  | String c r =>
      let kept := String c (trimEnd r) in
      if isSpace kept then EmptyString else kept
  end.

(** [s.trim()] *)
Definition trim (s : string) : string := trimEnd (trimStart s).

Definition lower (c : ascii) : ascii :=
  let n := nat_of_ascii c in
  if (65 <=? n)%nat && (n <=? 90)%nat then ascii_of_nat (n + 32) else c.

(** [s.toLowerCase()], on ASCII letters. *)
Fixpoint toLowerCase (s : string) : string :=
  match s with
  | EmptyString => EmptyString
  | String c r => String (lower c) (toLowerCase r)
  end.

(** [s.startsWith(p)]. *)
Definition startsWith (s p : string) : bool := String.prefix p s.

(** [s.includes(sub)]: [sub] occurs in [s]. *)
Fixpoint includes (s sub : string) : bool :=
  String.prefix sub s ||
  match s with
  | EmptyString => false
  | String _ r => includes r sub
  end.

(** [s.endsWith(p)]. *)
Definition endsWith (s p : string) : bool :=
  String.prefix (String.rev p) (String.rev s).

(** [s.slice(1)]. *)
Definition slice1 (s : string) : string :=
  match s with
  | EmptyString => EmptyString
  | String _ r => r
  end.

(** [s.split(sep)] for a one-character separator. *)
Fixpoint split_go (sep : ascii) (cur : string) (s : string) : list string :=
  match s with
  | EmptyString => [String.rev cur]
  | String c r =>
      if Ascii.eqb c sep then String.rev cur :: split_go sep EmptyString r
      else split_go sep (String c cur) r
  end.
Definition split (sep : ascii) (s : string) : list string :=
  split_go sep EmptyString s.

(** [l.join(sep)] on a list of strings. *)
Fixpoint join (sep : string) (l : list string) : string :=
  match l with
  | [] => ""
  | [x] => x
  | x :: r => x +:+ sep +:+ join sep r
  end.

(** [s.replace(/re/g, by)] where the regular expression is a character
    class, given as a predicate. *)
Fixpoint replaceAll (cls : ascii -> bool) (by_ : ascii) (s : string) : string :=
  match s with
  | EmptyString => EmptyString
  | String c r => String (if cls c then by_ else c) (replaceAll cls by_ r)
  end.

(** [l.includes(x)] on a list of strings. *)
Definition mem (x : string) (l : list string) : bool :=
  existsb (String.eqb x) l.

(** Decimal rendering of a natural number (HTTP status codes). *)
Definition of_nat (n : nat) : string :=
  NilZero.string_of_uint (Nat.to_uint n).

End Str.


(** ** Values *)

(** A JavaScript value as the workers see it: what [JSON.parse] yields,
    plus [undefined] for absent properties.  The fields of an object are
    kept in order, with distinct keys. *)
#[warnings="-register-all"]
Inductive Value : Type :=
  | VUndefined
  | VNull
  | VBool (b : bool)
  | VNum (n : JsNum)
  | VStr (s : string)
  | VArr (items : list Value)
  | VObj (fields : list (string * Value)).

Definition own (fields : list (string * Value)) (k : string) : option Value :=
  snd <$> List.find (fun kv => String.eqb (fst kv) k) fields.

Definition hasOwn (fields : list (string * Value)) (k : string) : bool :=
  match own fields k with Some _ => true | None => false end.

(** What the host runtime supplies and the workers' code does not define:
    the numeric value of a string ([Number("6")]) and the rendering of a
    number ([String(0.3)]).  Every theorem holds for any such pair. *)
Class Runtime : Type := {
  StringToNumber : string -> JsNum;
  NumberToString : JsNum -> string
}.

Global Instance Result_ret : MRet Result := fun A a => Ok a.
Global Instance Result_bind : MBind Result := fun A B f r =>
  match r with
  | Ok a => f a
  | Throw e => Throw e
  end.
Global Instance Result_fmap : FMap Result := fun A B f r =>
  match r with
  | Ok a => Ok (f a)
  | Throw e => Throw e
  end.

Section Conversions.
Context {rt : Runtime}.

(** [!!v] *)
Definition truthy (v : Value) : bool :=
  match v with
  | VUndefined | VNull => false
  | VBool b => b
  | VNum (Fin q) => negb (Qeq_bool q 0)
  | VNum NaN => false
  | VNum _ => true
  | VStr s => negb (String.eqb s "")
  | VArr _ | VObj _ => true
  end.

(** [a || b] *)
Definition or_else (a b : Value) : Value := if truthy a then a else b.

(** [a && b] *)
Definition and_then (a b : Value) : Value := if truthy a then b else a.

Definition nullish (v : Value) : bool :=
  match v with VUndefined | VNull => true | _ => false end.

(** [a ?? b] *)
Definition coalesce (a b : Value) : Value := if nullish a then b else a.

Definition str_opt (o : option string) : Value :=
  match o with Some s => VStr s | None => VUndefined end.

(** [v.k]: reading a property of [null] or [undefined] throws. *)
Definition getProp (v : Value) (k : string) : Result Value :=
  match v with
  | VUndefined | VNull =>
      Throw (TypeError ("Cannot read properties of null or undefined (reading '" +:+ k +:+ "')"))
  | VObj fields => Ok (default VUndefined (own fields k))
  | VArr items =>
      Ok (if String.eqb k "length" then VNum (num_of_nat (length items)) else VUndefined)
  | VStr s =>
      Ok (if String.eqb k "length" then VNum (num_of_nat (String.length s)) else VUndefined)
  | VBool _ | VNum _ => Ok VUndefined
  end.

(** [v?.k] *)
Definition optProp (v : Value) (k : string) : Result Value :=
  if nullish v then Ok VUndefined else getProp v k.

(** [String(v)] and [`${v}`].  An object that carries an own
    [toString] entry cannot be converted: the entry is data, not a
    function. *)
Fixpoint ToString (v : Value) : Result string :=
  match v with
  | VUndefined => Ok "undefined"
  | VNull => Ok "null"
  | VBool b => Ok (if b then "true" else "false")
  | VNum n => Ok (NumberToString n)
  | VStr s => Ok s
  | VArr items =>
      (fix joined (l : list Value) : Result string :=
         match l with
         | [] => Ok ""
         | x :: r =>
             match (match x with
                    | VUndefined | VNull => Ok ""
                    | _ => ToString x
                    end) with
             | Throw e => Throw e
             | Ok e =>
                 match r with
                 | [] => Ok e
                 | _ => match joined r with
                        | Ok rest => Ok (e +:+ "," +:+ rest)
                        | Throw err => Throw err
                        end
                 end
             end
         end) items
  | VObj fields =>
      if hasOwn fields "toString"
      then Throw (TypeError "Cannot convert object to primitive value")
      else Ok "[object Object]"
  end.

(** [v.toString()]: a method call, so [null] and [undefined] throw. *)
Definition toString_method (v : Value) : Result string :=
  match v with
  | VUndefined | VNull =>
      Throw (TypeError "Cannot read properties of null or undefined (reading 'toString')")
  | VObj fields =>
      if hasOwn fields "toString"
      then Throw (TypeError "toString is not a function")
      else Ok "[object Object]"
  | _ => ToString v
  end.

(** [v?.toString()] *)
Definition opt_toString (v : Value) : Result (option string) :=
  if nullish v then Ok None else Some <$> toString_method v.

(** [Number(v)] *)
Definition ToNumber (v : Value) : Result JsNum :=
  match v with
  | VUndefined => Ok NaN
  | VNull => Ok (Fin 0)
  | VBool b => Ok (Fin (if b then 1 else 0))
  | VNum n => Ok n
  | VStr s => Ok (StringToNumber s)
  | VArr _ | VObj _ => StringToNumber <$> ToString v
  end.

(** [Boolean(v)] *)
Definition ToBoolean (v : Value) : bool := truthy v.

End Conversions.

(** ** Requests, responses and the outside world *)

(** A header set or a plain string-to-string object ([Record<string, string>]). *)
Definition Headers : Type := gmap string string.

(** The payload of a [Response].  [JsonBody o] is the text
    [JSON.stringify(o)]; [StreamBody] is an open byte stream handed over
    from a backend. *)
Inductive Body : Type :=
  | NoBody
  | TextBody (s : string)
  | JsonBody (o : Value)
  | StreamBody (source : Value).

Record Response : Type := mkResponse {
  status : nat;
  headers : Headers;
  body : Body
}.

(** An inbound request.  [json_body] is what [req.json()] resolves to;
    [None] when the body is not valid JSON (the promise then rejects).
    Header names are kept in the spelling the workers ask for. *)
Record Request : Type := mkRequest {
  method : string;
  pathname : string;
  searchParams : list (string * string);
  req_headers : Headers;
  json_body : option Value
}.

(** [req.headers.get(name)] *)
Definition header (req : Request) (name : string) : option string :=
  req_headers req !! name.

(** [url.searchParams.get(name)]: the first value given for [name]. *)
Definition searchParam (req : Request) (name : string) : option string :=
  snd <$> List.find (fun kv => String.eqb (fst kv) name) (searchParams req).

(** The response of an outbound [fetch]. *)
Record FetchResponse : Type := mkFetchResponse {
  fr_status : nat;
  fr_text : Result string;       (* await response.text() *)
  fr_json : Result Value;        (* await response.json() *)
  fr_body : option Value         (* response.body *)
}.

(** [response.ok] *)
Definition fr_ok (r : FetchResponse) : bool :=
  (200 <=? fr_status r)%nat && (fr_status r <=? 299)%nat.

(** What [streamText] of the AI SDK hands back. *)
Record StreamTextResult : Type := mkStreamTextResult {
  toAIStreamResponse : Headers -> Response;
  st_text : Result string        (* await text *)
}.

(** A call that leaves the worker. *)
Inductive Call : Type :=
  | AutoragAiSearch (rag : string) (params : Value)
  | AutoragSearch (rag : string) (params : Value)
  | BucketPut (key : string) (content contentType : Value) (customMetadata : Headers)
  | StreamText (provider : Value) (model system : string) (messages : list (string * string))
  | AssetsFetch (req : Request)
  | HttpFetch (url method : string) (hdrs : Headers) (payload : option Value)
  | BrowserRender (href : string) (waitUntil timeout : Value).

(** The behaviour of everything outside the worker, as oracles: what each
    call answers, and the clock. *)
Record World : Type := mkWorld {
  now_iso : string;              (* new Date().toISOString() *)
  autorag_aiSearch : string -> Value -> Result Value;
  autorag_search : string -> Value -> Result Value;
  bucket_put : string -> Value -> Value -> Headers -> Result unit;
  streamText : Value -> string -> string -> list (string * string) -> Result StreamTextResult;
  assets_fetch : Request -> Result Response;
  http_fetch : string -> string -> Headers -> option Value -> Result FetchResponse;
  browser_render : string -> Value -> Value -> Result string;
  (** [new URL(s)]: [href] and [hostname], or [None] when it throws *)
  URL_parse : string -> option (string * string)
}.

(** An [async] computation: the calls it made, in order, and how it
    settled. *)
Definition M (A : Type) : Type := (list Call * Result A)%type.

Global Instance M_ret : MRet M := fun A a => ([], Ok a).
Global Instance M_bind : MBind M := fun A B f m =>
  match m with
  | (t, Ok a) => let '(t', r) := f a in (t ++ t', r)
  | (t, Throw e) => (t, Throw e)
  end.

Global Instance M_fmap : FMap M := fun A B f m =>
  match m with
  | (t, Ok a) => (t, Ok (f a))
  | (t, Throw e) => (t, Throw e)
  end.

(** A synchronous step that may throw. *)
Definition lift {A} (r : Result A) : M A := ([], r).

Definition throw {A} (e : JsError) : M A := ([], Throw e).

(** An awaited call to the outside. *)
Definition call {A} (c : Call) (r : Result A) : M A := ([c], r).

(** [try { m } catch (e) { h e }] around awaited code. *)
Definition try_catch {A} (m : M A) (h : JsError -> M A) : M A :=
  match m with
  | (t, Ok a) => (t, Ok a)
  | (t, Throw e) => let '(t', r) := h e in (t ++ t', r)
  end.

(** [p.catch(() => v)] *)
Definition catch_with {A} (m : M A) (v : A) : M A :=
  try_catch m (fun _ => mret v).

Definition trace {A} (m : M A) : list Call := fst m.
Definition outcome {A} (m : M A) : Result A := snd m.

(** [await req.json()] *)
Definition req_json (req : Request) : M Value :=
  match json_body req with
  | Some v => mret v
  | None => throw (SyntaxError "Unexpected token in JSON")
  end.

(** [new Response(result as any, init)]: a string becomes the text of the
    body, [null] and [undefined] leave it empty, anything else is handed
    over as the body source. *)
Definition body_of (v : Value) : Body :=
  match v with
  | VStr s => TextBody s
  | VUndefined | VNull => NoBody
  | _ => StreamBody v
  end.

(** [e?.message || String(e)] *)
Definition message_or_string (e : JsError) : string :=
  if String.eqb (message e) "" then err_name e else message e.

(** A double quote, for texts that carry one. *)
Definition dquote : string := String (ascii_of_nat 34) EmptyString.

(** [a || b] on header and query-string values ([null], [undefined] and
    the empty string are falsy). *)
Definition or_opt (a b : option string) : option string :=
  match a with
  | Some s => if String.eqb s "" then b else Some s
  | None => b
  end.

(** [!!s] on an optional string. *)
Definition configured (s : option string) : bool :=
  match s with
  | Some t => negb (String.eqb t "")
  | None => false
  end.

(** A line feed. *)
Definition nl : string := String (ascii_of_nat 10) EmptyString.

(** [`${s}`] for an optional setting. *)
Definition tmpl (s : option string) : string := default "undefined" s.

(** [v === s] for a string literal [s]. *)
Definition is_str (v : Value) (s : string) : bool :=
  match v with
  | VStr t => String.eqb t s
  | _ => false
  end.

(** [v === false] *)
Definition is_false (v : Value) : bool :=
  match v with
  | VBool false => true
  | _ => false
  end.

(** The bearer check the mutating handlers repeat:
    [!authHeader || authHeader !== `Bearer ${token}`], behind
    [if (env.INGESTION_TOKEN)]. *)
Definition unauthorized (token : option string) (req : Request) : bool :=
  match or_opt token None with
  | None => false
  | Some t =>
      match or_opt (header req "Authorization") None with
      | None => true
      | Some authHeader => negb (String.eqb authHeader ("Bearer " +:+ t))
      end
  end.

Section ValueHelpers.
Context {rt : Runtime}.

(** The receiver of [.map(...)] must be an array. *)
Definition as_array (v : Value) : Result (list Value) :=
  match v with
  | VArr items => Ok items
  | VUndefined | VNull =>
      Throw (TypeError "Cannot read properties of null or undefined (reading 'map')")
  | _ => Throw (TypeError "map is not a function")
  end.

(** [items.join(sep)] on an array of values: [null] and [undefined]
    contribute the empty string. *)
Definition join_values (sep : string) (items : list Value) : Result string :=
  Str.join sep <$>
    mapM (fun x => match x with
                   | VUndefined | VNull => Ok ""
                   | _ => ToString x
                   end) items.

(** [Object.entries(v)] *)
Definition entries (v : Value) : list (string * Value) :=
  match v with
  | VObj fields => fields
  | VArr items => imap (fun i x => (Str.of_nat i, x)) items
  | VStr s => imap (fun i c => (Str.of_nat i, VStr (String c EmptyString))) (list_ascii_of_string s)
  | _ => []
  end.

(** The receiver of [.startsWith], [.toLowerCase] and [.replace] must be
    a string. *)
Definition as_string (v : Value) (meth : string) : Result string :=
  match v with
  | VStr s => Ok s
  | VUndefined | VNull =>
      Throw (TypeError ("Cannot read properties of null or undefined (reading '" +:+ meth +:+ "')"))
  | _ => Throw (TypeError (meth +:+ " is not a function"))
  end.

(** The key, content type and custom metadata both ingestion handlers
    derive from the request body: a single leading slash is dropped, the
    content type follows the extension unless given, and the caller's
    metadata entries are spread over the two entries the worker sets. *)
Definition storageKey (path : Value) : Result string :=
  p ← as_string path "startsWith";
  mret (if Str.startsWith p "/" then Str.slice1 p else p).

Definition resolveContentType (content_type : Value) (key : string) : Value :=
  coalesce content_type
    (VStr (if Str.endsWith (Str.toLowerCase key) ".html" then "text/html" else "text/markdown")).

Definition spreadEntry (m : Headers) (kv : string * string) : Headers :=
  <[ fst kv := snd kv ]> m.

Definition customMetadataOf (source timestamp : string) (metadata : Value) : Result Headers :=
  strs ← mapM (fun kv => v ← ToString (snd kv); mret (fst kv, v))
              (entries (or_else metadata (VObj [])));
  mret (foldl spreadEntry
              ({[ "source" := source; "timestamp" := timestamp ]} : Headers)
              strs).

End ValueHelpers.

(** ** The unified worker ([worker/src/index.ts]) *)

Module Worker.

Record Env : Type := mkEnv {
  AI : bool;                         (* the AutoRAG binding is bound *)
  RAG_ID : string;
  DOCS_BUCKET : bool;                (* the R2 bucket is bound *)
  STREAM_DEFAULT : option string;
  DEFAULT_TOPK : option string;
  DEFAULT_THRESHOLD : option string;
  USE_EXTERNAL_LLM : option string;
  ALLOWED_ORIGINS : option string;
  OPENAI_API_KEY : option string;
  AZURE_OPENAI_ENDPOINT : option string;
  AZURE_OPENAI_API_KEY : option string;
  AZURE_OPENAI_API_VERSION : option string;
  INGESTION_TOKEN : option string
}.

Definition getCorsHeaders (origin : option string) (allowedOrigins : option string) : Headers :=
  let allowedOrigins := default "*" allowedOrigins in
  let allowed :=
    List.filter (fun s => negb (String.eqb s ""))
                (List.map Str.trim (Str.split "," allowedOrigins)) in
  let allowAll := Str.mem "*" allowed in
  let allowOrigin :=
    if allowAll then "*"
    else match origin with
         | Some o => if negb (String.eqb o "") && Str.mem o allowed then o else "null"
         | None => "null"
         end in
  {[ "Access-Control-Allow-Origin" := allowOrigin;
     "Access-Control-Allow-Headers" := "Content-Type, Authorization, Accept";
     "Access-Control-Allow-Methods" := "GET, POST, OPTIONS" ]}.

(** [json(o, status, headers)]: the given headers are spread last and win
    over the content type. *)
Definition json (o : Value) (status : nat) (hdrs : Headers) : Response :=
  mkResponse status (hdrs ∪ {[ "Content-Type" := "application/json" ]}) (JsonBody o).

Definition notFound (hdrs : Headers) : Response :=
  mkResponse 404 hdrs (TextBody "Not Found").

Definition parseBoolean (s : option string) (defaultValue : bool) : bool :=
  match s with
  | None => defaultValue
  | Some s => Str.mem (Str.toLowerCase s) ["1"; "true"; "yes"; "on"]
  end.

(** The argument object of [aiSearch]. *)
Record SearchArgs : Type := mkSearchArgs {
  query : string;
  topK : option JsNum;
  threshold : option JsNum;
  stream : option bool;
  rewrite : option bool
}.

(** [req.method === "POST" && req.headers.get("Content-Type")?.includes("json")] *)
Definition isJsonPost (req : Request) : bool :=
  String.eqb (method req) "POST" &&
  match header req "Content-Type" with
  | Some ct => Str.includes ct "json"
  | None => false
  end.

(** The five locals of [handleAsk] once the request has been read. *)
Record AskLocals : Type := mkAskLocals {
  ask_query : string;
  ask_topK : JsNum;
  ask_threshold : JsNum;
  ask_stream : bool;
  ask_rewrite : bool
}.

Section Handlers.
Context {rt : Runtime}.
Variable w : World.
Variable env : Env.

(** [env.AI.autorag(env.RAG_ID).aiSearch(params)] and [.search(params)];
    without the binding the property read throws. *)
Definition binding_aiSearch (params : Value) : M Value :=
  if AI env
  then call (AutoragAiSearch (RAG_ID env) params) (autorag_aiSearch w (RAG_ID env) params)
  else throw (TypeError "Cannot read properties of undefined (reading 'autorag')").

Definition binding_search (params : Value) : M Value :=
  if AI env
  then call (AutoragSearch (RAG_ID env) params) (autorag_search w (RAG_ID env) params)
  else throw (TypeError "Cannot read properties of undefined (reading 'autorag')").

(** [Number(env.DEFAULT_TOPK || 6)] and [Number(env.DEFAULT_THRESHOLD || 0.3)] *)
Definition env_number (setting : option string) (fallback : Q) : JsNum :=
  match or_opt setting None with
  | Some s => StringToNumber s
  | None => Fin fallback
  end.

(** The [searchParams] object of [aiSearch]. *)
Definition searchParamsOf (params : SearchArgs) : list (string * Value) :=
    [ ("query", VStr (query params));
      ("rewrite_query", VBool (default true (rewrite params)));
      ("max_num_results",
        VNum (Math_min
                (Math_max (default (env_number (DEFAULT_TOPK env) 6) (topK params)) (Fin 1))
                (Fin 50)));
      ("ranking_options",
        VObj [ ("score_threshold",
                 VNum (Math_max
                         (Math_min
                            (default (env_number (DEFAULT_THRESHOLD env) (3 # 10))
                                     (threshold params))
                            (Fin 1))
                         (Fin 0))) ]) ].

Definition aiSearch (params : SearchArgs) : M Value :=
  let searchParams := searchParamsOf params in
  if default false (stream params)
  then binding_aiSearch (VObj (searchParams ++ [("stream", VBool true)]))
  else binding_aiSearch (VObj searchParams).

(** Lines 93-106 of [handleAsk]: the five locals [query], [topK],
    [threshold], [stream], [rewrite], from the JSON body of a POST or
    else from the query string. *)
Definition readAsk (req : Request) (accept : string) : M AskLocals :=
  if isJsonPost req
  then
    body ← catch_with (req_json req) (VObj []);
    q ← lift (getProp body "query");
    qs ← lift (toString_method (or_else q (VStr "")));
    tk ← lift (getProp body "topK");
    topK ← lift (ToNumber (coalesce (coalesce tk (str_opt (DEFAULT_TOPK env))) (VStr "6")));
    th ← lift (getProp body "threshold");
    threshold ←
      lift (ToNumber (coalesce (coalesce th (str_opt (DEFAULT_THRESHOLD env))) (VStr "0.30")));
    st ← lift (getProp body "stream");
    sts ← lift (opt_toString st);
    rw ← lift (getProp body "rewrite");
    rws ← lift (opt_toString rw);
    mret (mkAskLocals
            (Str.trim qs)
            topK
            threshold
            (parseBoolean sts false || Str.includes accept "text/event-stream")
            (parseBoolean rws true))
  else
    topK ←
      lift (ToNumber (coalesce (coalesce (str_opt (searchParam req "topK"))
                                         (str_opt (DEFAULT_TOPK env))) (VStr "6")));
    threshold ←
      lift (ToNumber (coalesce (coalesce (str_opt (searchParam req "threshold"))
                                         (str_opt (DEFAULT_THRESHOLD env))) (VStr "0.30")));
    mret (mkAskLocals
            (Str.trim (default "" (or_opt (searchParam req "q") (searchParam req "query"))))
            topK
            threshold
            (parseBoolean (or_opt (searchParam req "stream") (STREAM_DEFAULT env)) false
             || Str.includes accept "text/event-stream")
            (parseBoolean (searchParam req "rewrite") true)).

(** The argument of the retrieval-only [search] call of [handleAsk]. *)
Definition retrievalParams (args : AskLocals) : Value :=
  VObj [ ("query", VStr (ask_query args));
         ("rewrite_query", VBool (ask_rewrite args));
         ("max_num_results", VNum (ask_topK args));
         ("ranking_options", VObj [ ("score_threshold", VNum (ask_threshold args)) ]) ].

(** The fixed answer of [handleAsk] when nothing was retrieved. *)
Definition nothingFound (query : string) : Value :=
  VObj [ ("text", VStr ("No relevant information found for: "
                          +:+ dquote +:+ query +:+ dquote));
         ("data", VArr []) ].

(** [req.headers.get("Accept") || ""] *)
Definition acceptOf (req : Request) : string :=
  default "" (or_opt (header req "Accept") None).

(** Lines 138-143 of [handleAsk]: the retrieved documents as one context
    block, a [<file>] element per document. *)
Definition fragmentText (c : Value) : Result Value :=
  match c with
  | VObj fields => if hasOwn fields "text" then getProp c "text" else Ok (VStr "")
  | VArr _ => Ok (VStr "")
  | _ => Throw (TypeError "Cannot use 'in' operator to search for 'text'")
  end.

Definition formatItem (item : Value) : Result string :=
  content ← getProp item "content";
  parts ← as_array (or_else content (VArr []));
  texts ← mapM fragmentText parts;
  text ← join_values (nl +:+ nl) texts;
  filename ← getProp item "filename";
  name ← ToString filename;
  mret ("<file name=" +:+ dquote +:+ name +:+ dquote +:+ ">" +:+ nl
          +:+ text +:+ nl +:+ "</file>").

Definition formatChunks (data : Value) : Result string :=
  items ← as_array data;
  files ← mapM formatItem items;
  mret (Str.join (nl +:+ nl) files).

(** The provider settings handed to the OpenAI client. *)
Definition llmProvider : Value :=
  if is_str (str_opt (USE_EXTERNAL_LLM env)) "openai"
  then VObj [ ("apiKey", str_opt (OPENAI_API_KEY env)) ]
  else VObj [ ("apiKey", str_opt (AZURE_OPENAI_API_KEY env));
              ("baseURL", VStr (tmpl (AZURE_OPENAI_ENDPOINT env) +:+ "?api-version="
                                  +:+ tmpl (AZURE_OPENAI_API_VERSION env))) ].

Definition handleAsk (req : Request) (corsHeaders : Headers) : M Response :=
  if negb (String.eqb (method req) "POST") && negb (String.eqb (method req) "GET")
  then mret (mkResponse 405 corsHeaders (TextBody "Method not allowed"))
  else
    let accept := acceptOf req in
    args ← readAsk req accept;
    if String.eqb (ask_query args) ""
    then mret (json (VObj [ ("error", VStr "Missing 'query' parameter") ]) 400 corsHeaders)
    else
      try_catch
        (if negb (configured (USE_EXTERNAL_LLM env))
         then
           (* fully managed: retrieval and generation by AutoRAG *)
           result ← aiSearch (mkSearchArgs (ask_query args)
                                           (Some (ask_topK args))
                                           (Some (ask_threshold args))
                                           (Some (ask_stream args))
                                           (Some (ask_rewrite args)));
           if ask_stream args
           then mret (mkResponse 200
                        (corsHeaders ∪ {[ "Content-Type" := "text/event-stream";
                                          "Cache-Control" := "no-cache" ]})
                        (body_of result))
           else mret (json result 200 corsHeaders)
         else
           (* AutoRAG for retrieval, an external model for generation *)
           searchResult ← binding_search (retrievalParams args);
           data ← lift (optProp searchResult "data");
           len ← lift (optProp data "length");
           if negb (truthy len)
           then mret (json (nothingFound (ask_query args)) 200 corsHeaders)
           else
             chunks ← lift (formatChunks data);
             let system :=
               "Answer based only on the provided documentation files. Be concise and accurate." in
             let messages := [ ("user", chunks); ("user", ask_query args) ] in
             generated ←
               call (StreamText llmProvider "gpt-4o-mini" system messages)
                    (streamText w llmProvider "gpt-4o-mini" system messages);
             if Str.includes accept "text/event-stream"
             then mret (toAIStreamResponse generated corsHeaders)
             else
               text ← lift (st_text generated);
               mret (json (VObj [ ("text", VStr text); ("data", data) ]) 200 corsHeaders))
        (fun error =>
           mret (json (VObj [ ("error", VStr "Search failed");
                              ("details", VStr (message error)) ])
                      500 corsHeaders)).

Definition handleIngestion (req : Request) (corsHeaders : Headers) : M Response :=
  if negb (String.eqb (method req) "POST")
  then mret (mkResponse 405 corsHeaders (TextBody "Method not allowed"))
  else if unauthorized (INGESTION_TOKEN env) req
  then mret (mkResponse 401 corsHeaders (TextBody "Unauthorized"))
  else
    body ← req_json req;
    path ← lift (getProp body "path");
    content ← (if truthy path then lift (getProp body "content") else mret VUndefined);
    if negb (truthy path) || negb (truthy content)
    then mret (json (VObj [ ("error", VStr "Path and content are required") ]) 400 corsHeaders)
    else if negb (DOCS_BUCKET env)
    then mret (json (VObj [ ("error", VStr "R2 bucket not configured") ]) 500 corsHeaders)
    else
      try_catch
        (key ← lift (storageKey path);
         content_type ← lift (getProp body "content_type");
         let contentType := resolveContentType content_type key in
         metadata ← lift (getProp body "metadata");
         customMetadata ← lift (customMetadataOf "api-ingestion" (now_iso w) metadata);
         _ ← call (BucketPut key content contentType customMetadata)
                  (bucket_put w key content contentType customMetadata);
         mret (json (VObj [ ("success", VBool true);
                            ("message", VStr "Document ingested successfully");
                            ("path", VStr key) ])
                    200 corsHeaders))
        (fun error =>
           mret (json (VObj [ ("error", VStr "Ingestion failed");
                              ("details", VStr (message error)) ])
                      500 corsHeaders)).

(** The JSON-RPC responder of the [NLWebMcp] durable object ([this.env]
    is the worker's environment). *)
Definition rpcError (id : Value) (corsHeaders : Headers)
    (code : Z) (msg : string) (data : Value) : Response :=
  json (VObj [ ("jsonrpc", VStr "2.0");
               ("id", id);
               ("error", VObj [ ("code", VNum (Fin (inject_Z code)));
                                ("message", VStr msg);
                                ("data", data) ]) ])
       200 corsHeaders.

Definition askTool : Value :=
  VObj [ ("name", VStr "ask");
         ("description", VStr "Query Obsidian documentation via AutoRAG");
         ("inputSchema",
           VObj [ ("type", VStr "object");
                  ("properties",
                    VObj [ ("query", VObj [ ("type", VStr "string");
                                            ("description", VStr "Search query") ]);
                           ("topK", VObj [ ("type", VStr "number");
                                           ("description", VStr "Number of results (default: 6)") ]);
                           ("threshold", VObj [ ("type", VStr "number");
                                                ("description", VStr "Score threshold 0-1 (default: 0.3)") ]);
                           ("rewrite", VObj [ ("type", VStr "boolean");
                                              ("description", VStr "Rewrite query for better results (default: true)") ]) ]);
                  ("required", VArr [ VStr "query" ]) ]) ].

(** The [switch (rpc.method)] inside the [try] block of the responder. *)
Definition rpcDispatch (rpc id : Value) (corsHeaders : Headers) : M Response :=
  let error := rpcError id corsHeaders in
  rpc_method ← lift (getProp rpc "method");
  if is_str rpc_method "initialize"
  then mret (json (VObj [ ("jsonrpc", VStr "2.0");
                          ("id", id);
                          ("result",
                            VObj [ ("protocolVersion", VStr "2025-06-18");
                                   ("serverInfo",
                                     VObj [ ("name", VStr "obsidian-docs-autorag");
                                            ("version", VStr "2.0.0") ]);
                                   ("capabilities", VObj [ ("tools", VObj []) ]) ]) ])
                  200 corsHeaders)
  else if is_str rpc_method "tools/list"
  then mret (json (VObj [ ("jsonrpc", VStr "2.0");
                          ("id", id);
                          ("result", VObj [ ("tools", VArr [ askTool ]) ]) ])
                  200 corsHeaders)
  else if is_str rpc_method "tools/call"
  then
    params0 ← lift (getProp rpc "params");
    let params := or_else params0 (VObj []) in
    name ← lift (getProp params "name");
    args ← lift (getProp params "arguments");
    if negb (is_str name "ask")
    then
      shown ← lift (ToString name);
      mret (error (-32601)%Z ("Unknown tool: " +:+ shown) VUndefined)
    else
      q ← lift (optProp args "query");
      query ← lift (toString_method (or_else q (VStr "")));
      if String.eqb query ""
      then mret (error (-32602)%Z "Missing 'query' parameter" VUndefined)
      else
        tk ← lift (optProp args "topK");
        topK ← lift (ToNumber (coalesce tk (VNum (Fin 6))));
        th ← lift (optProp args "threshold");
        threshold ← lift (ToNumber (coalesce th (VNum (Fin (3 # 10)))));
        rw ← lift (optProp args "rewrite");
        let rewrite := ToBoolean (coalesce rw (VBool true)) in
        result ← aiSearch (mkSearchArgs query (Some topK) (Some threshold)
                                        (Some false) (Some rewrite));
        mret (json (VObj [ ("jsonrpc", VStr "2.0"); ("id", id); ("result", result) ])
                   200 corsHeaders)
  else
    shown ← lift (ToString rpc_method);
    mret (error (-32601)%Z ("Method not found: " +:+ shown) VUndefined).

Definition NLWebMcp_fetch (req : Request) : M Response :=
  let corsHeaders := getCorsHeaders (header req "Origin") (ALLOWED_ORIGINS env) in
  if String.eqb (method req) "OPTIONS"
  then mret (mkResponse 204 corsHeaders NoBody)
  else if negb (String.eqb (method req) "POST")
  then mret (mkResponse 405 corsHeaders (TextBody "Method Not Allowed"))
  else
    rpc ← catch_with (req_json req) (VObj []);
    id0 ← lift (getProp rpc "id");
    let id := coalesce id0 VNull in
    try_catch
      (rpcDispatch rpc id corsHeaders)
      (fun e =>
         mret (rpcError id corsHeaders (-32000)%Z "Server error"
                        (VObj [ ("message", VStr (message_or_string e)) ]))).

(** The worker's entry point. *)
Definition fetch (req : Request) : M Response :=
  let corsHeaders := getCorsHeaders (header req "Origin") (ALLOWED_ORIGINS env) in
  if String.eqb (method req) "OPTIONS"
  then mret (mkResponse 204 corsHeaders NoBody)
  else if String.eqb (pathname req) "/ask"
  then handleAsk req corsHeaders
  else if String.eqb (pathname req) "/mcp"
  then NLWebMcp_fetch req
  else if String.eqb (pathname req) "/api/ingest"
  then handleIngestion req corsHeaders
  else if String.eqb (pathname req) "/api/autorag-search"
  then handleAsk req corsHeaders
  else if String.eqb (pathname req) "/api/status"
  then mret (json (VObj [ ("operational", VBool true);
                          ("autorag_name", VStr (RAG_ID env));
                          ("ai_binding_available", VBool (AI env));
                          ("ingestion_enabled", VBool (configured (INGESTION_TOKEN env)));
                          ("external_llm",
                            VStr (default "none" (or_opt (USE_EXTERNAL_LLM env) None)));
                          ("timestamp", VStr (now_iso w)) ])
                  200 corsHeaders)
  else
    assetResponse ← call (AssetsFetch req) (assets_fetch w req);
    if (status assetResponse =? 404)%nat
    then mret (notFound corsHeaders)
    else mret assetResponse.

End Handlers.

End Worker.

(** ** The older multi-endpoint proxy *)

Module Legacy.

Record Env : Type := mkEnv {
  AI : bool;                         (* the Workers AI binding is bound *)
  ACCOUNT_ID : option string;
  AUTORAG_NAME : option string;
  API_TOKEN : option string;
  INGESTION_TOKEN : option string;
  ALLOWED_ORIGINS : option string;
  ALLOWED_RENDER_HOSTS : option string;
  MY_BROWSER : bool                  (* the Browser Rendering binding is bound *)
}.

(** [new Response(JSON.stringify(o), { status, headers: { ...headers,
    'Content-Type': 'application/json' } })] *)
Definition jsonResponse (o : Value) (status : nat) (hdrs : Headers) : Response :=
  mkResponse status (<[ "Content-Type" := "application/json" ]> hdrs) (JsonBody o).

(** [...(cond && { k: v })] inside an object literal. *)
Definition spread_if (cond : bool) (k : string) (v : Value) : list (string * Value) :=
  if cond then [ (k, v) ] else [].

(** [s.replace(/^\/+|\/+$/g, '')] *)
Fixpoint dropSlashes (s : string) : string :=
  match s with
  | String c r => if Ascii.eqb c "/" then dropSlashes r else s
  | EmptyString => EmptyString
  end.
Definition stripSlashes (s : string) : string :=
  String.rev (dropSlashes (String.rev (dropSlashes s))).

(** The character classes [[^a-zA-Z0-9.-]] and [[:.]]; they are applied
    to a URL's hostname and to an ISO timestamp, which hold ASCII
    characters only. *)
Definition unsafeHostChar (c : ascii) : bool :=
  let n := nat_of_ascii c in
  negb (((97 <=? n) && (n <=? 122)) || ((65 <=? n) && (n <=? 90))
        || ((48 <=? n) && (n <=? 57)) || (n =? 46) || (n =? 45))%nat.
Definition colonOrDot (c : ascii) : bool :=
  let n := nat_of_ascii c in ((n =? 58) || (n =? 46))%nat.

Section Handlers.
Context {rt : Runtime}.
Variable w : World.
Variable env : Env.

Definition corsHeadersOf (req : Request) : Headers :=
  let origin := default "" (or_opt (header req "Origin") None) in
  let allowed :=
    List.filter (fun s => negb (String.eqb s ""))
                (List.map Str.trim
                   (Str.split "," (default "*" (or_opt (ALLOWED_ORIGINS env) None)))) in
  let allowAll := Str.mem "*" allowed in
  let allowOrigin :=
    if allowAll then "*" else if Str.mem origin allowed then origin else "null" in
  {[ "Access-Control-Allow-Origin" := allowOrigin;
     "Access-Control-Allow-Methods" := "GET, POST, OPTIONS";
     "Access-Control-Allow-Headers" := "Content-Type, Authorization" ]}.

Definition autoragUrl (suffix : string) : string :=
  "https://api.cloudflare.com/client/v4/accounts/" +:+ tmpl (ACCOUNT_ID env)
    +:+ "/autorag/rags/" +:+ tmpl (AUTORAG_NAME env) +:+ suffix.

Definition syncUrl : string := autoragUrl "/sync".

Definition syncHeaders : Headers :=
  {[ "Authorization" := "Bearer " +:+ tmpl (API_TOKEN env);
     "Content-Type" := "application/json" ]}.

Definition triggerAutoRAGSync : M Value :=
  if negb (configured (ACCOUNT_ID env)) || negb (configured (API_TOKEN env))
     || negb (configured (AUTORAG_NAME env))
  then mret (VObj [ ("skipped", VBool true); ("reason", VStr "Not configured") ])
  else
    try_catch
      (response ← call (HttpFetch syncUrl "POST" syncHeaders None)
                       (http_fetch w syncUrl "POST" syncHeaders None);
       if negb (fr_ok response)
       then
         (* a cooldown is not an error *)
         if (fr_status response =? 429)%nat || (fr_status response =? 409)%nat
         then mret (VObj [ ("skipped", VBool true);
                           ("reason",
                             VStr "Sync is on cooldown (3-minute minimum between syncs)") ])
         else
           error ← lift (fr_text response);
           throw (Error ("Sync API error: " +:+ Str.of_nat (fr_status response)
                           +:+ " - " +:+ error))
       else lift (fr_json response))
      (fun error =>
         (* logged, and the request goes on *)
         mret (VObj [ ("error", VBool true); ("message", VStr (message error)) ])).

Definition handleSearch (req : Request) (hdrs : Headers) : M Response :=
  if negb (String.eqb (method req) "POST")
  then mret (mkResponse 405 hdrs (TextBody "Method not allowed"))
  else
    body ← req_json req;
    query ← lift (getProp body "query");
    if negb (truthy query)
    then mret (jsonResponse (VObj [ ("error", VStr "Query is required") ]) 400 hdrs)
    else
      try_catch
        (use_ai_search ← lift (getProp body "use_ai_search");
         let useAiSearch := negb (is_false use_ai_search) in
         max_num_results ← lift (getProp body "max_num_results");
         rewrite_query ← lift (getProp body "rewrite_query");
         ranking_options ← lift (getProp body "ranking_options");
         model ← lift (getProp body "model");
         filters ← lift (getProp body "filters");
         stream ← lift (getProp body "stream");
         if AI env
         then
           let searchParams :=
             VObj ([ ("query", query);
                     ("max_num_results", or_else max_num_results (VNum (Fin 5)));
                     ("rewrite_query", VBool (negb (is_false rewrite_query)));
                     ("ranking_options",
                       or_else ranking_options
                               (VObj [ ("score_threshold", VNum (Fin (3 # 10))) ])) ]
                   ++ spread_if (truthy model) "model" model
                   ++ spread_if (truthy filters) "filters" filters
                   ++ spread_if (truthy stream) "stream" stream) in
           result ←
             (if useAiSearch
              then call (AutoragAiSearch (tmpl (AUTORAG_NAME env)) searchParams)
                        (autorag_aiSearch w (tmpl (AUTORAG_NAME env)) searchParams)
              else call (AutoragSearch (tmpl (AUTORAG_NAME env)) searchParams)
                        (autorag_search w (tmpl (AUTORAG_NAME env)) searchParams));
           mret (jsonResponse result 200 hdrs)
         else
           (* REST API *)
           let endpoint := if useAiSearch then "ai-search" else "search" in
           let apiUrl := autoragUrl ("/" +:+ endpoint) in
           let reqHeaders : Headers :=
             {[ "Content-Type" := "application/json";
                "Authorization" := "Bearer " +:+ tmpl (API_TOKEN env) ]} in
           let payload :=
             VObj ([ ("query", query) ]
                   ++ spread_if (truthy max_num_results) "max_num_results" max_num_results
                   ++ spread_if (negb (match rewrite_query with VUndefined => true | _ => false end))
                                "rewrite_query" rewrite_query
                   ++ spread_if (truthy model) "model" model
                   ++ spread_if (truthy ranking_options) "ranking_options" ranking_options
                   ++ spread_if (truthy filters) "filters" filters
                   ++ spread_if (truthy stream) "stream" stream) in
           apiResponse ← call (HttpFetch apiUrl "POST" reqHeaders (Some payload))
                              (http_fetch w apiUrl "POST" reqHeaders (Some payload));
           if negb (fr_ok apiResponse)
           then
             error ← lift (fr_text apiResponse);
             throw (Error ("API error: " +:+ Str.of_nat (fr_status apiResponse)
                             +:+ " - " +:+ error))
           else
             match (if truthy stream then fr_body apiResponse else None) with
             | Some upstream =>
                 mret (mkResponse 200
                         (<[ "Cache-Control" := "no-cache" ]>
                            (<[ "Content-Type" := "text/event-stream" ]> hdrs))
                         (StreamBody upstream))
             | None =>
                 result ← lift (fr_json apiResponse);
                 success ← lift (getProp result "success");
                 inner ← lift (getProp result "result");
                 let responseData := if truthy (and_then success inner) then inner else result in
                 mret (jsonResponse responseData 200 hdrs)
             end)
        (fun error =>
           mret (jsonResponse (VObj [ ("error", VStr "Search failed");
                                      ("details", VStr (message error)) ])
                              500 hdrs)).

Definition handleIngestion (req : Request) (hdrs : Headers) : M Response :=
  if negb (String.eqb (method req) "POST")
  then mret (mkResponse 405 hdrs (TextBody "Method not allowed"))
  else if unauthorized (INGESTION_TOKEN env) req
  then mret (mkResponse 401 hdrs (TextBody "Unauthorized"))
  else
    body ← req_json req;
    path ← lift (getProp body "path");
    content ← lift (getProp body "content");
    if negb (truthy path) || negb (truthy content)
    then mret (jsonResponse (VObj [ ("error", VStr "Path and content are required") ]) 400 hdrs)
    else
      try_catch
        (key ← lift (storageKey path);
         content_type ← lift (getProp body "content_type");
         let contentType := resolveContentType content_type key in
         metadata ← lift (getProp body "metadata");
         customMetadata ← lift (customMetadataOf "continuous-ingestion" (now_iso w) metadata);
         _ ← call (BucketPut key content contentType customMetadata)
                  (bucket_put w key content contentType customMetadata);
         syncResponse ← triggerAutoRAGSync;
         mret (jsonResponse (VObj [ ("success", VBool true);
                                    ("message", VStr "Document ingested successfully");
                                    ("path", VStr key);
                                    ("sync", syncResponse) ])
                            200 hdrs))
        (fun error =>
           mret (jsonResponse (VObj [ ("error", VStr "Ingestion failed");
                                      ("details", VStr (message error)) ])
                              500 hdrs)).

(** Rendering a remote page and storing its HTML.  The puppeteer session
    ([launch], [newPage], [goto], [content], [close]) is one outside call
    that yields the page's HTML or throws. *)
Definition handleRenderAndIngest (req : Request) (hdrs : Headers) : M Response :=
  if negb (String.eqb (method req) "POST")
  then mret (mkResponse 405 hdrs (TextBody "Method not allowed"))
  else if unauthorized (INGESTION_TOKEN env) req
  then mret (mkResponse 401 hdrs (TextBody "Unauthorized"))
  else if negb (MY_BROWSER env)
  then mret (jsonResponse (VObj [ ("error", VStr "Browser binding not configured") ]) 500 hdrs)
  else
    parsed ← try_catch (Some <$> req_json req) (fun _ => mret None);
    match parsed with
    | None => mret (mkResponse 400 hdrs (TextBody "Invalid JSON"))
    | Some body =>
        url ← lift (optProp body "url");
        if negb (truthy url)
        then mret (mkResponse 400 hdrs (TextBody "Missing url"))
        else
          let allowList :=
            List.filter (fun s => negb (String.eqb s ""))
                        (List.map Str.trim
                           (Str.split "," (default "" (or_opt (ALLOWED_RENDER_HOSTS env) None)))) in
          match (match ToString url with
                 | Ok s => URL_parse w s
                 | Throw _ => None
                 end) with
          | None => mret (mkResponse 400 hdrs (TextBody "Invalid url"))
          | Some (href, hostname) =>
              if negb (Nat.eqb (length allowList) 0) && negb (Str.mem hostname allowList)
              then mret (mkResponse 403 hdrs (TextBody "Host not allowed"))
              else
                try_catch
                  (waitUntil0 ← lift (getProp body "waitUntil");
                   timeoutMs ← lift (getProp body "timeoutMs");
                   let waitUntil := or_else waitUntil0 (VStr "networkidle") in
                   let timeout := coalesce timeoutMs (VNum (Fin 20000)) in
                   html ← call (BrowserRender href waitUntil timeout)
                               (browser_render w href waitUntil timeout);
                   let safeHost := Str.replaceAll unsafeHostChar "_" hostname in
                   let time := Str.replaceAll colonOrDot "-" (now_iso w) in
                   keyPrefix ← lift (getProp body "keyPrefix");
                   prefix ←
                     (if truthy keyPrefix
                      then p ← lift (as_string keyPrefix "replace");
                           mret (stripSlashes p +:+ "/")
                      else mret "");
                   let key := prefix +:+ safeHost +:+ "_" +:+ time +:+ ".html" in
                   let customMetadata : Headers :=
                     {[ "source" := "browser-render"; "url" := href;
                        "timestamp" := now_iso w ]} in
                   _ ← call (BucketPut key (VStr html) (VStr "text/html") customMetadata)
                            (bucket_put w key (VStr html) (VStr "text/html") customMetadata);
                   sync ← triggerAutoRAGSync;
                   mret (jsonResponse (VObj [ ("success", VBool true);
                                              ("key", VStr key);
                                              ("sync", sync) ])
                                      200 hdrs))
                  (fun error =>
                     mret (jsonResponse (VObj [ ("error", VStr "Render-ingest failed");
                                                ("details", VStr (message_or_string error)) ])
                                        500 hdrs))
          end
    end.

Definition handleSync (req : Request) (hdrs : Headers) : M Response :=
  if negb (String.eqb (method req) "POST")
  then mret (mkResponse 405 hdrs (TextBody "Method not allowed"))
  else if unauthorized (INGESTION_TOKEN env) req
  then mret (mkResponse 401 hdrs (TextBody "Unauthorized"))
  else
    try_catch
      (syncResponse ← triggerAutoRAGSync;
       mret (jsonResponse (VObj [ ("success", VBool true);
                                  ("message", VStr "Sync triggered successfully");
                                  ("response", syncResponse) ])
                          200 hdrs))
      (fun error =>
         mret (jsonResponse (VObj [ ("error", VStr "Sync failed");
                                    ("details", VStr (message error)) ])
                            500 hdrs)).

Definition handleStatus (hdrs : Headers) : M Response :=
  try_catch
    (let status :=
       [ ("autorag_name", str_opt (AUTORAG_NAME env));
         ("operational", VBool true);
         ("last_check", VStr (now_iso w));
         ("api_configured", VBool (configured (API_TOKEN env)));
         ("ai_binding_available", VBool (AI env));
         ("ingestion_enabled", VBool (configured (INGESTION_TOKEN env))) ] in
     details ←
       (if configured (API_TOKEN env) && configured (ACCOUNT_ID env)
        then
          let apiUrl := autoragUrl "" in
          let reqHeaders : Headers :=
            {[ "Authorization" := "Bearer " +:+ tmpl (API_TOKEN env) ]} in
          try_catch
            (response ← call (HttpFetch apiUrl "GET" reqHeaders None)
                             (http_fetch w apiUrl "GET" reqHeaders None);
             if fr_ok response
             then
               data ← lift (fr_json response);
               result ← lift (getProp data "result");
               mret [ ("autorag_details", result) ]
             else mret [])
            (fun _ => mret [])      (* errors are ignored, the basic status is returned *)
        else mret []);
     mret (jsonResponse (VObj (status ++ details)) 200 hdrs))
    (fun _ =>
       mret (jsonResponse (VObj [ ("error", VStr "Status check failed") ]) 500 hdrs)).

(** The worker's entry point.  Inside its [try] block every handler is
    called and its promise returned without [await]: the block itself
    only produces that promise, so the [catch] clause sees none of the
    handler's rejections; the function then settles as the returned
    promise does. *)
Definition fetch (req : Request) : M Response :=
  let corsHeaders := corsHeadersOf req in
  if String.eqb (method req) "OPTIONS"
  then mret (mkResponse 200 corsHeaders NoBody)
  else
    returned ←
      try_catch
        (mret (if String.eqb (pathname req) "/api/autorag-search"
               then handleSearch req corsHeaders
               else if String.eqb (pathname req) "/api/ingest"
               then handleIngestion req corsHeaders
               else if String.eqb (pathname req) "/api/render-ingest"
               then handleRenderAndIngest req corsHeaders
               else if String.eqb (pathname req) "/api/sync"
               then handleSync req corsHeaders
               else if String.eqb (pathname req) "/api/status"
               then handleStatus corsHeaders
               else mret (mkResponse 404 corsHeaders (TextBody "Not Found"))))
        (fun _ =>
           mret (mret (jsonResponse (VObj [ ("error", VStr "Internal Server Error") ])
                                    500 corsHeaders)));
    returned.

End Handlers.

End Legacy.

(** ** A concrete runtime and world for closed examples *)

(** Decimal literals: an optional sign, digits, an optional fraction. *)
Fixpoint readDigits (s : string) (acc : Z) (scale : Z) : option (Z * Z) :=
  match s with
  | EmptyString => Some (acc, scale)
  | String c r =>
      match Ascii.is_nat c with
      | Some d => readDigits r (10 * acc + Z.of_nat d)%Z (10 * scale)%Z
      | None => None
      end
  end.

Definition splitAt (sep : ascii) (s : string) : string * option string :=
  match Str.split sep s with
  | [a] => (a, None)
  | [a; b] => (a, Some b)
  | _ => (s, None)
  end.

Definition readDecimal (s : string) : JsNum :=
  let t := Str.trim s in
  let '(neg, body) :=
    match t with
    | String "-" r => (true, r)
    | String "+" r => (false, r)
    | _ => (false, t)
    end in
  let sign (z : Z) := if neg then (- z)%Z else z in
  match t, body with
  | EmptyString, _ => Fin 0
  | _, EmptyString => NaN
  | _, _ =>
      match splitAt "." body with
      | (whole, None) =>
          match readDigits whole 0 1 with
          | Some (n, _) => Fin (inject_Z (sign n))
          | None => NaN
          end
      | (whole, Some frac) =>
          match readDigits whole 0 1, readDigits frac 0 1 with
          | Some (n, _), Some (f, scale) =>
              if String.eqb whole "" && String.eqb frac "" then NaN
              else Fin (Qred (sign (n * scale + f)%Z # Z.to_pos scale))
          | _, _ => NaN
          end
      end
  end.

(** Rendering: integers in decimal, other finite numbers with up to
    seventeen fractional digits. *)
Fixpoint fracDigits (fuel : nat) (num den : Z) : string :=
  match fuel with
  | O => ""
  | S k =>
      if (num =? 0)%Z then ""
      else Str.of_nat (Z.to_nat (10 * num / den)) +:+ fracDigits k ((10 * num) mod den) den
  end.

Definition showNumber (x : JsNum) : string :=
  match x with
  | NaN => "NaN"
  | PosInf => "Infinity"
  | NegInf => "-Infinity"
  | Fin q =>
      let n := Qnum q in
      let d := Zpos (Qden q) in
      let a := Z.abs n in
      let whole := Str.of_nat (Z.to_nat (a / d)) in
      let frac := fracDigits 17 (a mod d) d in
      (if (n <? 0)%Z then "-" else "")
        +:+ whole +:+ (if String.eqb frac "" then "" else "." +:+ frac)
  end.

Definition decimalRuntime : Runtime :=
  {| StringToNumber := readDecimal; NumberToString := showNumber |}.

(** A world in which every outside call succeeds with a fixed answer. *)
Definition answer : Value :=
  VObj [ ("response", VStr "An answer."); ("data", VArr []) ].

Definition quietWorld : World :=
  {| now_iso := "2025-01-01T00:00:00.000Z";
     autorag_aiSearch := fun _ _ => Ok answer;
     autorag_search := fun _ _ => Ok answer;
     bucket_put := fun _ _ _ _ => Ok tt;
     streamText := fun _ _ _ _ =>
       Ok (mkStreamTextResult (fun h => mkResponse 200 h (StreamBody VNull)) (Ok "Generated."));
     assets_fetch := fun _ => Ok (mkResponse 404 ∅ NoBody);
     http_fetch := fun _ _ _ _ => Ok (mkFetchResponse 200 (Ok "{}") (Ok (VObj [])) None);
     browser_render := fun _ _ _ => Ok "<html></html>";
     URL_parse := fun _ => None |}.

Definition managedEnv : Worker.Env :=
  {| Worker.AI := true; Worker.RAG_ID := "docs"; Worker.DOCS_BUCKET := true;
     Worker.STREAM_DEFAULT := None; Worker.DEFAULT_TOPK := None;
     Worker.DEFAULT_THRESHOLD := None; Worker.USE_EXTERNAL_LLM := None;
     Worker.ALLOWED_ORIGINS := None; Worker.OPENAI_API_KEY := None;
     Worker.AZURE_OPENAI_ENDPOINT := None; Worker.AZURE_OPENAI_API_KEY := None;
     Worker.AZURE_OPENAI_API_VERSION := None; Worker.INGESTION_TOKEN := None |}.

Definition legacyEnv : Legacy.Env :=
  {| Legacy.AI := true; Legacy.ACCOUNT_ID := Some "acct"; Legacy.AUTORAG_NAME := Some "docs";
     Legacy.API_TOKEN := Some "secret"; Legacy.INGESTION_TOKEN := None;
     Legacy.ALLOWED_ORIGINS := None; Legacy.ALLOWED_RENDER_HOSTS := None;
     Legacy.MY_BROWSER := false |}.

(** A POST of a JSON document. *)
Definition postJson (path : string) (doc : option Value) : Request :=
  {| method := "POST"; pathname := path; searchParams := [];
     req_headers := {[ "Content-Type" := "application/json" ]};
     json_body := doc |}.


Definition optionsRequest (path : string) : Request :=
  {| method := "OPTIONS"; pathname := path; searchParams := [];
     req_headers := {[ "Origin" := "https://docs.example" ]};
     json_body := None |}.

(** ** Predicates on asynchronous computations *)

(** [returns P m]: if [m] returns a value, the value satisfies [P]. *)
Definition returns {A} (P : A -> Prop) (m : M A) : Prop :=
  forall a, outcome m = Ok a -> P a.

(** [calls Q m]: every outside call [m] makes satisfies [Q]. *)
Definition calls {A} (Q : Call -> Prop) (m : M A) : Prop :=
  Forall Q (trace m).

(** [settles m]: [m] returns a value, it does not throw. *)
Definition settles {A} (m : M A) : Prop :=
  exists a, outcome m = Ok a.

(** A request that differs from [req] in its Authorization header only. *)
Definition withAuthorization (auth : option string) (req : Request) : Request :=
  {| method := method req; pathname := pathname req; searchParams := searchParams req;
     req_headers :=
       match auth with
       | Some a => <[ "Authorization" := a ]> (req_headers req)
       | None => delete "Authorization" (req_headers req)
       end;
     json_body := json_body req |}.

(** ** Notions of the specification *)

(** The retrieval backend returned no document: no result at all, no
    [data], or an empty [data] array. *)
Definition zeroDocuments {rt : Runtime} (searchResult : Value) : Prop :=
  nullish searchResult = true
  \/ exists data, getProp searchResult "data" = Ok data
                  /\ (nullish data = true \/ data = VArr []).

(** The fixed answer when nothing was retrieved: the text names the
    query between double quotes, and the list of sources is empty. *)
Definition noRelevantInformation (query : string) : Value :=
  VObj [ ("text",
          VStr ("No relevant information found for: "
                  +:+ String "034" (query +:+ String "034" EmptyString)));
         ("data", VArr []) ].

Definition securedEnv : Worker.Env :=
  {| Worker.AI := true; Worker.RAG_ID := "docs"; Worker.DOCS_BUCKET := true;
     Worker.STREAM_DEFAULT := None; Worker.DEFAULT_TOPK := None;
     Worker.DEFAULT_THRESHOLD := None; Worker.USE_EXTERNAL_LLM := None;
     Worker.ALLOWED_ORIGINS := None; Worker.OPENAI_API_KEY := None;
     Worker.AZURE_OPENAI_ENDPOINT := None; Worker.AZURE_OPENAI_API_KEY := None;
     Worker.AZURE_OPENAI_API_VERSION := None; Worker.INGESTION_TOKEN := Some "s3cret" |}.

Definition securedLegacyEnv : Legacy.Env :=
  {| Legacy.AI := true; Legacy.ACCOUNT_ID := Some "acct"; Legacy.AUTORAG_NAME := Some "docs";
     Legacy.API_TOKEN := Some "secret"; Legacy.INGESTION_TOKEN := Some "s3cret";
     Legacy.ALLOWED_ORIGINS := None; Legacy.ALLOWED_RENDER_HOSTS := None;
     Legacy.MY_BROWSER := false |}.

Definition externalEnv : Worker.Env :=
  {| Worker.AI := true; Worker.RAG_ID := "docs"; Worker.DOCS_BUCKET := true;
     Worker.STREAM_DEFAULT := None; Worker.DEFAULT_TOPK := None;
     Worker.DEFAULT_THRESHOLD := None; Worker.USE_EXTERNAL_LLM := Some "openai";
     Worker.ALLOWED_ORIGINS := None; Worker.OPENAI_API_KEY := Some "key";
     Worker.AZURE_OPENAI_ENDPOINT := None; Worker.AZURE_OPENAI_API_KEY := None;
     Worker.AZURE_OPENAI_API_VERSION := None; Worker.INGESTION_TOKEN := None |}.

Definition document : Value :=
  VObj [ ("path", VStr "/guide/intro.md"); ("content", VStr "# Intro") ].

Definition cooldown : Value :=
  VObj [ ("skipped", VBool true);
         ("reason", VStr "Sync is on cooldown (3-minute minimum between syncs)") ].

Definition syncFailed (msg : string) : Value :=
  VObj [ ("error", VBool true); ("message", VStr msg) ].

(** The ingestion response of the older worker that reports success. *)
Definition ingested (key : string) (sync : Value) : Value :=
  VObj [ ("success", VBool true);
         ("message", VStr "Document ingested successfully");
         ("path", VStr key);
         ("sync", sync) ].

(** A world whose re-index endpoint answers with the given status. *)
Definition syncWorld (code : nat) : World :=
  {| now_iso := now_iso quietWorld;
     autorag_aiSearch := autorag_aiSearch quietWorld;
     autorag_search := autorag_search quietWorld;
     bucket_put := bucket_put quietWorld;
     streamText := streamText quietWorld;
     assets_fetch := assets_fetch quietWorld;
     http_fetch := fun _ _ _ _ =>
       Ok (mkFetchResponse code (Ok "busy") (Throw (SyntaxError "Unexpected token")) None);
     browser_render := browser_render quietWorld;
     URL_parse := URL_parse quietWorld |}.

(** [v.k] where reading cannot fail; [undefined] otherwise. *)
Definition prop {rt : Runtime} (v : Value) (k : string) : Value :=
  match getProp v k with
  | Ok x => x
  | Throw _ => VUndefined
  end.

(** The correlation value a JSON-RPC response must carry: the request's
    [id], or [null] when the request has none. *)
Definition rpcId {rt : Runtime} (rpc : Value) : Value := coalesce (prop rpc "id") VNull.

(** The [name] and [arguments] of a [tools/call] request, and the [query]
    argument with the empty string standing in for a missing one. *)
Definition toolName {rt : Runtime} (rpc : Value) : Value :=
  prop (or_else (prop rpc "params") (VObj [])) "name".

Definition toolArguments {rt : Runtime} (rpc : Value) : Value :=
  prop (or_else (prop rpc "params") (VObj [])) "arguments".

Definition toolArgument {rt : Runtime} (rpc : Value) (k : string) : Value :=
  if nullish (toolArguments rpc) then VUndefined else prop (toolArguments rpc) k.

Definition toolQuery {rt : Runtime} (rpc : Value) : Value :=
  or_else (toolArgument rpc "query") (VStr "").

(** A JSON-RPC response document: version, the echoed [id], and one
    member that is either the result or the error. *)
Definition rpcResponse (id : Value) (member : string * Value) : Value :=
  VObj [ ("jsonrpc", VStr "2.0"); ("id", id); member ].

Definition rpcErrorObject (code : Z) (msg : string) (data : Value) : string * Value :=
  ("error", VObj [ ("code", VNum (Fin (inject_Z code)));
                   ("message", VStr msg);
                   ("data", data) ]).

(** A world whose retrieval backend is down. *)
Definition failingWorld : World :=
  {| now_iso := now_iso quietWorld;
     autorag_aiSearch := fun _ _ => Throw (Error "backend down");
     autorag_search := fun _ _ => Throw (Error "backend down");
     bucket_put := bucket_put quietWorld;
     streamText := streamText quietWorld;
     assets_fetch := assets_fetch quietWorld;
     http_fetch := http_fetch quietWorld;
     browser_render := browser_render quietWorld;
     URL_parse := URL_parse quietWorld |}.

Definition toolCall (id : Value) (name : Value) (arguments : Value) : Value :=
  VObj [ ("jsonrpc", VStr "2.0"); ("id", id); ("method", VStr "tools/call");
         ("params", VObj [ ("name", name); ("arguments", arguments) ]) ].



(** Text made of white space only: a sequence of white-space code
    points. *)
Inductive blankText : string -> Prop :=
  | blank_none : blankText ""
  | blank_more (t s : string) : In t Str.spaces -> blankText s -> blankText (t +:+ s).



(** A JSON answer: its status and the document in its body. *)
Definition answers (code : nat) (doc : Value) (resp : Response) : Prop :=
  status resp = code /\ body resp = JsonBody doc.

(** A value whose conversion to a string or a number throws. *)
Definition unconvertible : Value := VObj [ ("toString", VNum (Fin 1)) ].

(** The metadata entries a caller sent with an ingest request. *)
Definition callerMetadata {rt : Runtime} (body : Value) : list (string * Value) :=
  entries (or_else (prop body "metadata") (VObj [])).

(** What the stored metadata holds under [k], given the caller's entries
    and the entries the worker sets itself: the caller's value, as a
    string, when the caller supplied the key; the worker's otherwise. *)
Definition callerWins {rt : Runtime} (caller : list (string * Value)) (system stored : Headers)
    (k : string) : Prop :=
  (~ In k (List.map fst caller) -> stored !! k = system !! k)
  /\ (In k (List.map fst caller) ->
      exists v s, In (k, v) caller /\ ToString v = Ok s /\ stored !! k = Some s).

Definition documentWithMetadata : Value :=
  VObj [ ("path", VStr "/guide/intro.md");
         ("content", VStr "# Intro");
         ("metadata", VObj [ ("source", VStr "mine"); ("timestamp", VStr "yesterday") ]) ].

(** The result count and the score threshold a backend call carries. *)
Definition max_num_results_of {rt : Runtime} (params : Value) : Value :=
  prop params "max_num_results".

Definition ranking_options_of {rt : Runtime} (params : Value) : Value :=
  prop params "ranking_options".

Definition score_threshold_of {rt : Runtime} (params : Value) : Value :=
  prop (ranking_options_of params) "score_threshold".

(** [v] is a number within [lo, hi]. *)
Definition clamped (lo hi : Q) (v : Value) : Prop :=
  match v with
  | VNum n => within lo hi n
  | _ => False
  end.

(** The result count and threshold [aiSearch] works from: the given one,
    else the configured default, else 6 and 0.3. *)
Definition requestedTopK {rt : Runtime} (env : Worker.Env) (params : Worker.SearchArgs) : JsNum :=
  default (Worker.env_number (Worker.DEFAULT_TOPK env) 6) (Worker.topK params).

Definition requestedThreshold {rt : Runtime} (env : Worker.Env) (params : Worker.SearchArgs)
    : JsNum :=
  default (Worker.env_number (Worker.DEFAULT_THRESHOLD env) (3 # 10)) (Worker.threshold params).

(** The [aiSearch] argument [handleAsk] builds from its locals. *)
Definition searchArgsOf (args : Worker.AskLocals) : Worker.SearchArgs :=
  Worker.mkSearchArgs (Worker.ask_query args)
                      (Some (Worker.ask_topK args))
                      (Some (Worker.ask_threshold args))
                      (Some (Worker.ask_stream args))
                      (Some (Worker.ask_rewrite args)).

Definition greedySearch : Value :=
  VObj [ ("query", VStr "plugins"); ("topK", VNum (Fin 999)); ("threshold", VNum (Fin 2)) ].

(** What a request document carries under [k] when a field is passed on
    only if it is truthy: the value, or no entry at all. *)
Definition passedOn {rt : Runtime} (body : Value) (k : string) : option Value :=
  if truthy (prop body k) then Some (prop body k) else None.

(** An environment of the older worker without its AI binding. *)
Definition unboundLegacyEnv : Legacy.Env :=
  {| Legacy.AI := false; Legacy.ACCOUNT_ID := Some "acct"; Legacy.AUTORAG_NAME := Some "docs";
     Legacy.API_TOKEN := Some "secret"; Legacy.INGESTION_TOKEN := None;
     Legacy.ALLOWED_ORIGINS := None; Legacy.ALLOWED_RENDER_HOSTS := None;
     Legacy.MY_BROWSER := false |}.

Definition greedyLegacySearch : Value :=
  VObj [ ("query", VStr "plugins");
         ("max_num_results", VNum (Fin 999));
         ("ranking_options", VObj [ ("score_threshold", VNum (Fin 2)) ]) ].

(** ** Notions used by the further properties *)

(** The entries of a comma-separated setting: trimmed, empty ones
    dropped. *)
Definition listedEntries (setting : string) : list string :=
  List.filter (fun s => negb (String.eqb s "")) (List.map Str.trim (Str.split "," setting)).

Definition getRequest (path : string) : Request :=
  {| method := "GET"; pathname := path; searchParams := [];
     req_headers := ∅; json_body := None |}.

(** The paths the unified worker answers itself. *)
Definition workerApiPaths : list string :=
  [ "/ask"; "/mcp"; "/api/ingest"; "/api/autorag-search"; "/api/status" ].


(** The response every handler gives to a verb it does not serve. *)
Definition methodNotAllowed (hdrs : Headers) : M Response :=
  ([], Ok (mkResponse 405 hdrs (TextBody "Method not allowed"))).

Definition deleteRequest (path : string) : Request :=
  {| method := "DELETE"; pathname := path; searchParams := [];
     req_headers := ∅; json_body := None |}.


(** The hosts the render-ingest endpoint may visit; empty means any. *)
Definition renderHosts (env : Legacy.Env) : list string :=
  listedEntries (default "" (or_opt (Legacy.ALLOWED_RENDER_HOSTS env) None)).

(** The key prefix a render-ingest request asks for: none when its
    [keyPrefix] is absent or falsy; else [keyPrefix] is a string, and the
    prefix is that string without its leading and trailing slashes,
    followed by one slash. *)
Definition requestedPrefix {rt : Runtime} (body : Value) (prefix : string) : Prop :=
  (truthy (prop body "keyPrefix") = false /\ prefix = "")
  \/ exists p,
       prop body "keyPrefix" = VStr p /\ p <> ""
       /\ prefix = Legacy.stripSlashes p +:+ "/".

(** The characters of a hostname that a stored key keeps. *)
Definition hostCharacters : string :=
  "abcdefghijklmnopqrstuvwxyzABCDEFGHIJKLMNOPQRSTUVWXYZ0123456789.-".

Definition keptInHost (c : ascii) : Prop := In c (list_ascii_of_string hostCharacters).

(** [d] stands in a key for the character [c] of a hostname: [c] itself
    when it is a letter, a digit, a dot or a dash, an underscore
    otherwise. *)
Definition hostCharIn (c d : ascii) : Prop :=
  (keptInHost c /\ d = c) \/ (~ keptInHost c /\ d = "_"%char).

(** [d] stands in a key for the character [c] of a timestamp: a dash for
    a colon or a dot, [c] itself otherwise. *)
Definition timeCharIn (c d : ascii) : Prop :=
  ((c = ":"%char \/ c = "."%char) /\ d = "-"%char)
  \/ (c <> ":"%char /\ c <> "."%char /\ d = c).

Definition slashes (s : string) : Prop :=
  Forall (fun c => c = "/"%char) (list_ascii_of_string s).

(** [core] is [p] without its leading and trailing slashes. *)
Definition withoutOuterSlashes (p core : string) : Prop :=
  exists lead trail,
    p = lead +:+ core +:+ trail
    /\ slashes lead /\ slashes trail
    /\ (forall r, core <> String "/" r)
    /\ (forall r, core <> r +:+ "/").

(** The key prefix of a render-ingest request, in words: none when
    [keyPrefix] is absent or falsy; else [keyPrefix] is a string, and the
    prefix is that string without its leading and trailing slashes,
    followed by one slash. *)
Definition keyPrefixOf {rt : Runtime} (body : Value) (prefix : string) : Prop :=
  (truthy (prop body "keyPrefix") = false /\ prefix = "")
  \/ exists p core,
       prop body "keyPrefix" = VStr p /\ p <> ""
       /\ withoutOuterSlashes p core
       /\ prefix = core +:+ "/".

(** What the render-ingest handler may do on behalf of [req]: it may
    render the page the request names, on a host that is allowed, and it
    may store just that rendered page. *)
Definition renderCallAllowed {rt : Runtime} (w : World) (env : Legacy.Env) (req : Request)
    (c : Call) : Prop :=
  match c with
  | BrowserRender href _ _ =>
      exists body url address hostname,
        json_body req = Some body
        /\ optProp body "url" = Ok url
        /\ ToString url = Ok address
        /\ URL_parse w address = Some (href, hostname)
        /\ (renderHosts env = [] \/ In hostname (renderHosts env))
  | BucketPut key content contentType customMetadata =>
      exists body url address href hostname html prefix,
        json_body req = Some body
        /\ optProp body "url" = Ok url
        /\ ToString url = Ok address
        /\ URL_parse w address = Some (href, hostname)
        /\ browser_render w href
             (or_else (prop body "waitUntil") (VStr "networkidle"))
             (coalesce (prop body "timeoutMs") (VNum (Fin 20000))) = Ok html
        /\ content = VStr html
        /\ contentType = VStr "text/html"
        /\ customMetadata =
             {[ "source" := "browser-render"; "url" := href; "timestamp" := now_iso w ]}
        /\ requestedPrefix body prefix
        /\ key = prefix +:+ Str.replaceAll Legacy.unsafeHostChar "_" hostname +:+ "_"
                   +:+ Str.replaceAll Legacy.colonOrDot "-" (now_iso w) +:+ ".html"
  | HttpFetch url _ _ _ => url = Legacy.syncUrl env
  | _ => False
  end.

(** A world that can resolve and render one documentation page. *)
Definition renderWorld : World :=
  {| now_iso := now_iso quietWorld;
     autorag_aiSearch := autorag_aiSearch quietWorld;
     autorag_search := autorag_search quietWorld;
     bucket_put := bucket_put quietWorld;
     streamText := streamText quietWorld;
     assets_fetch := assets_fetch quietWorld;
     http_fetch := http_fetch quietWorld;
     browser_render := browser_render quietWorld;
     URL_parse := fun s =>
       if String.eqb s "https://docs.example/page"
       then Some ("https://docs.example/page", "docs.example")
       else None |}.

Definition renderEnv : Legacy.Env :=
  {| Legacy.AI := true; Legacy.ACCOUNT_ID := Some "acct"; Legacy.AUTORAG_NAME := Some "docs";
     Legacy.API_TOKEN := Some "secret"; Legacy.INGESTION_TOKEN := None;
     Legacy.ALLOWED_ORIGINS := None;
     Legacy.ALLOWED_RENDER_HOSTS := Some "docs.example, help.example";
     Legacy.MY_BROWSER := true |}.

Definition renderRequest : Request :=
  postJson "/api/render-ingest"
    (Some (VObj [ ("url", VStr "https://docs.example/page"); ("keyPrefix", VStr "/rendered/") ])).

(** What an ingestion handler stores for the request body [body]: the
    key is the body's [path], a non-empty string, without one leading
    slash; the content is the body's [content], as given and not falsy;
    the content type is the body's [content_type] unless that is absent
    or [null], and else follows the key's extension. *)
Definition storedAsRequested {rt : Runtime} (body : Value) (key : string)
    (content contentType : Value) : Prop :=
  exists path,
    prop body "path" = VStr path
    /\ path <> ""
    /\ key = (if Str.startsWith path "/" then Str.slice1 path else path)
    /\ content = prop body "content"
    /\ truthy content = true
    /\ (nullish (prop body "content_type") = false -> contentType = prop body "content_type")
    /\ (nullish (prop body "content_type") = true ->
        contentType =
          VStr (if Str.endsWith (Str.toLowerCase key) ".html"
                then "text/html" else "text/markdown")).



Definition htmlDocument : Value :=
  VObj [ ("path", VStr "/site/Index.HTML"); ("content", VStr "<p>hi</p>") ].

(** The number between [lo] and [hi] nearest to [n]; NaN stays NaN. *)
Definition nearestWithin (lo hi : Q) (n : JsNum) : JsNum :=
  match n with
  | NaN => NaN
  | NegInf => Fin lo
  | PosInf => Fin hi
  | Fin q => if Qle_bool q lo then Fin lo else if Qle_bool q hi then Fin q else Fin hi
  end.

(** A request that differs from [req] in its query string only, and one
    that differs in its body only. *)
Definition withSearchParams (params : list (string * string)) (req : Request) : Request :=
  {| method := method req; pathname := pathname req; searchParams := params;
     req_headers := req_headers req; json_body := json_body req |}.

Definition withBody (doc : option Value) (req : Request) : Request :=
  {| method := method req; pathname := pathname req; searchParams := searchParams req;
     req_headers := req_headers req; json_body := doc |}.

(** An environment that differs from [env] in its default-streaming flag
    only. *)
Definition withStreamDefault (flag : option string) (env : Worker.Env) : Worker.Env :=
  {| Worker.AI := Worker.AI env; Worker.RAG_ID := Worker.RAG_ID env;
     Worker.DOCS_BUCKET := Worker.DOCS_BUCKET env;
     Worker.STREAM_DEFAULT := flag;
     Worker.DEFAULT_TOPK := Worker.DEFAULT_TOPK env;
     Worker.DEFAULT_THRESHOLD := Worker.DEFAULT_THRESHOLD env;
     Worker.USE_EXTERNAL_LLM := Worker.USE_EXTERNAL_LLM env;
     Worker.ALLOWED_ORIGINS := Worker.ALLOWED_ORIGINS env;
     Worker.OPENAI_API_KEY := Worker.OPENAI_API_KEY env;
     Worker.AZURE_OPENAI_ENDPOINT := Worker.AZURE_OPENAI_ENDPOINT env;
     Worker.AZURE_OPENAI_API_KEY := Worker.AZURE_OPENAI_API_KEY env;
     Worker.AZURE_OPENAI_API_VERSION := Worker.AZURE_OPENAI_API_VERSION env;
     Worker.INGESTION_TOKEN := Worker.INGESTION_TOKEN env |}.

Definition streamingGet : Request :=
  {| method := "GET"; pathname := "/ask"; searchParams := [ ("q", "plugins") ];
     req_headers := {[ "Accept" := "text/event-stream" ]}; json_body := None |}.

(** The one backend call the older worker's search handler may make for
    the request body [body]: through the binding when it is bound -
    answer-generating unless [use_ai_search] is [false] - and otherwise a
    POST to the REST endpoint of the same kind, with the API token as
    bearer and the body's query in the payload. *)
Definition legacySearchCall {rt : Runtime} (env : Legacy.Env) (body : Value) (c : Call) : Prop :=
  match c with
  | AutoragAiSearch rag p =>
      Legacy.AI env = true /\ is_false (prop body "use_ai_search") = false
      /\ rag = tmpl (Legacy.AUTORAG_NAME env) /\ prop p "query" = prop body "query"
  | AutoragSearch rag p =>
      Legacy.AI env = true /\ is_false (prop body "use_ai_search") = true
      /\ rag = tmpl (Legacy.AUTORAG_NAME env) /\ prop p "query" = prop body "query"
  | HttpFetch url m h (Some payload) =>
      Legacy.AI env = false /\ m = "POST"
      /\ url = Legacy.autoragUrl env
                 (if is_false (prop body "use_ai_search") then "/search" else "/ai-search")
      /\ h !! "Authorization" = Some ("Bearer " +:+ tmpl (Legacy.API_TOKEN env))
      /\ prop payload "query" = prop body "query"
  | _ => False
  end.


Definition restEnv : Legacy.Env :=
  {| Legacy.AI := false; Legacy.ACCOUNT_ID := Some "acct"; Legacy.AUTORAG_NAME := Some "docs";
     Legacy.API_TOKEN := Some "secret"; Legacy.INGESTION_TOKEN := None;
     Legacy.ALLOWED_ORIGINS := None; Legacy.ALLOWED_RENDER_HOSTS := None;
     Legacy.MY_BROWSER := false |}.


Definition plainSearch : Value := VObj [ ("query", VStr "plugins") ].




(** The outside services a request to the unified worker may reach, by
    the path it asks for. *)
Definition workerMayCall (env : Worker.Env) (req : Request) (c : Call) : Prop :=
  match c with
  | AutoragAiSearch rag _ =>
      rag = Worker.RAG_ID env
      /\ (pathname req = "/mcp"
          \/ (configured (Worker.USE_EXTERNAL_LLM env) = false
              /\ (pathname req = "/ask" \/ pathname req = "/api/autorag-search")))
  | AutoragSearch rag _ =>
      rag = Worker.RAG_ID env
      /\ configured (Worker.USE_EXTERNAL_LLM env) = true
      /\ (pathname req = "/ask" \/ pathname req = "/api/autorag-search")
  | StreamText _ _ _ _ =>
      configured (Worker.USE_EXTERNAL_LLM env) = true
      /\ (pathname req = "/ask" \/ pathname req = "/api/autorag-search")
  | BucketPut _ _ _ _ =>
      pathname req = "/api/ingest"
      /\ method req = "POST"
      /\ unauthorized (Worker.INGESTION_TOKEN env) req = false
  | AssetsFetch asked => asked = req /\ Str.mem (pathname req) workerApiPaths = false
  | HttpFetch _ _ _ _ | BrowserRender _ _ _ => False
  end.

(** The outside services a request to the older worker may reach.  Its
    only HTTP peer is the AutoRAG REST API of the configured account,
    always addressed with the API token as bearer. *)
Definition legacyMayCall (env : Legacy.Env) (req : Request) (c : Call) : Prop :=
  match c with
  | AutoragAiSearch _ _ | AutoragSearch _ _ =>
      Legacy.AI env = true /\ pathname req = "/api/autorag-search" /\ method req = "POST"
  | HttpFetch url _ h _ =>
      (exists suffix, url = Legacy.autoragUrl env suffix)
      /\ h !! "Authorization" = Some ("Bearer " +:+ tmpl (Legacy.API_TOKEN env))
  | BucketPut _ _ _ _ =>
      (pathname req = "/api/ingest" \/ pathname req = "/api/render-ingest")
      /\ method req = "POST"
      /\ unauthorized (Legacy.INGESTION_TOKEN env) req = false
  | BrowserRender _ _ _ =>
      pathname req = "/api/render-ingest"
      /\ method req = "POST"
      /\ unauthorized (Legacy.INGESTION_TOKEN env) req = false
      /\ Legacy.MY_BROWSER env = true
  | StreamText _ _ _ _ | AssetsFetch _ => False
  end.





(** The one search the tool endpoint can dispatch for [rpc]: the [ask]
    tool, with a query that is not empty, never streamed. *)
Definition toolSearch {rt : Runtime} (env : Worker.Env) (rpc : Value) (c : Call) : Prop :=
  prop rpc "method" = VStr "tools/call"
  /\ toolName rpc = VStr "ask"
  /\ exists params,
       Worker.query params <> ""
       /\ toString_method (toolQuery rpc) = Ok (Worker.query params)
       /\ Worker.stream params = Some false
       /\ c = AutoragAiSearch (Worker.RAG_ID env) (VObj (Worker.searchParamsOf env params)).






(** ** The ingestion script

    [extractFrontmatter] of [scripts/ingest-docs.js]: the leading
    metadata block of a Markdown file and the text that follows it. *)

Module Ingest.

(** [p] at the start of [s]: what follows it. *)
Fixpoint stripPrefix (p s : string) : option string :=
  match p, s with
  | EmptyString, _ => Some s
  | String a p', String b s' => if Ascii.eqb a b then stripPrefix p' s' else None
  | String _ _, EmptyString => None
  end.

(** [\s*\n] at the start of [s]: what follows each way of matching it,
    in the order the matcher tries them - [\s*] is greedy, so the last
    line feed of the leading white space comes first. *)
Fixpoint afterLineFeeds (s : string) : list string :=
  match s with
  | String c1 r1 =>
      if Str.isSpace (String c1 EmptyString)
      then afterLineFeeds r1 ++ (if Ascii.eqb c1 "010" then [r1] else [])
      else
        match r1 with
        | String c2 r2 =>
            if Str.isSpace (String c1 (String c2 EmptyString)) then afterLineFeeds r2
            else
              match r2 with
              | String c3 r3 =>
                  if Str.isSpace (String c1 (String c2 (String c3 EmptyString)))
                  then afterLineFeeds r3 else []
              | EmptyString => []
              end
        | EmptyString => []
        end
  | EmptyString => []
  end.

(** [\n---\s*\n] at the start of [s]: what follows the match. *)
Definition closing (s : string) : option string :=
  match stripPrefix (nl +:+ "---") s with
  | Some r => head (afterLineFeeds r)
  | None => None
  end.

(** [([\s\S]*?)\n---\s*\n] at the start of [s]: the group is lazy, so the
    first closing fence ends it.  The captured text and what follows the
    match. *)
Fixpoint capture (s : string) : option (string * string) :=
  match closing s with
  | Some rest => Some (EmptyString, rest)
  | None =>
      match s with
      | String c r =>
          match capture r with
          | Some (captured, rest) => Some (String c captured, rest)
          | None => None
          end
      | EmptyString => None
      end
  end.

Fixpoint firstMatch {A B} (f : A -> option B) (l : list A) : option B :=
  match l with
  | [] => None
  | x :: r =>
      match f x with
      | Some y => Some y
      | None => firstMatch f r
      end
  end.

(** [content.match(/^---\s*\n([\s\S]*?)\n---\s*\n/)]: the first group
    and the content without the match (the expression is anchored, so
    [content.replace(frontmatterRegex, '')] is what follows the match). *)
Definition matchFrontmatter (content : string) : option (string * string) :=
  match stripPrefix "---" content with
  | Some opened => firstMatch capture (afterLineFeeds opened)
  | None => None
  end.

(** [metadata[k] = v] on an object literal: assigning a string to
    [__proto__] goes to the prototype setter and creates no property. *)
Definition assign (metadata : gmap string string) (k v : string) : gmap string string :=
  if String.eqb k "__proto__" then metadata else <[ k := v ]> metadata.

(** The callback of [frontmatter.split('\n').forEach], lines 53-58. *)
Definition parseLine (metadata : gmap string string) (line : string) : gmap string string :=
  match Str.split ":" line with
  | key :: valueParts =>
      if negb (String.eqb key "") && negb (Nat.eqb (length valueParts) 0)
      then assign metadata (Str.trim key) (Str.trim (Str.join ":" valueParts))
      else metadata
  | [] => metadata
  end.

(** The pair [{ content, metadata }] the function returns. *)
Definition extractFrontmatter (content : string) : string * gmap string string :=
  match matchFrontmatter content with
  | None => (content, ∅)
  | Some (frontmatter, rest) =>
      (rest, foldl parseLine ∅ (Str.split "010" frontmatter))
  end.

End Ingest.

(** The shape the frontmatter expression describes: an opening fence,
    the block, a closing fence on a line of its own, and the rest; white
    space may trail either fence. *)
Definition fenced (content frontmatter rest : string) : Prop :=
  exists ws1 ws2,
    blankText ws1 /\ blankText ws2
    /\ content = "---" +:+ ws1 +:+ nl +:+ frontmatter +:+ nl +:+ "---" +:+ ws2 +:+ nl +:+ rest.

(** A character does not occur in a string. *)
Definition lacks (c : ascii) (s : string) : Prop :=
  Forall (fun x => x <> c) (list_ascii_of_string s).

Definition notedFile : string :=
  "---" +:+ nl +:+ "title: Vault API" +:+ nl +:+ "link: https://docs.example/vault" +:+ nl
    +:+ "---" +:+ nl +:+ "# Vault" +:+ nl.

(** The fixed instruction the external model gets. *)
Definition systemPrompt : string :=
  "Answer based only on the provided documentation files. Be concise and accurate.".

(** One retrieved document as the model sees it: a [<file>] element that
    names the file and holds its text. *)
Definition fileElement (name text : string) : string :=
  "<file name=" +:+ String "034" (name +:+ String "034" (">" +:+ nl +:+ text +:+ nl +:+ "</file>")).

(** The text of one content fragment: its [text] member as a string
    ([null] reads as the empty string), and the empty string when it has
    none. *)
Definition fragmentRead {rt : Runtime} (part : Value) (text : string) : Prop :=
  match part with
  | VObj fields =>
      match own fields "text" with
      | Some v => if nullish v then text = "" else ToString v = Ok text
      | None => text = ""
      end
  | VArr _ => text = ""
  | _ => False
  end.

(** A retrieved document and its [<file>] element: the name is the
    document's [filename] as a string, the text its content fragments
    joined by blank lines. *)
Definition documentRead {rt : Runtime} (item : Value) (file : string) : Prop :=
  exists name parts texts,
    nullish item = false
    /\ ToString (prop item "filename") = Ok name
    /\ or_else (prop item "content") (VArr []) = VArr parts
    /\ Forall2 fragmentRead parts texts
    /\ file = fileElement name (Str.join (nl +:+ nl) texts).

(** The context handed to the model for the retrieved [data]: one
    [<file>] element per document, in order, joined by blank lines. *)
Definition contextOf {rt : Runtime} (data : Value) (chunks : string) : Prop :=
  exists items files,
    data = VArr items
    /\ Forall2 documentRead items files
    /\ chunks = Str.join (nl +:+ nl) files.

(** An environment that selects the Azure deployment. *)
Definition azureEnv : Worker.Env :=
  {| Worker.AI := true; Worker.RAG_ID := "docs"; Worker.DOCS_BUCKET := true;
     Worker.STREAM_DEFAULT := None; Worker.DEFAULT_TOPK := None;
     Worker.DEFAULT_THRESHOLD := None; Worker.USE_EXTERNAL_LLM := Some "azure";
     Worker.ALLOWED_ORIGINS := None; Worker.OPENAI_API_KEY := Some "key";
     Worker.AZURE_OPENAI_ENDPOINT := Some "https://llm.example/openai";
     Worker.AZURE_OPENAI_API_KEY := Some "azure-key";
     Worker.AZURE_OPENAI_API_VERSION := Some "2024-06-01"; Worker.INGESTION_TOKEN := None |}.

(** A retrieval answer with one document, and a world that retrieves it. *)
Definition oneDocument : Value :=
  VObj [ ("data",
          VArr [ VObj [ ("filename", VStr "vault.md");
                        ("content", VArr [ VObj [ ("type", VStr "text");
                                                  ("text", VStr "Vault API") ] ]) ] ]) ].

Definition docsWorld : World :=
  {| now_iso := now_iso quietWorld;
     autorag_aiSearch := autorag_aiSearch quietWorld;
     autorag_search := fun _ _ => Ok oneDocument;
     bucket_put := bucket_put quietWorld;
     streamText := streamText quietWorld;
     assets_fetch := assets_fetch quietWorld;
     http_fetch := http_fetch quietWorld;
     browser_render := browser_render quietWorld;
     URL_parse := URL_parse quietWorld |}.

(** * Properties *)

(** ** Reasoning about asynchronous computations *)


Section MonadLaws.
Context {A B : Type}.
Implicit Types (m : M A) (f : A -> M B) (r : Result A).

Lemma bind_mret (a : A) f : (mret a ≫= f) = f a.
Proof. unfold mbind, M_bind, mret, M_ret. destruct (f a); reflexivity. Qed.

Lemma bind_lift_Ok (a : A) f : (lift (Ok a) ≫= f) = f a.
Proof. apply bind_mret. Qed.

Lemma bind_lift_Throw (e : JsError) f : (lift (Throw e) ≫= f) = throw e.
Proof. reflexivity. Qed.

Lemma bind_throw (e : JsError) f : (throw e ≫= f) = throw e.
Proof. reflexivity. Qed.

Lemma bind_call_Ok (c : Call) (a : A) f :
  (call c (Ok a) ≫= f) = (c :: trace (f a), outcome (f a)).
Proof. unfold mbind, M_bind, call. destruct (f a); reflexivity. Qed.

Lemma bind_call_Throw (c : Call) (e : JsError) f :
  (call c (Throw e) ≫= f) = ([c], Throw e).
Proof. reflexivity. Qed.

Lemma outcome_bind m f :
  outcome (m ≫= f) =
    match outcome m with
    | Ok a => outcome (f a)
    | Throw e => Throw e
    end.
Proof. destruct m as [t [a|e]]; simpl; [destruct (f a)|]; reflexivity. Qed.

Lemma trace_bind m f :
  trace (m ≫= f) =
    match outcome m with
    | Ok a => trace m ++ trace (f a)
    | Throw e => trace m
    end.
Proof. destruct m as [t [a|e]]; simpl; [destruct (f a)|]; reflexivity. Qed.

Lemma returns_bind (P : B -> Prop) m f :
  (forall a, outcome m = Ok a -> returns P (f a)) -> returns P (m ≫= f).
Proof.
  intros H b. rewrite outcome_bind. destruct (outcome m) eqn:E; [|discriminate].
  apply H. reflexivity.
Qed.

Lemma calls_bind (Q : Call -> Prop) m f :
  calls Q m -> (forall a, outcome m = Ok a -> calls Q (f a)) -> calls Q (m ≫= f).
Proof.
  unfold calls. intros Hm Hf. rewrite trace_bind.
  destruct (outcome m) eqn:E; [|assumption].
  apply Forall_app. split; [assumption|]. apply Hf. reflexivity.
Qed.

Lemma settles_bind m f :
  settles m -> (forall a, outcome m = Ok a -> settles (f a)) -> settles (m ≫= f).
Proof.
  intros [a Ha] Hf. destruct (Hf a Ha) as [b Hb]. exists b.
  rewrite outcome_bind, Ha. exact Hb.
Qed.

End MonadLaws.

Section CatchLaws.
Context {A : Type}.
Implicit Types (m : M A) (h : JsError -> M A).

Lemma outcome_try_catch m h :
  outcome (try_catch m h) =
    match outcome m with
    | Ok a => Ok a
    | Throw e => outcome (h e)
    end.
Proof. destruct m as [t [a|e]]; simpl; [|destruct (h e)]; reflexivity. Qed.

Lemma trace_try_catch m h :
  trace (try_catch m h) =
    match outcome m with
    | Ok a => trace m
    | Throw e => trace m ++ trace (h e)
    end.
Proof. destruct m as [t [a|e]]; simpl; [|destruct (h e)]; reflexivity. Qed.

Lemma returns_try_catch (P : A -> Prop) m h :
  returns P m -> (forall e, outcome m = Throw e -> returns P (h e)) ->
  returns P (try_catch m h).
Proof.
  intros Hm Hh a. rewrite outcome_try_catch. destruct (outcome m) eqn:E.
  - intros [= <-]. apply Hm. exact E.
  - apply Hh. reflexivity.
Qed.

Lemma calls_try_catch (Q : Call -> Prop) m h :
  calls Q m -> (forall e, outcome m = Throw e -> calls Q (h e)) ->
  calls Q (try_catch m h).
Proof.
  unfold calls. intros Hm Hh. rewrite trace_try_catch.
  destruct (outcome m) eqn:E; [assumption|].
  apply Forall_app. split; [assumption|]. apply Hh. reflexivity.
Qed.

Lemma settles_try_catch m h :
  (forall e, outcome m = Throw e -> settles (h e)) -> settles (try_catch m h).
Proof.
  intros Hh. unfold settles. rewrite outcome_try_catch.
  destruct (outcome m) eqn:E; [eauto|]. apply Hh. reflexivity.
Qed.

Lemma try_catch_mret (a : A) h : try_catch (mret a) h = mret a.
Proof. reflexivity. Qed.

Lemma try_catch_throw (e : JsError) h : try_catch (throw e) h = h e.
Proof. unfold try_catch, throw. destruct (h e). reflexivity. Qed.

Lemma returns_mret (P : A -> Prop) (a : A) : P a -> returns P (mret a).
Proof. intros H b [= <-]. exact H. Qed.

Lemma returns_throw (P : A -> Prop) (e : JsError) : returns P (throw e).
Proof. intros b [=]. Qed.

Lemma returns_lift (P : A -> Prop) (r : Result A) :
  (forall a, r = Ok a -> P a) -> returns P (lift r).
Proof. intros H a E. apply H. exact E. Qed.

Lemma returns_call (P : A -> Prop) (c : Call) (r : Result A) :
  (forall a, r = Ok a -> P a) -> returns P (call c r).
Proof. intros H a E. apply H. exact E. Qed.

Lemma calls_mret (Q : Call -> Prop) (a : A) : calls Q (mret a).
Proof. constructor. Qed.

Lemma calls_throw (Q : Call -> Prop) (e : JsError) : calls Q (throw (A := A) e).
Proof. constructor. Qed.

Lemma calls_lift (Q : Call -> Prop) (r : Result A) : calls Q (lift r).
Proof. constructor. Qed.

Lemma calls_call (Q : Call -> Prop) (c : Call) (r : Result A) : Q c -> calls Q (call c r).
Proof. intros H. repeat constructor. exact H. Qed.

Lemma settles_mret (a : A) : settles (mret a).
Proof. exists a. reflexivity. Qed.

End CatchLaws.

(** Syntax-directed proof search over a handler's body. *)
Ltac split_branch :=
  match goal with
  | |- context [if ?b then _ else _] => destruct b eqn:?
  | |- context [match ?x with _ => _ end] => destruct x eqn:?
  end.

Ltac returns_step :=
  first
    [ apply returns_mret
    | apply returns_throw
    | apply returns_bind; intros ? ?
    | apply returns_try_catch; [|intros ? ?]
    | match goal with
      | |- returns _ (if ?b then _ else _) => destruct b eqn:?
      | |- returns _ (match ?x with _ => _ end) => destruct x eqn:?
      | |- returns _ (let '(_, _) := ?x in _) => destruct x eqn:?
      end ].

Ltac calls_step :=
  first
    [ apply calls_mret
    | apply calls_throw
    | apply calls_lift
    | apply calls_bind; [|intros ? ?]
    | apply calls_try_catch; [|intros ? ?]
    | match goal with
      | |- calls _ (if ?b then _ else _) => destruct b eqn:?
      | |- calls _ (match ?x with _ => _ end) => destruct x eqn:?
      end ].

(** ** The bearer check *)

Lemma unauthorized_wrong_header (secret : string) (req : Request) :
  secret <> "" ->
  header req "Authorization" <> Some ("Bearer " +:+ secret) ->
  unauthorized (Some secret) req = true.
Proof.
  intros Hs Hh. unfold unauthorized. simpl.
  destruct (String.eqb_spec secret ""); [contradiction|].
  destruct (header req "Authorization") as [a|]; simpl; [|reflexivity].
  destruct (String.eqb_spec a ""); [reflexivity|].
  destruct (String.eqb_spec a ("Bearer " +:+ secret)); [|reflexivity].
  subst a. contradiction.
Qed.

Lemma unauthorized_no_secret (token : option string) (req : Request) :
  configured token = false -> unauthorized token req = false.
Proof.
  unfold configured, unauthorized, or_opt.
  destruct token as [t|]; [|reflexivity].
  destruct (String.eqb t ""); [reflexivity|discriminate].
Qed.

(** ** Preflight *)

(** C9, as the code has it: the unified worker (its entry point and the
    tool endpoint's own responder) answers every OPTIONS request with
    204, the older worker with 200; in all three cases there is no body,
    the headers are the computed CORS headers, and no handler or outside
    call runs. *)
Theorem C9_preflight_short_circuits :
  forall (rt : Runtime) (w : World) (wenv : Worker.Env) (lenv : Legacy.Env) (req : Request),
    method req = "OPTIONS" ->
    Worker.fetch w wenv req =
      ([], Ok (mkResponse 204
                 (Worker.getCorsHeaders (header req "Origin") (Worker.ALLOWED_ORIGINS wenv))
                 NoBody))
    /\ Worker.NLWebMcp_fetch w wenv req =
      ([], Ok (mkResponse 204
                 (Worker.getCorsHeaders (header req "Origin") (Worker.ALLOWED_ORIGINS wenv))
                 NoBody))
    /\ Legacy.fetch w lenv req =
      ([], Ok (mkResponse 200 (Legacy.corsHeadersOf lenv req) NoBody)).
Proof.
  intros rt w wenv lenv req Hm.
  unfold Worker.fetch, Worker.NLWebMcp_fetch, Legacy.fetch.
  rewrite Hm. simpl. auto.
Qed.

Lemma C9_preflight_witness :
  Worker.fetch (rt := decimalRuntime) quietWorld managedEnv (optionsRequest "/api/ingest") =
    ([], Ok (mkResponse 204
               (Worker.getCorsHeaders (Some "https://docs.example") None)
               NoBody)).
Proof.
  exact (proj1 (C9_preflight_short_circuits decimalRuntime quietWorld managedEnv legacyEnv
                  (optionsRequest "/api/ingest") eq_refl)).
Defined.

(** C9, as the spec states it, fails on the older worker: its preflight
    response is built without a status and so carries 200. *)
Lemma C9_legacy_preflight_is_200 :
  Legacy.fetch (rt := decimalRuntime) quietWorld legacyEnv (optionsRequest "/api/ingest") =
    ([], Ok (mkResponse 200
               {[ "Access-Control-Allow-Origin" := "*";
                  "Access-Control-Allow-Methods" := "GET, POST, OPTIONS";
                  "Access-Control-Allow-Headers" := "Content-Type, Authorization" ]}
               NoBody)).
Proof. vm_compute. reflexivity. Qed.

Lemma status_json (o : Value) (s : nat) (h : Headers) : status (Worker.json o s h) = s.
Proof. reflexivity. Qed.

Lemma status_jsonResponse (o : Value) (s : nat) (h : Headers) :
  status (Legacy.jsonResponse o s h) = s.
Proof. reflexivity. Qed.

Ltac status_neq :=
  rewrite ?status_json, ?status_jsonResponse; cbn [status]; lia.

(** C8: with a secret configured, a POST to an ingest or sync endpoint
    whose Authorization header is anything but the exact bearer header
    (absent, another scheme, another token) gets one and the same 401
    response and nothing else happens; with no secret configured, no
    request is answered 401 and the Authorization header has no influence
    on what the handler does. *)
Theorem C8_auth_gate :
  forall (rt : Runtime) (w : World) (wenv : Worker.Env) (lenv : Legacy.Env)
         (req : Request) (hdrs : Headers),
    method req = "POST" ->
    (forall secret : string,
        secret <> "" ->
        Worker.INGESTION_TOKEN wenv = Some secret ->
        Legacy.INGESTION_TOKEN lenv = Some secret ->
        header req "Authorization" <> Some ("Bearer " +:+ secret) ->
        Worker.handleIngestion w wenv req hdrs
          = ([], Ok (mkResponse 401 hdrs (TextBody "Unauthorized")))
        /\ Legacy.handleIngestion w lenv req hdrs
          = ([], Ok (mkResponse 401 hdrs (TextBody "Unauthorized")))
        /\ Legacy.handleSync w lenv req hdrs
          = ([], Ok (mkResponse 401 hdrs (TextBody "Unauthorized")))
        /\ Legacy.handleRenderAndIngest w lenv req hdrs
          = ([], Ok (mkResponse 401 hdrs (TextBody "Unauthorized"))))
    /\ (configured (Worker.INGESTION_TOKEN wenv) = false ->
        configured (Legacy.INGESTION_TOKEN lenv) = false ->
        returns (fun resp => status resp <> 401) (Worker.handleIngestion w wenv req hdrs)
        /\ returns (fun resp => status resp <> 401) (Legacy.handleIngestion w lenv req hdrs)
        /\ returns (fun resp => status resp <> 401) (Legacy.handleSync w lenv req hdrs)
        /\ returns (fun resp => status resp <> 401)
                   (Legacy.handleRenderAndIngest w lenv req hdrs)
        /\ forall auth : option string,
            Worker.handleIngestion w wenv (withAuthorization auth req) hdrs
              = Worker.handleIngestion w wenv req hdrs
            /\ Legacy.handleIngestion w lenv (withAuthorization auth req) hdrs
              = Legacy.handleIngestion w lenv req hdrs
            /\ Legacy.handleSync w lenv (withAuthorization auth req) hdrs
              = Legacy.handleSync w lenv req hdrs).
Proof.
  intros rt w wenv lenv req hdrs Hm. split.
  - intros secret Hs Hw Hl Hh.
    pose proof (unauthorized_wrong_header secret req Hs Hh) as Hu.
    unfold Worker.handleIngestion, Legacy.handleIngestion, Legacy.handleSync,
      Legacy.handleRenderAndIngest.
    rewrite Hm, Hw, Hl, Hu. simpl. auto.
  - intros Hw Hl.
    pose proof (unauthorized_no_secret _ req Hw) as Uw.
    pose proof (unauthorized_no_secret _ req Hl) as Ul.
    repeat split.
    + unfold Worker.handleIngestion. rewrite Hm, Uw. cbn [String.eqb Ascii.eqb Bool.eqb negb].
      repeat returns_step; status_neq.
    + unfold Legacy.handleIngestion. rewrite Hm, Ul. cbn [String.eqb Ascii.eqb Bool.eqb negb].
      repeat returns_step; status_neq.
    + unfold Legacy.handleSync. rewrite Hm, Ul. cbn [String.eqb Ascii.eqb Bool.eqb negb].
      repeat returns_step; status_neq.
    + unfold Legacy.handleRenderAndIngest. rewrite Hm, Ul.
      cbn [String.eqb Ascii.eqb Bool.eqb negb].
      repeat returns_step; status_neq.
    + unfold Worker.handleIngestion.
      rewrite (unauthorized_no_secret _ (withAuthorization auth req) Hw), Uw. reflexivity.
    + unfold Legacy.handleIngestion.
      rewrite (unauthorized_no_secret _ (withAuthorization auth req) Hl), Ul. reflexivity.
    + unfold Legacy.handleSync.
      rewrite (unauthorized_no_secret _ (withAuthorization auth req) Hl), Ul. reflexivity.
Qed.

Lemma C8_auth_gate_witness :
  let refused : M Response := ([], Ok (mkResponse 401 ∅ (TextBody "Unauthorized"))) in
  (* no header, another scheme, another token *)
  Worker.handleIngestion (rt := decimalRuntime) quietWorld securedEnv
    (postJson "/api/ingest" (Some document)) ∅ = refused
  /\ Worker.handleIngestion (rt := decimalRuntime) quietWorld securedEnv
       (withAuthorization (Some "Basic s3cret") (postJson "/api/ingest" (Some document))) ∅
     = refused
  /\ Legacy.handleSync quietWorld securedLegacyEnv
       (withAuthorization (Some "Bearer other") (postJson "/api/sync" None)) ∅
     = refused.
Proof.
  assert (Hs : "s3cret" <> "") by discriminate.
  intros refused. split; [|split].
  - refine (proj1 (proj1 (C8_auth_gate decimalRuntime quietWorld securedEnv securedLegacyEnv
                            (postJson "/api/ingest" (Some document)) ∅ eq_refl)
                         "s3cret" Hs eq_refl eq_refl _)).
    intros H. vm_compute in H. discriminate.
  - refine (proj1 (proj1 (C8_auth_gate decimalRuntime quietWorld securedEnv securedLegacyEnv
                            (withAuthorization (Some "Basic s3cret")
                               (postJson "/api/ingest" (Some document)))
                            ∅ eq_refl)
                         "s3cret" Hs eq_refl eq_refl _)).
    intros H. vm_compute in H. discriminate.
  - refine (proj1 (proj2 (proj2 (proj1 (C8_auth_gate decimalRuntime quietWorld securedEnv
                                          securedLegacyEnv
                                          (withAuthorization (Some "Bearer other")
                                             (postJson "/api/sync" None))
                                          ∅ eq_refl)
                                       "s3cret" Hs eq_refl eq_refl _)))).
    intros H. vm_compute in H. discriminate.
Defined.

(** ** Reading the search request *)

Lemma calls_nothing {A} (m : M A) : calls (fun _ => False) m -> trace m = [].
Proof.
  unfold calls. destruct (trace m) as [|c t]; [reflexivity|].
  intros H. inversion H. contradiction.
Qed.

Lemma run_eq {A} (m : M A) (t : list Call) (r : Result A) :
  trace m = t -> outcome m = r -> m = (t, r).
Proof. destruct m. simpl. intros -> ->. reflexivity. Qed.

(** Reading the request makes no outside call. *)
Lemma readAsk_trace {rt : Runtime} (env : Worker.Env) (req : Request) (accept : string) :
  trace (Worker.readAsk env req accept) = [].
Proof.
  apply calls_nothing. unfold Worker.readAsk, catch_with, req_json.
  repeat calls_step.
Qed.

Lemma readAsk_run {rt : Runtime} (env : Worker.Env) (req : Request) (accept : string)
    (args : Worker.AskLocals) :
  outcome (Worker.readAsk env req accept) = Ok args ->
  Worker.readAsk env req accept = mret args.
Proof. intros H. apply run_eq; [apply readAsk_trace|exact H]. Qed.

Lemma method_allowed (req : Request) :
  method req = "POST" \/ method req = "GET" ->
  negb (String.eqb (method req) "POST") && negb (String.eqb (method req) "GET") = false.
Proof. intros [-> | ->]; reflexivity. Qed.

(** ** Retrieval without documents *)

Lemma zeroDocuments_length {rt : Runtime} (searchResult : Value) :
  zeroDocuments searchResult ->
  exists data len,
    optProp searchResult "data" = Ok data
    /\ optProp data "length" = Ok len
    /\ truthy len = false.
Proof.
  intros [Hn | (data & Hd & [Hn | ->])].
  - exists VUndefined, VUndefined. unfold optProp. rewrite Hn. auto.
  - exists data, VUndefined. unfold optProp at 2. rewrite Hn.
    unfold optProp. destruct (nullish searchResult) eqn:E; [|auto].
    destruct searchResult; try discriminate; simpl in Hd; discriminate.
  - exists (VArr []), (VNum (num_of_nat 0)). unfold optProp.
    destruct (nullish searchResult) eqn:E.
    + destruct searchResult; try discriminate; simpl in Hd; discriminate.
    + auto.
Qed.

(** C7: in external-LLM mode, when the retrieval-only call returns no
    document, the handler makes that one call and nothing else - the
    external LLM is not invoked - and answers 200 with the fixed "No
    relevant information found" text and an empty source list. *)
Theorem C7_no_documents_short_circuit :
  forall (rt : Runtime) (w : World) (env : Worker.Env) (req : Request)
         (corsHeaders : Headers) (args : Worker.AskLocals) (searchResult : Value),
    configured (Worker.USE_EXTERNAL_LLM env) = true ->
    Worker.AI env = true ->
    method req = "POST" \/ method req = "GET" ->
    outcome (Worker.readAsk env req (Worker.acceptOf req)) = Ok args ->
    Worker.ask_query args <> "" ->
    autorag_search w (Worker.RAG_ID env) (Worker.retrievalParams args) = Ok searchResult ->
    zeroDocuments searchResult ->
    trace (Worker.handleAsk w env req corsHeaders)
    = [AutoragSearch (Worker.RAG_ID env) (Worker.retrievalParams args)]
    /\ exists resp,
         outcome (Worker.handleAsk w env req corsHeaders) = Ok resp
         /\ answers 200 (noRelevantInformation (Worker.ask_query args)) resp.
Proof.
  intros rt w env req corsHeaders args searchResult Hllm Hai Hm Hread Hq Hsearch Hzero.
  destruct (zeroDocuments_length _ Hzero) as (data & len & Hd & Hl & Hf).
  unfold Worker.handleAsk.
  rewrite (method_allowed _ Hm), (readAsk_run _ _ _ _ Hread), bind_mret.
  destruct (String.eqb_spec (Worker.ask_query args) ""); [contradiction|].
  rewrite Hllm. cbn [negb]. unfold Worker.binding_search. rewrite Hai, Hsearch.
  rewrite bind_call_Ok, Hd, bind_lift_Ok, Hl, bind_lift_Ok, Hf.
  split; [reflexivity|]. eexists. split; [reflexivity|]. split; reflexivity.
Qed.

Lemma C7_short_circuit_witness :
  trace (Worker.handleAsk (rt := decimalRuntime) quietWorld externalEnv
           (postJson "/ask" (Some (VObj [ ("query", VStr "plugins") ]))) ∅)
  = [AutoragSearch "docs"
       (VObj [ ("query", VStr "plugins");
               ("rewrite_query", VBool true);
               ("max_num_results", VNum (Fin 6));
               ("ranking_options", VObj [ ("score_threshold", VNum (Fin (3 # 10))) ]) ])]
  /\ exists resp,
       outcome (Worker.handleAsk (rt := decimalRuntime) quietWorld externalEnv
                  (postJson "/ask" (Some (VObj [ ("query", VStr "plugins") ]))) ∅) = Ok resp
       /\ answers 200 (noRelevantInformation "plugins") resp.
Proof.
  refine (C7_no_documents_short_circuit decimalRuntime quietWorld externalEnv
            (postJson "/ask" (Some (VObj [ ("query", VStr "plugins") ]))) ∅
            (Worker.mkAskLocals "plugins" (Fin 6) (Fin (3 # 10)) false true)
            answer eq_refl eq_refl (or_introl eq_refl) _ _ eq_refl _).
  - vm_compute. reflexivity.
  - discriminate.
  - right. exists (VArr []). split; [reflexivity|]. right. reflexivity.
Defined.

(** ** The sync trigger *)

Ltac run_lift :=
  match goal with
  | |- context [lift ?r ≫= _] =>
      destruct r eqn:?; [rewrite bind_lift_Ok | rewrite bind_lift_Throw]
  end.

Lemma triggerAutoRAGSync_settles (w : World) (env : Legacy.Env) :
  settles (Legacy.triggerAutoRAGSync w env).
Proof.
  unfold Legacy.triggerAutoRAGSync.
  destruct (_ || _ || _); [apply settles_mret|].
  apply settles_try_catch. intros e _. apply settles_mret.
Qed.

(** C5: the sync trigger always returns a value.  With the endpoint
    configured, an upstream 429 or 409 gives the "skipped" outcome with
    the cooldown reason; any other non-2xx status gives the "error"
    outcome whose message ends with the upstream body text; a failed
    fetch gives the "error" outcome with the exception's message.  And
    once the older worker's ingestion has stored the document, its
    response has status 200 and a body that says [success: true] next
    to the stored path and whatever the sync outcome was. *)
Theorem C5_sync_never_fails_ingestion :
  forall (rt : Runtime) (w : World) (env : Legacy.Env),
    settles (Legacy.triggerAutoRAGSync w env)
    /\ (configured (Legacy.ACCOUNT_ID env) = true ->
        configured (Legacy.API_TOKEN env) = true ->
        configured (Legacy.AUTORAG_NAME env) = true ->
        (forall response,
            http_fetch w (Legacy.syncUrl env) "POST" (Legacy.syncHeaders env) None = Ok response ->
            fr_status response = 429 \/ fr_status response = 409 ->
            outcome (Legacy.triggerAutoRAGSync w env) = Ok cooldown)
        /\ (forall response upstream,
            http_fetch w (Legacy.syncUrl env) "POST" (Legacy.syncHeaders env) None = Ok response ->
            fr_ok response = false ->
            fr_status response <> 429 -> fr_status response <> 409 ->
            fr_text response = Ok upstream ->
            outcome (Legacy.triggerAutoRAGSync w env) =
              Ok (syncFailed ("Sync API error: " +:+ Str.of_nat (fr_status response)
                                +:+ " - " +:+ upstream)))
        /\ (forall e,
            http_fetch w (Legacy.syncUrl env) "POST" (Legacy.syncHeaders env) None = Throw e ->
            outcome (Legacy.triggerAutoRAGSync w env) = Ok (syncFailed (message e))))
    /\ (forall (req : Request) (hdrs : Headers) key content contentType customMetadata,
        In (BucketPut key content contentType customMetadata)
           (trace (Legacy.handleIngestion w env req hdrs)) ->
        bucket_put w key content contentType customMetadata = Ok tt ->
        exists sync resp,
          outcome (Legacy.triggerAutoRAGSync w env) = Ok sync
          /\ outcome (Legacy.handleIngestion w env req hdrs) = Ok resp
          /\ answers 200 (ingested key sync) resp).
Proof.
  intros rt w env. split; [apply triggerAutoRAGSync_settles|]. split.
  - intros Ha Ht Hn. unfold Legacy.triggerAutoRAGSync. rewrite Ha, Ht, Hn. cbn [negb orb].
    split; [|split].
    + intros response Hf Hs. rewrite Hf, bind_call_Ok.
      assert (Hok : fr_ok response = false) by (unfold fr_ok; destruct Hs as [-> | ->]; reflexivity).
      rewrite Hok. cbn [negb].
      assert (Hc : (fr_status response =? 429)%nat || (fr_status response =? 409)%nat = true)
        by (destruct Hs as [-> | ->]; reflexivity).
      rewrite Hc. reflexivity.
    + intros response upstream Hf Hok H429 H409 Htext. rewrite Hf, bind_call_Ok, Hok. cbn [negb].
      apply Nat.eqb_neq in H429, H409. rewrite H429, H409, Htext. reflexivity.
    + intros e Hf. rewrite Hf. reflexivity.
  - intros req hdrs key content contentType customMetadata.
    unfold Legacy.handleIngestion.
    destruct (negb (String.eqb (method req) "POST")); [intros []|].
    destruct (unauthorized _ req); [intros []|].
    unfold req_json. destruct (json_body req) as [body|]; [rewrite bind_mret|intros []].
    run_lift; [|intros []].
    run_lift; [|intros []].
    destruct (_ || _); [intros []|].
    run_lift; [|intros []].
    run_lift; [|intros []].
    run_lift; [|intros []].
    run_lift; [|intros []].
    destruct (triggerAutoRAGSync_settles w env) as [sync Hsync].
    destruct (Legacy.triggerAutoRAGSync w env) as [t r] eqn:Etrig.
    simpl in Hsync. subst r.
    match goal with
    | |- context [call _ ?r ≫= _] => destruct r as [[]|e] eqn:Hput
    end.
    + rewrite bind_call_Ok. cbn.
      intros [[= <- <- <- <-] | Hin] _.
      * exists sync. eexists. split; [reflexivity|]. split; [reflexivity|].
        split; reflexivity.
      * exfalso. clear - Hin Etrig.
        apply (f_equal trace) in Etrig. cbn in Etrig. subst t.
        unfold Legacy.triggerAutoRAGSync in Hin.
        destruct (_ || _ || _); [destruct Hin|].
        rewrite trace_try_catch in Hin.
        destruct (http_fetch w _ _ _ _) as [resp|e'].
        -- rewrite bind_call_Ok in Hin. cbn in Hin.
           destruct (negb (fr_ok resp)).
           ++ destruct (_ || _).
              ** cbn in Hin. destruct Hin as [Hin|[]]; discriminate.
              ** destruct (fr_text resp); cbn in Hin; destruct Hin as [Hin|[]]; discriminate.
           ++ destruct (fr_json resp); cbn in Hin; destruct Hin as [Hin|[]]; discriminate.
        -- cbn in Hin. destruct Hin as [Hin|[]]; discriminate.
    + rewrite bind_call_Throw. cbn.
      intros [[= <- <- <- <-] | []] Hok. rewrite Hput in Hok. discriminate.
Qed.

Lemma C5_sync_witness :
  outcome (Legacy.triggerAutoRAGSync (syncWorld 429) legacyEnv) = Ok cooldown
  /\ exists sync resp,
      outcome (Legacy.triggerAutoRAGSync (syncWorld 429) legacyEnv) = Ok sync
      /\ outcome (Legacy.handleIngestion (rt := decimalRuntime) (syncWorld 429) legacyEnv
                    (postJson "/api/ingest" (Some document)) ∅) = Ok resp
      /\ answers 200 (ingested "guide/intro.md" sync) resp.
Proof.
  pose proof (C5_sync_never_fails_ingestion decimalRuntime (syncWorld 429) legacyEnv)
    as (_ & Hsync & Hingest).
  split.
  - refine (proj1 (Hsync eq_refl eq_refl eq_refl) _ eq_refl (or_introl eq_refl)).
  - refine (Hingest (postJson "/api/ingest" (Some document)) ∅
              "guide/intro.md" (VStr "# Intro") (VStr "text/markdown")
              {[ "source" := "continuous-ingestion"; "timestamp" := now_iso quietWorld ]}
              _ eq_refl).
    vm_compute. left. reflexivity.
Defined.

(** ** The tool-protocol responder *)

Section ToolProtocol.
Context {rt : Runtime}.
Variable w : World.
Variable env : Worker.Env.

Lemma getProp_total (v : Value) (k : string) (x : Value) :
  getProp v k = Ok x -> forall k', getProp v k' = Ok (prop v k').
Proof. unfold prop. destruct v; simpl; intros H k'; try discriminate; reflexivity. Qed.

Lemma getProp_or_else_obj (v : Value) (k : string) :
  getProp (or_else v (VObj [])) k = Ok (prop (or_else v (VObj [])) k).
Proof.
  unfold or_else. destruct (truthy v) eqn:E.
  - destruct v; simpl in E; try discriminate; reflexivity.
  - reflexivity.
Qed.

Lemma optProp_total (v : Value) (k : string) :
  optProp v k = Ok (if nullish v then VUndefined else prop v k).
Proof. destruct v; reflexivity. Qed.

Lemma rpcError_response (id : Value) (corsHeaders : Headers) (code : Z) (msg : string)
    (data : Value) :
  Worker.rpcError id corsHeaders code msg data =
    Worker.json (rpcResponse id (rpcErrorObject code msg data)) 200 corsHeaders.
Proof. reflexivity. Qed.

(** A POST whose body parses to a document with a [method] reaches the
    dispatch with the request's [id], or [null]. *)
Lemma mcp_post_run (req : Request) (rpc m : Value) :
  method req = "POST" ->
  json_body req = Some rpc ->
  getProp rpc "method" = Ok m ->
  Worker.NLWebMcp_fetch w env req =
    let corsHeaders :=
      Worker.getCorsHeaders (header req "Origin") (Worker.ALLOWED_ORIGINS env) in
    try_catch
      (Worker.rpcDispatch w env rpc (rpcId rpc) corsHeaders)
      (fun e =>
         mret (Worker.rpcError (rpcId rpc) corsHeaders (-32000)%Z "Server error"
                 (VObj [ ("message", VStr (message_or_string e)) ]))).
Proof.
  intros Hm Hb Hmeth. unfold Worker.NLWebMcp_fetch, catch_with, req_json.
  rewrite Hm, Hb. cbn [String.eqb Ascii.eqb Bool.eqb negb].
  rewrite try_catch_mret, bind_mret, (getProp_total _ _ _ Hmeth "id"), bind_lift_Ok.
  reflexivity.
Qed.

(** The [tools/call] case of the dispatch, on the request's own terms. *)
Lemma dispatch_tools_call (rpc id : Value) (corsHeaders : Headers) :
  getProp rpc "method" = Ok (VStr "tools/call") ->
  Worker.rpcDispatch w env rpc id corsHeaders =
    if negb (is_str (toolName rpc) "ask")
    then
      shown ← lift (ToString (toolName rpc));
      mret (Worker.rpcError id corsHeaders (-32601)%Z ("Unknown tool: " +:+ shown) VUndefined)
    else
      query ← lift (toString_method (toolQuery rpc));
      if String.eqb query ""
      then mret (Worker.rpcError id corsHeaders (-32602)%Z "Missing 'query' parameter"
                   VUndefined)
      else
        topK ← lift (ToNumber (coalesce (toolArgument rpc "topK") (VNum (Fin 6))));
        threshold ←
          lift (ToNumber (coalesce (toolArgument rpc "threshold") (VNum (Fin (3 # 10)))));
        result ←
          Worker.aiSearch w env
            (Worker.mkSearchArgs query (Some topK) (Some threshold) (Some false)
               (Some (ToBoolean (coalesce (toolArgument rpc "rewrite") (VBool true)))));
        mret (Worker.json (rpcResponse id ("result", result)) 200 corsHeaders).
Proof.
  intros Hmeth. unfold Worker.rpcDispatch.
  rewrite Hmeth, bind_lift_Ok.
  cbn [is_str String.eqb Ascii.eqb Bool.eqb].
  rewrite (getProp_total _ _ _ Hmeth "params"), bind_lift_Ok.
  rewrite !getProp_or_else_obj, !bind_lift_Ok.
  fold (toolName rpc). fold (toolArguments rpc).
  destruct (negb (is_str (toolName rpc) "ask")); [reflexivity|].
  rewrite (optProp_total _ "query"), bind_lift_Ok.
  fold (toolArgument rpc "query"). fold (toolQuery rpc).
  destruct (toString_method (toolQuery rpc)) as [query|e]; [|reflexivity].
  rewrite !bind_lift_Ok.
  destruct (String.eqb query ""); [reflexivity|].
  rewrite (optProp_total _ "topK"), bind_lift_Ok. fold (toolArgument rpc "topK").
  destruct (ToNumber (coalesce (toolArgument rpc "topK") (VNum (Fin 6)))) as [topK|e];
    [|reflexivity].
  rewrite !bind_lift_Ok, (optProp_total _ "threshold"), bind_lift_Ok.
  fold (toolArgument rpc "threshold").
  destruct (ToNumber (coalesce (toolArgument rpc "threshold") (VNum (Fin (3 # 10)))))
    as [threshold|e]; [|reflexivity].
  rewrite !bind_lift_Ok, (optProp_total _ "rewrite"), bind_lift_Ok.
  fold (toolArgument rpc "rewrite").
  reflexivity.
Qed.

End ToolProtocol.

(** C6, as the code has it: a POST to the tool endpoint whose JSON-RPC
    [method] is ["tools/call"] is always answered, with status 200 and a
    JSON-RPC document that carries the request's [id] unchanged ([null]
    when the request has none) next to either a result or an error.  A
    tool name other than ["ask"] gives error -32601 when the name can be
    rendered in the message, and -32000 when rendering it throws; an
    empty query argument gives -32602; any exception inside the dispatch
    - in particular a failing search - gives -32000 with the exception's
    message as data. *)
Theorem C6_tools_call_errors :
  forall (rt : Runtime) (w : World) (env : Worker.Env) (req : Request) (rpc : Value),
    method req = "POST" ->
    json_body req = Some rpc ->
    getProp rpc "method" = Ok (VStr "tools/call") ->
    let corsHeaders :=
      Worker.getCorsHeaders (header req "Origin") (Worker.ALLOWED_ORIGINS env) in
    let replies member :=
      exists resp,
        outcome (Worker.NLWebMcp_fetch w env req) = Ok resp
        /\ answers 200 (rpcResponse (rpcId rpc) member) resp in
    let serverError (e : JsError) :=
      rpcErrorObject (-32000) "Server error"
        (VObj [ ("message", VStr (message_or_string e)) ]) in
    (exists member, replies member /\ (fst member = "result" \/ fst member = "error"))
    /\ (forall shown,
        is_str (toolName rpc) "ask" = false ->
        ToString (toolName rpc) = Ok shown ->
        replies (rpcErrorObject (-32601) ("Unknown tool: " +:+ shown) VUndefined))
    /\ (forall e,
        is_str (toolName rpc) "ask" = false ->
        ToString (toolName rpc) = Throw e ->
        replies (serverError e))
    /\ (is_str (toolName rpc) "ask" = true ->
        toString_method (toolQuery rpc) = Ok "" ->
        replies (rpcErrorObject (-32602) "Missing 'query' parameter" VUndefined))
    /\ (forall e,
        outcome (Worker.rpcDispatch w env rpc (rpcId rpc) corsHeaders) = Throw e ->
        replies (serverError e))
    /\ (forall query topK threshold e,
        is_str (toolName rpc) "ask" = true ->
        toString_method (toolQuery rpc) = Ok query ->
        query <> "" ->
        ToNumber (coalesce (toolArgument rpc "topK") (VNum (Fin 6))) = Ok topK ->
        ToNumber (coalesce (toolArgument rpc "threshold") (VNum (Fin (3 # 10)))) = Ok threshold ->
        outcome (Worker.aiSearch w env
                   (Worker.mkSearchArgs query (Some topK) (Some threshold) (Some false)
                      (Some (ToBoolean (coalesce (toolArgument rpc "rewrite") (VBool true))))))
          = Throw e ->
        replies (serverError e)).
Proof.
  intros rt w env req rpc Hm Hb Hmeth corsHeaders replies serverError.
  assert (Hanswer : forall member,
             outcome (Worker.NLWebMcp_fetch w env req)
             = Ok (Worker.json (rpcResponse (rpcId rpc) member) 200 corsHeaders) ->
             replies member).
  { intros member H. eexists. split; [exact H|]. split; reflexivity. }
  assert (Hthrown : forall e,
             outcome (Worker.rpcDispatch w env rpc (rpcId rpc) corsHeaders) = Throw e ->
             replies (serverError e)).
  { intros e He. apply Hanswer.
    rewrite (mcp_post_run w env req rpc _ Hm Hb Hmeth). cbv zeta. fold corsHeaders.
    rewrite outcome_try_catch, He. reflexivity. }
  assert (Hreturned : forall resp,
             outcome (Worker.rpcDispatch w env rpc (rpcId rpc) corsHeaders) = Ok resp ->
             outcome (Worker.NLWebMcp_fetch w env req) = Ok resp).
  { intros resp He.
    rewrite (mcp_post_run w env req rpc _ Hm Hb Hmeth). cbv zeta. fold corsHeaders.
    rewrite outcome_try_catch, He. reflexivity. }
  split; [|split; [|split; [|split; [|split]]]].
  - assert (Hshape :
              returns
                (fun resp => exists member,
                     resp = Worker.json (rpcResponse (rpcId rpc) member) 200 corsHeaders
                     /\ (fst member = "result" \/ fst member = "error"))
                (Worker.rpcDispatch w env rpc (rpcId rpc) corsHeaders)).
    { rewrite (dispatch_tools_call w env rpc _ _ Hmeth).
      repeat returns_step;
        (eexists; split; [rewrite ?rpcError_response; reflexivity | cbn; auto]). }
    destruct (outcome (Worker.rpcDispatch w env rpc (rpcId rpc) corsHeaders)) as [resp|e] eqn:E.
    + destruct (Hshape resp E) as (member & -> & Hkind). exists member. split; [|exact Hkind].
      apply Hanswer, Hreturned. reflexivity.
    + eexists. split; [exact (Hthrown e eq_refl) | cbn; auto].
  - intros shown Hname Hshown. apply Hanswer, Hreturned.
    rewrite (dispatch_tools_call w env rpc _ _ Hmeth), Hname. cbn [negb].
    rewrite Hshown, bind_lift_Ok. reflexivity.
  - intros e Hname Hshown. apply Hthrown.
    rewrite (dispatch_tools_call w env rpc _ _ Hmeth), Hname. cbn [negb].
    rewrite Hshown. reflexivity.
  - intros Hname Hquery. apply Hanswer, Hreturned.
    rewrite (dispatch_tools_call w env rpc _ _ Hmeth), Hname. cbn [negb].
    rewrite Hquery, bind_lift_Ok. reflexivity.
  - exact Hthrown.
  - intros query topK threshold e Hname Hquery Hne HtopK Hthreshold Hsearch.
    apply Hthrown.
    rewrite (dispatch_tools_call w env rpc _ _ Hmeth), Hname. cbn [negb].
    rewrite Hquery, bind_lift_Ok.
    destruct (String.eqb_spec query ""); [contradiction|].
    rewrite HtopK, bind_lift_Ok, Hthreshold, bind_lift_Ok, outcome_bind, Hsearch.
    reflexivity.
Qed.

Lemma C6_tools_call_witness :
  (exists resp,
      outcome (Worker.NLWebMcp_fetch (rt := decimalRuntime) quietWorld managedEnv
                 (postJson "/mcp" (Some (toolCall (VNum (Fin 7)) (VStr "search") (VObj [])))))
      = Ok resp
      /\ answers 200
           (rpcResponse (VNum (Fin 7))
              (rpcErrorObject (-32601) "Unknown tool: search" VUndefined))
           resp)
  /\ (exists resp,
        outcome (Worker.NLWebMcp_fetch (rt := decimalRuntime) failingWorld managedEnv
                   (postJson "/mcp"
                      (Some (toolCall (VStr "req-1") (VStr "ask")
                               (VObj [ ("query", VStr "plugins") ])))))
        = Ok resp
        /\ answers 200
             (rpcResponse (VStr "req-1")
                (rpcErrorObject (-32000) "Server error"
                   (VObj [ ("message", VStr "backend down") ])))
             resp).
Proof.
  split.
  - pose proof (C6_tools_call_errors decimalRuntime quietWorld managedEnv
                  (postJson "/mcp" (Some (toolCall (VNum (Fin 7)) (VStr "search") (VObj []))))
                  _ eq_refl eq_refl eq_refl) as H.
    cbv zeta in H. destruct H as (_ & Hname & _).
    exact (Hname "search" eq_refl eq_refl).
  - pose proof (C6_tools_call_errors decimalRuntime failingWorld managedEnv
                  (postJson "/mcp"
                     (Some (toolCall (VStr "req-1") (VStr "ask")
                              (VObj [ ("query", VStr "plugins") ]))))
                  _ eq_refl eq_refl eq_refl) as H.
    cbv zeta in H. destruct H as (_ & _ & _ & _ & _ & Hfail).
    refine (Hfail "plugins" (Fin 6) (Fin (3 # 10)) (Error "backend down")
              eq_refl eq_refl _ eq_refl eq_refl eq_refl).
    discriminate.
Defined.

(** C6, as the spec states it, fails for a tool name that cannot be
    rendered: the message of the -32601 error is built from the name, so
    a name whose conversion to a string throws - an object with an own
    [toString] entry - is answered -32000 "Server error", not -32601. *)
Lemma C6_unrenderable_tool_name :
  outcome (Worker.NLWebMcp_fetch (rt := decimalRuntime) quietWorld managedEnv
             (postJson "/mcp" (Some (toolCall (VNum (Fin 7)) unconvertible (VObj [])))))
  = Ok (mkResponse 200
          {[ "Access-Control-Allow-Origin" := "*";
             "Access-Control-Allow-Headers" := "Content-Type, Authorization, Accept";
             "Access-Control-Allow-Methods" := "GET, POST, OPTIONS";
             "Content-Type" := "application/json" ]}
          (JsonBody
             (rpcResponse (VNum (Fin 7))
                (rpcErrorObject (-32000) "Server error"
                   (VObj [ ("message",
                            VStr "Cannot convert object to primitive value") ]))))).
Proof. vm_compute. reflexivity. Qed.

(** ** White space *)

Lemma isSpace_In (t : string) : Str.isSpace t = true <-> In t Str.spaces.
Proof.
  unfold Str.isSpace. rewrite existsb_exists. split.
  - intros (y & Hy & E). apply String.eqb_eq in E. subst. exact Hy.
  - intros H. exists t. split; [exact H | apply String.eqb_refl].
Qed.

Lemma afterSpace_space (t r : string) :
  In t Str.spaces -> Str.afterSpace (t +:+ r) = Some r.
Proof.
  intros H. unfold Str.spaces in H.
  repeat (destruct H as [<- | H]; [vm_compute; reflexivity|]). destruct H.
Qed.

Lemma afterSpace_sound (s r : string) :
  Str.afterSpace s = Some r -> exists t, In t Str.spaces /\ s = t +:+ r.
Proof.
  destruct s as [|c1 r1]; cbn [Str.afterSpace]; [discriminate|].
  destruct (Str.isSpace (String c1 "")) eqn:E1.
  { intros [= <-]. apply isSpace_In in E1. eauto. }
  destruct r1 as [|c2 r2]; [discriminate|].
  destruct (Str.isSpace (String c1 (String c2 ""))) eqn:E2.
  { intros [= <-]. apply isSpace_In in E2. eauto. }
  destruct r2 as [|c3 r3]; [discriminate|].
  destruct (Str.isSpace (String c1 (String c2 (String c3 "")))) eqn:E3; [|discriminate].
  intros [= <-]. apply isSpace_In in E3. eauto.
Qed.

Lemma afterSpace_shorter (s r : string) :
  Str.afterSpace s = Some r -> String.length r < String.length s.
Proof.
  destruct s as [|c1 r1]; cbn [Str.afterSpace]; [discriminate|].
  destruct (Str.isSpace (String c1 "")); [intros [= <-]; cbn; lia|].
  destruct r1 as [|c2 r2]; [discriminate|].
  destruct (Str.isSpace (String c1 (String c2 ""))); [intros [= <-]; cbn; lia|].
  destruct r2 as [|c3 r3]; [discriminate|].
  destruct (Str.isSpace (String c1 (String c2 (String c3 "")))); [|discriminate].
  intros [= <-]. cbn. lia.
Qed.

(** [trimStart] removes leading white space one code point at a time. *)
Lemma trimStart_eq (s : string) :
  Str.trimStart s =
    match Str.afterSpace s with
    | Some r => Str.trimStart r
    | None => s
    end.
Proof.
  destruct s as [|c1 r1]; [reflexivity|]. cbn [Str.trimStart Str.afterSpace].
  destruct (Str.isSpace (String c1 "")); [reflexivity|].
  destruct r1 as [|c2 r2]; [reflexivity|].
  destruct (Str.isSpace (String c1 (String c2 ""))); [reflexivity|].
  destruct r2 as [|c3 r3]; [reflexivity|].
  destruct (Str.isSpace (String c1 (String c2 (String c3 "")))); reflexivity.
Qed.

Lemma trimStart_clean (s : string) : Str.afterSpace (Str.trimStart s) = None.
Proof.
  remember (String.length s) as n eqn:Hn.
  assert (Hle : String.length s <= n) by lia. clear Hn.
  revert s Hle. induction n as [|n IH]; intros s Hle; rewrite trimStart_eq;
    destruct (Str.afterSpace s) as [r|] eqn:E; try exact E;
    apply afterSpace_shorter in E.
  - lia.
  - apply IH. lia.
Qed.



(** ** Validation of the search query *)

Section ReadAsk.
Context {rt : Runtime}.

Lemma getProp_nonnull (v : Value) (k : string) :
  nullish v = false -> getProp v k = Ok (prop v k).
Proof. unfold prop. destruct v; simpl; intros H; try discriminate; reflexivity. Qed.

Lemma getProp_Ok_nonnull (v : Value) (k : string) (x : Value) :
  getProp v k = Ok x -> nullish v = false.
Proof. destruct v; simpl; intros H; try discriminate; reflexivity. Qed.


Lemma catch_with_req_json (req : Request) :
  catch_with (req_json req) (VObj []) = mret (default (VObj []) (json_body req)).
Proof. unfold catch_with, req_json. destruct (json_body req); reflexivity. Qed.





End ReadAsk.


Lemma legacy_fetch_returned {A} (m : M A) (h : JsError -> M (M A)) :
  (try_catch (mret m) h ≫= fun returned => returned) = m.
Proof. rewrite try_catch_mret, bind_mret. reflexivity. Qed.





(** ** Stored metadata *)

Lemma mapM_Result_Forall2 {A B} (f : A -> Result B) (l : list A) (k : list B) :
  mapM f l = Ok k -> Forall2 (fun x y => f x = Ok y) l k.
Proof.
  revert k. induction l as [|x l IH]; intros k; simpl.
  - intros [= <-]. constructor.
  - destruct (f x) as [y|e] eqn:Ex; simpl; [|discriminate].
    destruct (mapM f l) as [k'|e]; simpl; [|discriminate].
    intros [= <-]. constructor; auto.
Qed.

Section Metadata.
Context {rt : Runtime}.

Lemma foldl_spread_absent (strs : list (string * string)) (m : Headers) (k : string) :
  ~ In k (List.map fst strs) -> foldl spreadEntry m strs !! k = m !! k.
Proof.
  revert m. induction strs as [|[k' s'] r IH]; intros m Hk; simpl in *; [reflexivity|].
  rewrite IH by tauto. unfold spreadEntry. simpl.
  apply lookup_insert_ne. tauto.
Qed.

Lemma foldl_spread_present (strs : list (string * string)) (m : Headers) (k : string) :
  In k (List.map fst strs) ->
  exists s, In (k, s) strs /\ foldl spreadEntry m strs !! k = Some s.
Proof.
  revert m. induction strs as [|[k' s'] r IH]; intros m Hk; simpl in *; [contradiction|].
  destruct (in_dec string_dec k (List.map fst r)) as [Hr | Hr].
  - destruct (IH (spreadEntry m (k', s')) Hr) as (s & Hin & Hl). eauto.
  - destruct Hk as [-> | Hk]; [|contradiction].
    exists s'. split; [auto|].
    rewrite foldl_spread_absent by exact Hr.
    unfold spreadEntry. simpl. apply lookup_insert_eq.
Qed.

Lemma stringified_keys (caller : list (string * Value)) (strs : list (string * string)) :
  Forall2 (fun kv ks => (v ← ToString (snd kv); mret (fst kv, v)) = Ok ks) caller strs ->
  List.map fst strs = List.map fst caller
  /\ forall k s, In (k, s) strs -> exists v, In (k, v) caller /\ ToString v = Ok s.
Proof.
  induction 1 as [|[k v] [k' s'] caller strs Hx _ [IHk IHin]]; simpl.
  - split; [reflexivity|]. intros k s [].
  - simpl in Hx. destruct (ToString v) as [s0|e] eqn:Ev; simpl in Hx; [|discriminate].
    injection Hx as <- <-. split; [f_equal; exact IHk|].
    intros k0 s [[= <- <-] | Hin].
    + exists v. auto.
    + destruct (IHin _ _ Hin) as (v' & Hv' & Hs). exists v'. auto.
Qed.

(** The caller's entries are spread over the worker's own two. *)
Lemma customMetadataOf_callerWins (source timestamp : string) (metadata : Value)
    (stored : Headers) (k : string) :
  customMetadataOf source timestamp metadata = Ok stored ->
  callerWins (entries (or_else metadata (VObj [])))
             {[ "source" := source; "timestamp" := timestamp ]} stored k.
Proof.
  unfold customMetadataOf.
  destruct (mapM _ (entries (or_else metadata (VObj [])))) as [strs|e] eqn:Em; simpl;
    [|discriminate].
  intros [= <-].
  apply mapM_Result_Forall2, stringified_keys in Em. destruct Em as [Hkeys Hvals].
  split.
  - intros Hk. apply foldl_spread_absent. rewrite Hkeys. exact Hk.
  - intros Hk. rewrite <- Hkeys in Hk.
    destruct (foldl_spread_present strs {[ "source" := source; "timestamp" := timestamp ]}
                k Hk) as (s & Hin & Hl).
    destruct (Hvals _ _ Hin) as (v & Hv & Hs). eauto.
Qed.

End Metadata.

Ltac run_call :=
  match goal with
  | |- context [call _ ?r ≫= _] =>
      destruct r eqn:?; [rewrite bind_call_Ok | rewrite bind_call_Throw]
  end.

(** C2, as the code has it: in both ingestion handlers the caller's
    metadata entries are spread after the two entries the worker sets, so
    under every key - ["source"] and ["timestamp"] included - the stored
    metadata holds the caller's value (as a string) when the caller
    supplied that key, and the worker's value only otherwise. *)
Theorem C2_caller_metadata_wins :
  forall (rt : Runtime) (w : World) (wenv : Worker.Env) (lenv : Legacy.Env) (req : Request)
         (hdrs : Headers) (key : string) (content contentType : Value) (stored : Headers)
         (k : string),
    (In (BucketPut key content contentType stored)
        (trace (Worker.handleIngestion w wenv req hdrs)) ->
     exists body,
       json_body req = Some body
       /\ callerWins (callerMetadata body)
                     {[ "source" := "api-ingestion"; "timestamp" := now_iso w ]} stored k)
    /\ (In (BucketPut key content contentType stored)
           (trace (Legacy.handleIngestion w lenv req hdrs)) ->
        exists body,
          json_body req = Some body
          /\ callerWins (callerMetadata body)
                        {[ "source" := "continuous-ingestion"; "timestamp" := now_iso w ]}
                        stored k).
Proof.
  intros rt w wenv lenv req hdrs key content contentType stored k. split.
  - unfold Worker.handleIngestion.
    destruct (negb (String.eqb (method req) "POST")); [intros []|].
    destruct (unauthorized _ req); [intros []|].
    unfold req_json. destruct (json_body req) as [body|]; [rewrite bind_mret|intros []].
    run_lift; [|intros []].
    match goal with
    | |- context [(if ?b then lift ?r else _) ≫= _] =>
        destruct b; [destruct r eqn:?; [rewrite bind_lift_Ok|intros []]|rewrite bind_mret]
    end.
    all: destruct (_ || _); [intros []|].
    all: destruct (negb (Worker.DOCS_BUCKET wenv)); [intros []|].
    all: rewrite trace_try_catch.
    all: run_lift; [|intros []].
    all: run_lift; [|intros []].
    all: run_lift; [|intros []].
    all: run_lift; [|intros []].
    all: run_call; cbn; (intros [[= <- <- <- <-] | []]).
    all: exists body; split; [reflexivity|].
    all: unfold callerMetadata, prop;
      match goal with H : getProp _ "metadata" = _ |- _ => rewrite H end.
    all: apply customMetadataOf_callerWins; assumption.
  - unfold Legacy.handleIngestion.
    destruct (negb (String.eqb (method req) "POST")); [intros []|].
    destruct (unauthorized _ req); [intros []|].
    unfold req_json. destruct (json_body req) as [body|]; [rewrite bind_mret|intros []].
    run_lift; [|intros []].
    run_lift; [|intros []].
    destruct (_ || _); [intros []|].
    rewrite trace_try_catch.
    run_lift; [|intros []].
    run_lift; [|intros []].
    run_lift; [|intros []].
    run_lift; [|intros []].
    assert (Hsync : forall c, In c (trace (Legacy.triggerAutoRAGSync w lenv)) ->
                              exists url m h p, c = HttpFetch url m h p).
    { intros c. unfold Legacy.triggerAutoRAGSync.
      destruct (_ || _ || _); [intros []|].
      rewrite trace_try_catch.
      destruct (http_fetch w _ _ _ _) as [resp|e'].
      - rewrite bind_call_Ok. cbn.
        destruct (negb (fr_ok resp)).
        + destruct (_ || _).
          * cbn. intros [<-|[]]. eauto.
          * destruct (fr_text resp); cbn; intros [<-|[]]; eauto.
        + destruct (fr_json resp); cbn; intros [<-|[]]; eauto.
      - cbn. intros [<-|[]]. eauto. }
    run_call.
    + cbn [trace outcome fst snd]. rewrite outcome_bind, !trace_bind.
      destruct (outcome (Legacy.triggerAutoRAGSync w lenv)); cbn;
        rewrite ?app_nil_r;
        (intros [[= <- <- <- <-] | Hin];
         [ exists body; split; [reflexivity|];
           unfold callerMetadata, prop;
           match goal with H : getProp _ "metadata" = _ |- _ => rewrite H end;
           apply customMetadataOf_callerWins; assumption
         | apply Hsync in Hin; destruct Hin as (? & ? & ? & ? & [=]) ]).
    + cbn. intros [[= <- <- <- <-] | []].
      exists body; split; [reflexivity|].
      unfold callerMetadata, prop;
        match goal with H : getProp _ "metadata" = _ |- _ => rewrite H end.
      apply customMetadataOf_callerWins; assumption.
Qed.

Lemma C2_caller_metadata_witness :
  exists body,
    json_body (postJson "/api/ingest" (Some documentWithMetadata)) = Some body
    /\ callerWins (rt := decimalRuntime) (callerMetadata (rt := decimalRuntime) body)
         {[ "source" := "api-ingestion"; "timestamp" := now_iso quietWorld ]}
         {[ "source" := "mine"; "timestamp" := "yesterday" ]}
         "source".
Proof.
  refine (proj1 (C2_caller_metadata_wins decimalRuntime quietWorld managedEnv legacyEnv
                   (postJson "/api/ingest" (Some documentWithMetadata)) ∅
                   "guide/intro.md" (VStr "# Intro") (VStr "text/markdown")
                   {[ "source" := "mine"; "timestamp" := "yesterday" ]} "source") _).
  vm_compute. left. reflexivity.
Defined.

(** C2, as the spec states it, fails in both workers: a caller who sends
    its own ["source"] and ["timestamp"] has them stored in place of the
    worker's. *)
Lemma C2_caller_overrides_system_fields :
  trace (Worker.handleIngestion (rt := decimalRuntime) quietWorld managedEnv
           (postJson "/api/ingest" (Some documentWithMetadata)) ∅)
    = [BucketPut "guide/intro.md" (VStr "# Intro") (VStr "text/markdown")
         {[ "source" := "mine"; "timestamp" := "yesterday" ]}]
  /\ hd_error (trace (Legacy.handleIngestion (rt := decimalRuntime) quietWorld legacyEnv
                        (postJson "/api/ingest" (Some documentWithMetadata)) ∅))
    = Some (BucketPut "guide/intro.md" (VStr "# Intro") (VStr "text/markdown")
              {[ "source" := "mine"; "timestamp" := "yesterday" ]}).
Proof. split; vm_compute; reflexivity. Qed.

(** ** Clamping of the result count and the score threshold *)

Lemma Qle_bool_false (p q : Q) : Qle_bool p q = false -> (q < p)%Q.
Proof.
  intros H. apply Qnot_le_lt. intros Hle. apply Qle_bool_iff in Hle. congruence.
Qed.

Lemma clamp_topK (n : JsNum) :
  is_NaN n = false -> within 1 50 (Math_min (Math_max n (Fin 1)) (Fin 50)).
Proof.
  destruct n as [| | |q]; simpl; try discriminate; intros _.
  - split; [apply Qle_refl | discriminate].
  - split; [discriminate | apply Qle_refl].
  - destruct (Qle_bool q 1) eqn:E1; simpl.
    + split; [apply Qle_refl | discriminate].
    + apply Qle_bool_false in E1.
      destruct (Qle_bool q 50) eqn:E2; simpl.
      * apply Qle_bool_iff in E2. split; [apply Qlt_le_weak; exact E1 | exact E2].
      * split; [discriminate | apply Qle_refl].
Qed.

Lemma clamp_threshold (n : JsNum) :
  is_NaN n = false -> within 0 1 (Math_max (Math_min n (Fin 1)) (Fin 0)).
Proof.
  destruct n as [| | |q]; simpl; try discriminate; intros _.
  - split; [apply Qle_refl | discriminate].
  - split; [discriminate | apply Qle_refl].
  - destruct (Qle_bool q 1) eqn:E1; simpl.
    + apply Qle_bool_iff in E1.
      destruct (Qle_bool q 0) eqn:E2; simpl.
      * split; [apply Qle_refl | discriminate].
      * apply Qle_bool_false in E2. split; [apply Qlt_le_weak; exact E2 | exact E1].
    + split; [discriminate | apply Qle_refl].
Qed.

Section Clamping.
Context {rt : Runtime}.
Variable w : World.
Variable env : Worker.Env.

(** What [aiSearch] sends: one call when the binding is bound, with the
    count in [1, 50] and the threshold in [0, 1] for every requested
    number. *)
Lemma aiSearch_clamps (params : Worker.SearchArgs) :
  exists p,
    trace (Worker.aiSearch w env params) =
      (if Worker.AI env then [AutoragAiSearch (Worker.RAG_ID env) p] else [])
    /\ (is_NaN (requestedTopK env params) = false -> clamped 1 50 (max_num_results_of p))
    /\ (is_NaN (requestedThreshold env params) = false -> clamped 0 1 (score_threshold_of p)).
Proof.
  unfold Worker.aiSearch, Worker.binding_aiSearch.
  destruct (default false (Worker.stream params));
    [ exists (VObj (Worker.searchParamsOf env params ++ [("stream", VBool true)]))
    | exists (VObj (Worker.searchParamsOf env params)) ];
    (split; [destruct (Worker.AI env); reflexivity|]); split; intros H;
    first [ exact (clamp_topK _ H) | exact (clamp_threshold _ H) ].
Qed.

End Clamping.

Section Dispatches.
Context {rt : Runtime}.
Variable w : World.

Lemma In_app_nil {A} (c : A) (l : list A) : In c (l ++ []) -> In c l.
Proof. rewrite app_nil_r. auto. Qed.

(** In managed mode every outside call of [handleAsk] is made by
    [aiSearch] on the locals read from the request. *)
Lemma handleAsk_managed_calls (env : Worker.Env) (req : Request) (corsHeaders : Headers)
    (c : Call) :
  configured (Worker.USE_EXTERNAL_LLM env) = false ->
  In c (trace (Worker.handleAsk w env req corsHeaders)) ->
  exists args,
    outcome (Worker.readAsk env req (Worker.acceptOf req)) = Ok args
    /\ In c (trace (Worker.aiSearch w env (searchArgsOf args))).
Proof.
  intros Hcfg. unfold Worker.handleAsk.
  destruct (_ && _); [intros []|].
  rewrite trace_bind, readAsk_trace.
  destruct (outcome (Worker.readAsk env req (Worker.acceptOf req))) as [args|e]; [|intros []].
  cbn [app]. destruct (String.eqb _ _); [intros []|].
  rewrite Hcfg. cbn [negb]. rewrite trace_try_catch, outcome_bind, trace_bind.
  fold (searchArgsOf args).
  intros Hin. exists args. split; [reflexivity|].
  destruct (outcome (Worker.aiSearch w env (searchArgsOf args)));
    [destruct (Worker.ask_stream args)|]; apply In_app_nil in Hin; exact Hin.
Qed.

Lemma is_str_true (v : Value) (s : string) : is_str v s = true -> v = VStr s.
Proof.
  destruct v; simpl; try discriminate.
  intros H. apply String.eqb_eq in H. congruence.
Qed.

(** Every outside call of the tool endpoint is made by [aiSearch] on the
    numbers of the [tools/call] arguments. *)
Lemma mcp_calls (env : Worker.Env) (req : Request) (c : Call) :
  In c (trace (Worker.NLWebMcp_fetch w env req)) ->
  exists rpc params topK threshold,
    json_body req = Some rpc
    /\ ToNumber (coalesce (toolArgument rpc "topK") (VNum (Fin 6))) = Ok topK
    /\ ToNumber (coalesce (toolArgument rpc "threshold") (VNum (Fin (3 # 10)))) = Ok threshold
    /\ Worker.topK params = Some topK
    /\ Worker.threshold params = Some threshold
    /\ In c (trace (Worker.aiSearch w env params)).
Proof.
  unfold Worker.NLWebMcp_fetch.
  destruct (String.eqb (method req) "OPTIONS"); [intros []|].
  destruct (negb _); [intros []|].
  rewrite catch_with_req_json, bind_mret.
  set (rpc := default (VObj []) (json_body req)).
  run_lift; [|intros []].
  intros Hin.
  assert (Hd : In c (trace (Worker.rpcDispatch w env rpc (coalesce a VNull)
                              (Worker.getCorsHeaders (header req "Origin")
                                 (Worker.ALLOWED_ORIGINS env))))).
  { rewrite trace_try_catch in Hin.
    destruct (outcome _); [exact Hin | apply In_app_nil in Hin; exact Hin]. }
  clear Hin. revert Hd.
  destruct (getProp rpc "method") as [m|e] eqn:Hmeth;
    [|unfold Worker.rpcDispatch; rewrite Hmeth; intros []].
  destruct (is_str m "tools/call") eqn:Hcall.
  - apply is_str_true in Hcall. subst m.
    assert (Hbody : json_body req = Some rpc).
    { subst rpc. destruct (json_body req); [reflexivity|]. simpl in Hmeth. discriminate. }
    rewrite (dispatch_tools_call w env rpc _ _ Hmeth).
    destruct (negb _).
    { run_lift; intros []. }
    run_lift; [|intros []].
    destruct (String.eqb _ _); [intros []|].
    run_lift; [|intros []].
    run_lift; [|intros []].
    rewrite trace_bind. intros Hin.
    match type of Hin with
    | context [Worker.aiSearch w env ?p] => exists rpc, p
    end.
    do 2 eexists. split; [exact Hbody|].
    split; [eassumption|]. split; [eassumption|].
    split; [reflexivity|]. split; [reflexivity|].
    destruct (outcome _); [apply In_app_nil in Hin|]; exact Hin.
  - unfold Worker.rpcDispatch. rewrite Hmeth, bind_lift_Ok, Hcall.
    destruct (is_str m "initialize"); [intros []|].
    destruct (is_str m "tools/list"); [intros []|].
    run_lift; intros [].
Qed.

(** With the binding bound, every outside call of the older worker's
    search handler carries the caller's [max_num_results] and
    [ranking_options] as given (5 and a threshold of 0.3 when absent or
    falsy). *)
Lemma legacy_search_calls (env : Legacy.Env) (req : Request) (hdrs : Headers) (c : Call) :
  Legacy.AI env = true ->
  In c (trace (Legacy.handleSearch w env req hdrs)) ->
  exists body p,
    json_body req = Some body
    /\ (c = AutoragAiSearch (tmpl (Legacy.AUTORAG_NAME env)) p
        \/ c = AutoragSearch (tmpl (Legacy.AUTORAG_NAME env)) p)
    /\ max_num_results_of p = or_else (prop body "max_num_results") (VNum (Fin 5))
    /\ ranking_options_of p =
         or_else (prop body "ranking_options")
                 (VObj [ ("score_threshold", VNum (Fin (3 # 10))) ]).
Proof.
  intros Hai. unfold Legacy.handleSearch.
  destruct (negb _); [intros []|].
  unfold req_json. destruct (json_body req) as [doc|]; [rewrite bind_mret|intros []].
  run_lift; [|intros []].
  destruct (negb _); [intros []|].
  rewrite trace_try_catch.
  do 7 (run_lift; [|intros []]).
  rewrite Hai.
  assert (Hmax : prop doc "max_num_results" = a1)
    by (unfold prop; match goal with H : getProp _ "max_num_results" = _ |- _ => rewrite H end;
        reflexivity).
  assert (Hrank : prop doc "ranking_options" = a3)
    by (unfold prop; match goal with H : getProp _ "ranking_options" = _ |- _ => rewrite H end;
        reflexivity).
  destruct (negb (is_false a0)); run_call; cbn;
    (intros [<- | []]; exists doc; eexists; split; [reflexivity|];
     split; [auto|]; rewrite Hmax, Hrank; split; reflexivity).
Qed.

(** Without the binding the older worker's search goes to the REST API,
    and its payload carries the caller's [max_num_results] and
    [ranking_options] only when they are truthy. *)
Lemma legacy_rest_calls (env : Legacy.Env) (req : Request) (hdrs : Headers) (c : Call) :
  Legacy.AI env = false ->
  In c (trace (Legacy.handleSearch w env req hdrs)) ->
  exists body url m h fields,
    json_body req = Some body
    /\ c = HttpFetch url m h (Some (VObj fields))
    /\ own fields "max_num_results" = passedOn body "max_num_results"
    /\ own fields "ranking_options" = passedOn body "ranking_options".
Proof.
  intros Hai Hin.
  assert (Hcalls :
            calls (fun c =>
                     exists body url m h fields,
                       json_body req = Some body
                       /\ c = HttpFetch url m h (Some (VObj fields))
                       /\ own fields "max_num_results" = passedOn body "max_num_results"
                       /\ own fields "ranking_options" = passedOn body "ranking_options")
                  (Legacy.handleSearch w env req hdrs)).
  { clear Hin. unfold Legacy.handleSearch.
    destruct (negb _); [apply calls_mret|].
    unfold req_json. destruct (json_body req) as [doc|] eqn:Hb;
      [rewrite bind_mret|apply calls_throw].
    destruct (getProp doc "query") as [q|e] eqn:Hq;
      [rewrite bind_lift_Ok|rewrite bind_lift_Throw; apply calls_throw].
    destruct (negb _); [apply calls_mret|].
    apply calls_try_catch; [|intros; apply calls_mret].
    rewrite (getProp_total _ _ _ Hq "use_ai_search"), (getProp_total _ _ _ Hq "max_num_results"),
      (getProp_total _ _ _ Hq "rewrite_query"), (getProp_total _ _ _ Hq "ranking_options"),
      (getProp_total _ _ _ Hq "model"), (getProp_total _ _ _ Hq "filters"),
      (getProp_total _ _ _ Hq "stream"), !bind_lift_Ok, Hai.
    apply calls_bind.
    - apply calls_call. exists doc. do 3 eexists. eexists.
      split; [reflexivity|]. split; [reflexivity|]. unfold passedOn, Legacy.spread_if.
      destruct (truthy (prop doc "max_num_results")),
        (negb match prop doc "rewrite_query" with VUndefined => true | _ => false end),
        (truthy (prop doc "model")), (truthy (prop doc "ranking_options")),
        (truthy (prop doc "filters")), (truthy (prop doc "stream"));
        split; reflexivity.
    - intros response _. repeat calls_step. }
  unfold calls in Hcalls. rewrite List.Forall_forall in Hcalls. exact (Hcalls c Hin).
Qed.

End Dispatches.

(** C1, as the code has it.  Whatever goes through [aiSearch] - the
    managed mode of the search handler and the tool endpoint's
    [tools/call] - reaches the backend with a result count in [1, 50] and
    a score threshold in [0, 1] whenever the requested value is a number
    at all (not NaN); [aiSearch] itself refuses nothing, it makes its one
    call for any arguments.  The older worker's search handler clamps
    nothing.  With the binding bound, its call carries the caller's
    [max_num_results] and [ranking_options] unchanged, or 5 and a
    threshold of 0.3 when they are absent or falsy; without the binding,
    on the REST fallback, its payload carries them unchanged when they
    are truthy and carries no such entry otherwise. *)
Theorem C1_dispatch_bounds :
  forall (rt : Runtime) (w : World) (wenv : Worker.Env) (lenv : Legacy.Env)
         (req : Request) (hdrs : Headers) (c : Call),
    (forall params : Worker.SearchArgs,
        exists p,
          trace (Worker.aiSearch w wenv params) =
            (if Worker.AI wenv then [AutoragAiSearch (Worker.RAG_ID wenv) p] else [])
          /\ (is_NaN (requestedTopK wenv params) = false -> clamped 1 50 (max_num_results_of p))
          /\ (is_NaN (requestedThreshold wenv params) = false ->
              clamped 0 1 (score_threshold_of p)))
    /\ (configured (Worker.USE_EXTERNAL_LLM wenv) = false ->
        In c (trace (Worker.handleAsk w wenv req hdrs)) ->
        exists args p,
          outcome (Worker.readAsk wenv req (Worker.acceptOf req)) = Ok args
          /\ c = AutoragAiSearch (Worker.RAG_ID wenv) p
          /\ (is_NaN (Worker.ask_topK args) = false -> clamped 1 50 (max_num_results_of p))
          /\ (is_NaN (Worker.ask_threshold args) = false ->
              clamped 0 1 (score_threshold_of p)))
    /\ (In c (trace (Worker.NLWebMcp_fetch w wenv req)) ->
        exists rpc topK threshold p,
          json_body req = Some rpc
          /\ ToNumber (coalesce (toolArgument rpc "topK") (VNum (Fin 6))) = Ok topK
          /\ ToNumber (coalesce (toolArgument rpc "threshold") (VNum (Fin (3 # 10))))
             = Ok threshold
          /\ c = AutoragAiSearch (Worker.RAG_ID wenv) p
          /\ (is_NaN topK = false -> clamped 1 50 (max_num_results_of p))
          /\ (is_NaN threshold = false -> clamped 0 1 (score_threshold_of p)))
    /\ (Legacy.AI lenv = true ->
        In c (trace (Legacy.handleSearch w lenv req hdrs)) ->
        exists body p,
          json_body req = Some body
          /\ (c = AutoragAiSearch (tmpl (Legacy.AUTORAG_NAME lenv)) p
              \/ c = AutoragSearch (tmpl (Legacy.AUTORAG_NAME lenv)) p)
          /\ max_num_results_of p = or_else (prop body "max_num_results") (VNum (Fin 5))
          /\ ranking_options_of p =
               or_else (prop body "ranking_options")
                       (VObj [ ("score_threshold", VNum (Fin (3 # 10))) ]))
    /\ (Legacy.AI lenv = false ->
        In c (trace (Legacy.handleSearch w lenv req hdrs)) ->
        exists body url m h fields,
          json_body req = Some body
          /\ c = HttpFetch url m h (Some (VObj fields))
          /\ own fields "max_num_results" = passedOn body "max_num_results"
          /\ own fields "ranking_options" = passedOn body "ranking_options").
Proof.
  intros rt w wenv lenv req hdrs c.
  split; [intros params; apply aiSearch_clamps|].
  split; [|split; [|split]].
  - intros Hcfg Hin.
    destruct (handleAsk_managed_calls w wenv req hdrs c Hcfg Hin) as (args & Hread & Hc).
    destruct (aiSearch_clamps w wenv (searchArgsOf args)) as (p & Ht & Hk & Hs).
    rewrite Ht in Hc. destruct (Worker.AI wenv); [|destruct Hc].
    destruct Hc as [<- | []]. exists args, p. auto.
  - intros Hin.
    destruct (mcp_calls w wenv req c Hin)
      as (rpc & params & topK & threshold & Hb & Hk & Hs & Hpk & Hps & Hc).
    destruct (aiSearch_clamps w wenv params) as (p & Ht & Hck & Hcs).
    rewrite Ht in Hc. destruct (Worker.AI wenv); [|destruct Hc].
    destruct Hc as [<- | []].
    unfold requestedTopK in Hck. unfold requestedThreshold in Hcs.
    rewrite Hpk in Hck. rewrite Hps in Hcs.
    exists rpc, topK, threshold, p. auto 10.
  - intros Hai Hin. exact (legacy_search_calls w lenv req hdrs c Hai Hin).
  - intros Hai Hin. exact (legacy_rest_calls w lenv req hdrs c Hai Hin).
Qed.

Lemma C1_dispatch_bounds_witness :
  exists args p,
    outcome (Worker.readAsk (rt := decimalRuntime) managedEnv
               (postJson "/ask" (Some greedySearch))
               (Worker.acceptOf (postJson "/ask" (Some greedySearch)))) = Ok args
    /\ AutoragAiSearch "docs"
         (VObj [ ("query", VStr "plugins");
                 ("rewrite_query", VBool true);
                 ("max_num_results", VNum (Fin 50));
                 ("ranking_options", VObj [ ("score_threshold", VNum (Fin 1)) ]) ])
       = AutoragAiSearch (Worker.RAG_ID managedEnv) p
    /\ (is_NaN (Worker.ask_topK args) = false ->
        clamped 1 50 (max_num_results_of (rt := decimalRuntime) p))
    /\ (is_NaN (Worker.ask_threshold args) = false ->
        clamped 0 1 (score_threshold_of (rt := decimalRuntime) p)).
Proof.
  refine (proj1 (proj2 (C1_dispatch_bounds decimalRuntime quietWorld managedEnv legacyEnv
                          (postJson "/ask" (Some greedySearch)) ∅ _))
                eq_refl _).
  vm_compute. left. reflexivity.
Defined.

(** C1, as the spec states it, fails on four paths: the older worker
    forwards a count of 999 and a threshold of 2 as they come, through
    the binding and on its REST fallback alike; so does the
    retrieval-only call of the external-LLM mode; and a count that is
    not a number travels through [aiSearch] as NaN. *)
Lemma C1_unclamped_dispatch :
  trace (Legacy.fetch (rt := decimalRuntime) quietWorld legacyEnv
           (postJson "/api/autorag-search" (Some greedyLegacySearch)))
    = [AutoragAiSearch "docs"
         (VObj [ ("query", VStr "plugins");
                 ("max_num_results", VNum (Fin 999));
                 ("rewrite_query", VBool true);
                 ("ranking_options", VObj [ ("score_threshold", VNum (Fin 2)) ]) ])]
  /\ trace (Worker.fetch (rt := decimalRuntime) quietWorld externalEnv
              (postJson "/ask" (Some greedySearch)))
    = [AutoragSearch "docs"
         (VObj [ ("query", VStr "plugins");
                 ("rewrite_query", VBool true);
                 ("max_num_results", VNum (Fin 999));
                 ("ranking_options", VObj [ ("score_threshold", VNum (Fin 2)) ]) ])]
  /\ trace (Worker.fetch (rt := decimalRuntime) quietWorld managedEnv
              (postJson "/ask"
                 (Some (VObj [ ("query", VStr "plugins"); ("topK", VStr "many") ]))))
    = [AutoragAiSearch "docs"
         (VObj [ ("query", VStr "plugins");
                 ("rewrite_query", VBool true);
                 ("max_num_results", VNum NaN);
                 ("ranking_options", VObj [ ("score_threshold", VNum (Fin (3 # 10))) ]) ])]
  /\ trace (Legacy.fetch (rt := decimalRuntime) quietWorld unboundLegacyEnv
              (postJson "/api/autorag-search" (Some greedyLegacySearch)))
    = [HttpFetch
         "https://api.cloudflare.com/client/v4/accounts/acct/autorag/rags/docs/ai-search"
         "POST"
         {[ "Content-Type" := "application/json"; "Authorization" := "Bearer secret" ]}
         (Some (VObj [ ("query", VStr "plugins");
                       ("max_num_results", VNum (Fin 999));
                       ("ranking_options",
                         VObj [ ("score_threshold", VNum (Fin 2)) ]) ]))].
Proof. repeat split; vm_compute; reflexivity. Qed.

(** ** Exceptions that leave a handler *)

(** C3 fails on the code: a POST to [/api/ingest] that passes the bearer
    check and whose body is not valid JSON makes [req.json()] reject
    before the handler's [try] block is entered.  The unified worker's
    entry point has no [try] at all, and the older worker's returns the
    handler's promise without awaiting it, so in both the rejection
    leaves [fetch]: no response is produced, and no outside call was
    made. *)
Theorem C3_malformed_ingest_escapes :
  forall (rt : Runtime) (w : World) (wenv : Worker.Env) (lenv : Legacy.Env) (req : Request),
    method req = "POST" ->
    pathname req = "/api/ingest" ->
    json_body req = None ->
    unauthorized (Worker.INGESTION_TOKEN wenv) req = false ->
    unauthorized (Legacy.INGESTION_TOKEN lenv) req = false ->
    Worker.fetch w wenv req = ([], Throw (SyntaxError "Unexpected token in JSON"))
    /\ Legacy.fetch w lenv req = ([], Throw (SyntaxError "Unexpected token in JSON")).
Proof.
  intros rt w wenv lenv req Hm Hp Hb Hw Hl. split.
  - unfold Worker.fetch, Worker.handleIngestion, req_json.
    rewrite Hm, Hp, Hw, Hb. reflexivity.
  - unfold Legacy.fetch. rewrite Hm, Hp. cbn [String.eqb Ascii.eqb Bool.eqb].
    rewrite legacy_fetch_returned.
    unfold Legacy.handleIngestion, req_json. rewrite Hm, Hl, Hb. reflexivity.
Qed.

Lemma C3_malformed_ingest_witness :
  Worker.fetch (rt := decimalRuntime) quietWorld managedEnv (postJson "/api/ingest" None)
    = ([], Throw (SyntaxError "Unexpected token in JSON"))
  /\ Legacy.fetch (rt := decimalRuntime) quietWorld legacyEnv (postJson "/api/ingest" None)
    = ([], Throw (SyntaxError "Unexpected token in JSON")).
Proof.
  exact (C3_malformed_ingest_escapes decimalRuntime quietWorld managedEnv legacyEnv
           (postJson "/api/ingest" None) eq_refl eq_refl eq_refl eq_refl eq_refl).
Defined.

(** C10 fails on the code at one kind of body: a POST whose body is the
    JSON literal [null] parses, so the fallback to an empty object does
    not apply, and reading [rpc.id] throws before the [try] block; the
    exception leaves the responder and the entry point, and no response
    with status 200 is produced.  Every other POST - a body that does not
    parse included - is answered with status 200. *)
Theorem C10_post_status :
  forall (rt : Runtime) (w : World) (env : Worker.Env) (req : Request),
    method req = "POST" ->
    (json_body req = Some VNull ->
     Worker.NLWebMcp_fetch w env req =
       ([], Throw (TypeError "Cannot read properties of null or undefined (reading 'id')"))
     /\ (pathname req = "/mcp" ->
         Worker.fetch w env req =
           ([], Throw (TypeError "Cannot read properties of null or undefined (reading 'id')"))))
    /\ (nullish (default (VObj []) (json_body req)) = false ->
        exists resp,
          outcome (Worker.NLWebMcp_fetch w env req) = Ok resp /\ status resp = 200).
Proof.
  intros rt w env req Hm. split.
  - intros Hb.
    assert (H : Worker.NLWebMcp_fetch w env req =
                ([], Throw (TypeError
                              "Cannot read properties of null or undefined (reading 'id')"))).
    { unfold Worker.NLWebMcp_fetch, catch_with, req_json. rewrite Hm, Hb. reflexivity. }
    split; [exact H|].
    intros Hp. unfold Worker.fetch. rewrite Hm, Hp. exact H.
  - intros Hnn. unfold Worker.NLWebMcp_fetch. rewrite Hm.
    cbn [String.eqb Ascii.eqb Bool.eqb negb].
    rewrite catch_with_req_json, bind_mret, (getProp_nonnull _ "id" Hnn), bind_lift_Ok.
    rewrite outcome_try_catch.
    match goal with
    | |- context [outcome ?m] =>
        assert (Hret : returns (fun resp => status resp = 200) m);
        [|destruct (outcome m) as [resp|e] eqn:E]
    end.
    + unfold Worker.rpcDispatch. repeat returns_step; reflexivity.
    + exists resp. split; [reflexivity|]. apply Hret. exact E.
    + eexists. split; reflexivity.
Qed.

Lemma C10_post_status_witness :
  Worker.fetch (rt := decimalRuntime) quietWorld managedEnv (postJson "/mcp" (Some VNull))
  = ([], Throw (TypeError "Cannot read properties of null or undefined (reading 'id')")).
Proof.
  exact (proj2 (proj1 (C10_post_status decimalRuntime quietWorld managedEnv
                         (postJson "/mcp" (Some VNull)) eq_refl) eq_refl) eq_refl).
Defined.

(** ** Sanity checks of the helpers *)

Example trim_both_ends : Str.trim "  a b  " = "a b".
Proof. reflexivity. Qed.

Example split_on_comma : Str.split "," "a, b,,*" = ["a"; " b"; ""; "*"].
Proof. reflexivity. Qed.

Example endsWith_is_case_sensitive :
  Str.endsWith "x.HTML" ".html" = false
  /\ Str.endsWith (Str.toLowerCase "x.HTML") ".html" = true.
Proof. split; reflexivity. Qed.

Example parseBoolean_tokens :
  List.map (fun s => Worker.parseBoolean (Some s) false) ["1"; "TRUE"; "Yes"; "on"; "0"; ""]
  = [true; true; true; true; false; false].
Proof. reflexivity. Qed.

Example cors_listed_origin :
  Worker.getCorsHeaders (Some "https://a.example") (Some "https://a.example, https://b.example")
    !! "Access-Control-Allow-Origin" = Some "https://a.example"
  /\ Worker.getCorsHeaders (Some "https://c.example") (Some "https://a.example")
       !! "Access-Control-Allow-Origin" = Some "null"
  /\ Worker.getCorsHeaders None None !! "Access-Control-Allow-Origin" = Some "*".
Proof. repeat split; vm_compute; reflexivity. Qed.

Example default_search_parameters :
  trace (Worker.fetch (rt := decimalRuntime) quietWorld managedEnv
           (postJson "/ask" (Some (VObj [ ("query", VStr "How to build a plugin?") ]))))
  = [AutoragAiSearch "docs"
       (VObj [ ("query", VStr "How to build a plugin?");
               ("rewrite_query", VBool true);
               ("max_num_results", VNum (Fin 6));
               ("ranking_options", VObj [ ("score_threshold", VNum (Fin (3 # 10))) ]) ])].
Proof. vm_compute. reflexivity. Qed.

(** * Further properties of the workers *)

(** ** CORS headers *)

Lemma mem_In (x : string) (l : list string) : Str.mem x l = true <-> In x l.
Proof.
  unfold Str.mem. rewrite existsb_exists. split.
  - intros (y & Hy & E). apply String.eqb_eq in E. subst. exact Hy.
  - intros H. exists x. split; [exact H | apply String.eqb_refl].
Qed.

Lemma listedEntries_nonempty (setting s : string) : In s (listedEntries setting) -> s <> "".
Proof.
  unfold listedEntries. rewrite filter_In. intros [_ H] ->. discriminate.
Qed.

(** X1: the Access-Control-Allow-Origin header is always set, by both
    workers.  It is ["*"] exactly when the allow-list (["*"] by default)
    contains ["*"]; otherwise it is the request's Origin whenever that
    origin is on the allow-list - a listed origin is granted - and the
    text ["null"] in every other case: an origin that is not listed is
    never echoed. *)
Theorem cors_origin_is_listed :
  forall (lenv : Legacy.Env) (req : Request) (allowedOrigins : option string),
  exists v w,
    Worker.getCorsHeaders (header req "Origin") allowedOrigins
      !! "Access-Control-Allow-Origin" = Some v
    /\ Legacy.corsHeadersOf lenv req !! "Access-Control-Allow-Origin" = Some w
    /\ (v = "*" <-> In "*" (listedEntries (default "*" allowedOrigins)))
    /\ (v = "*" \/ v = "null"
        \/ (header req "Origin" = Some v /\ In v (listedEntries (default "*" allowedOrigins))))
    /\ (forall o,
        header req "Origin" = Some o ->
        In o (listedEntries (default "*" allowedOrigins)) ->
        v = "*" \/ v = o)
    /\ (w = "*" <->
        In "*" (listedEntries (default "*" (or_opt (Legacy.ALLOWED_ORIGINS lenv) None))))
    /\ (w = "*" \/ w = "null"
        \/ (header req "Origin" = Some w
            /\ In w (listedEntries (default "*" (or_opt (Legacy.ALLOWED_ORIGINS lenv) None)))))
    /\ (forall o,
        header req "Origin" = Some o ->
        In o (listedEntries (default "*" (or_opt (Legacy.ALLOWED_ORIGINS lenv) None))) ->
        w = "*" \/ w = o).
Proof.
  intros lenv req allowedOrigins.
  unfold Worker.getCorsHeaders, Legacy.corsHeadersOf.
  fold (listedEntries (default "*" allowedOrigins)).
  fold (listedEntries (default "*" (or_opt (Legacy.ALLOWED_ORIGINS lenv) None))).
  set (la := listedEntries (default "*" allowedOrigins)).
  set (lb := listedEntries (default "*" (or_opt (Legacy.ALLOWED_ORIGINS lenv) None))).
  eexists. eexists.
  split; [apply lookup_insert_eq|]. split; [apply lookup_insert_eq|].
  split; [|split; [|split; [|split; [|split]]]].
  - destruct (Str.mem "*" la) eqn:Ea.
    + apply mem_In in Ea. tauto.
    + assert (~ In "*" la) by (rewrite <- mem_In; congruence).
      destruct (header req "Origin") as [o|]; [|split; [discriminate|tauto]].
      destruct (negb (String.eqb o "") && Str.mem o la) eqn:Eo;
        [|split; [discriminate|tauto]].
      apply andb_true_iff in Eo. destruct Eo as [_ Eo]. apply mem_In in Eo.
      split; [intros ->; tauto | tauto].
  - destruct (Str.mem "*" la); [auto|].
    destruct (header req "Origin") as [o|]; [|auto].
    destruct (negb (String.eqb o "") && Str.mem o la) eqn:Eo; [|auto].
    apply andb_true_iff in Eo. destruct Eo as [_ Eo]. apply mem_In in Eo. auto.
  - intros o Ho Hin. destruct (Str.mem "*" la); [auto|]. right.
    rewrite Ho. pose proof (listedEntries_nonempty _ _ Hin) as Hne.
    apply String.eqb_neq in Hne. apply mem_In in Hin. unfold la in Hin |- *.
    rewrite Hne, Hin. reflexivity.
  - destruct (Str.mem "*" lb) eqn:Eb.
    + apply mem_In in Eb. tauto.
    + assert (~ In "*" lb) by (rewrite <- mem_In; congruence).
      set (o := default "" (or_opt (header req "Origin") None)).
      destruct (Str.mem o lb) eqn:Eo; [|split; [intros E; discriminate E|tauto]].
      apply mem_In in Eo. split; [intros E; rewrite E in Eo; tauto | tauto].
  - destruct (Str.mem "*" lb); [auto|].
    set (o := default "" (or_opt (header req "Origin") None)).
    destruct (Str.mem o lb) eqn:Eo; [|auto].
    apply mem_In in Eo. right. right. subst o.
    pose proof (listedEntries_nonempty _ _ Eo) as Hne.
    destruct (header req "Origin") as [o|]; simpl in *.
    + destruct (String.eqb_spec o ""); [subst; simpl in *; contradiction|]. auto.
    + contradiction.
  - intros o Ho Hin. destruct (Str.mem "*" lb); [auto|]. right.
    rewrite Ho. pose proof (listedEntries_nonempty _ _ Hin) as Hne.
    apply String.eqb_neq in Hne. apply mem_In in Hin. unfold lb in Hin |- *.
    cbn [or_opt default from_option id]. rewrite Hne. cbn [default from_option id].
    rewrite Hin. reflexivity.
Qed.

Lemma cors_origin_witness :
  Worker.getCorsHeaders (Some "https://docs.example") (Some "https://a.example, https://docs.example")
    !! "Access-Control-Allow-Origin" = Some "https://docs.example".
Proof.
  destruct (cors_origin_is_listed legacyEnv
              {| method := "GET"; pathname := "/ask"; searchParams := [];
                 req_headers := {[ "Origin" := "https://docs.example" ]};
                 json_body := None |}
              (Some "https://a.example, https://docs.example"))
    as (v & w & Hv & _ & Hstar & _ & Hgrant & _).
  change (header _ "Origin") with (Some "https://docs.example") in Hv, Hgrant.
  rewrite Hv. f_equal.
  assert (Hin : In "https://docs.example"
                    (listedEntries (default "*" (Some "https://a.example, https://docs.example"))))
    by (vm_compute; tauto).
  destruct (Hgrant "https://docs.example" eq_refl Hin) as [E | E]; [|exact E].
  exfalso. apply Hstar in E. vm_compute in E.
  repeat (destruct E as [E | E]; [discriminate E|]). exact E.
Defined.

Ltac keeps_header :=
  unfold Legacy.jsonResponse, Worker.json, Worker.notFound; cbn [headers];
  unfold Headers in *;
  repeat (rewrite lookup_insert_ne; [|intros E; symmetry in E; contradiction]);
  try reflexivity.

Section LegacyHeaders.
Context {rt : Runtime}.
Variable w : World.
Variable env : Legacy.Env.
Variable k : string.
Hypothesis not_content_type : k <> "Content-Type".
Hypothesis not_cache_control : k <> "Cache-Control".

Let kept (hdrs : Headers) (resp : Response) : Prop := headers resp !! k = hdrs !! k.

Lemma handleSearch_keeps (req : Request) (hdrs : Headers) :
  returns (kept hdrs) (Legacy.handleSearch w env req hdrs).
Proof. unfold Legacy.handleSearch, kept. repeat returns_step; keeps_header. Qed.

Lemma legacy_handleIngestion_keeps (req : Request) (hdrs : Headers) :
  returns (kept hdrs) (Legacy.handleIngestion w env req hdrs).
Proof. unfold Legacy.handleIngestion, kept. repeat returns_step; keeps_header. Qed.

Lemma handleRenderAndIngest_keeps (req : Request) (hdrs : Headers) :
  returns (kept hdrs) (Legacy.handleRenderAndIngest w env req hdrs).
Proof. unfold Legacy.handleRenderAndIngest, kept. repeat returns_step; keeps_header. Qed.

Lemma handleSync_keeps (req : Request) (hdrs : Headers) :
  returns (kept hdrs) (Legacy.handleSync w env req hdrs).
Proof. unfold Legacy.handleSync, kept. repeat returns_step; keeps_header. Qed.

Lemma handleStatus_keeps (hdrs : Headers) :
  returns (kept hdrs) (Legacy.handleStatus w env hdrs).
Proof. unfold Legacy.handleStatus, kept. repeat returns_step; keeps_header. Qed.

End LegacyHeaders.

(** X2: whatever the older worker answers - on any path, with any
    status, errors included - carries the computed CORS headers
    unchanged; the only headers a handler adds or sets are Content-Type
    and Cache-Control. *)
Theorem legacy_responses_keep_cors :
  forall (rt : Runtime) (w : World) (env : Legacy.Env) (req : Request) (k : string)
         (resp : Response),
    k <> "Content-Type" ->
    k <> "Cache-Control" ->
    outcome (Legacy.fetch w env req) = Ok resp ->
    headers resp !! k = Legacy.corsHeadersOf env req !! k.
Proof.
  intros rt w env req k resp Hct Hcc. revert resp.
  change (returns (fun resp => headers resp !! k = Legacy.corsHeadersOf env req !! k)
                  (Legacy.fetch w env req)).
  unfold Legacy.fetch.
  destruct (String.eqb (method req) "OPTIONS"); [apply returns_mret; reflexivity|].
  rewrite legacy_fetch_returned.
  repeat match goal with
         | |- returns _ (if ?b then _ else _) => destruct b
         end.
  - apply handleSearch_keeps; assumption.
  - apply legacy_handleIngestion_keeps; assumption.
  - apply handleRenderAndIngest_keeps; assumption.
  - apply handleSync_keeps; assumption.
  - apply handleStatus_keeps; assumption.
  - apply returns_mret. reflexivity.
Qed.

Lemma legacy_responses_keep_cors_witness :
  exists resp,
    outcome (Legacy.fetch (rt := decimalRuntime) quietWorld legacyEnv (getRequest "/nowhere"))
      = Ok resp
    /\ status resp = 404
    /\ headers resp !! "Access-Control-Allow-Origin" = Some "*".
Proof.
  eexists. split; [reflexivity|]. split; [reflexivity|].
  rewrite (legacy_responses_keep_cors decimalRuntime quietWorld legacyEnv
             (getRequest "/nowhere") "Access-Control-Allow-Origin" _
             ltac:(discriminate) ltac:(discriminate) eq_refl).
  vm_compute. reflexivity.
Defined.

(** ** Static assets *)




(** ** CORS headers on the unified worker's own responses *)

Section WorkerHeaders.
Context {rt : Runtime}.
Variable w : World.
Variable env : Worker.Env.

Let carries (hdrs : Headers) (resp : Response) : Prop := hdrs ⊆ headers resp.

Lemma json_carries (o : Value) (s : nat) (hdrs : Headers) : carries hdrs (Worker.json o s hdrs).
Proof. unfold carries, Worker.json. cbn [headers]. apply map_union_subseteq_l. Qed.

Lemma rpcError_carries (id : Value) (hdrs : Headers) (code : Z) (msg : string) (data : Value) :
  carries hdrs (Worker.rpcError id hdrs code msg data).
Proof. apply json_carries. Qed.

Ltac carries_done :=
  first [ apply json_carries | apply rpcError_carries
        | unfold carries; cbn [headers];
          first [ reflexivity | apply map_union_subseteq_l ] ].

Lemma worker_handleIngestion_carries (req : Request) (hdrs : Headers) :
  returns (carries hdrs) (Worker.handleIngestion w env req hdrs).
Proof. unfold Worker.handleIngestion. repeat returns_step; carries_done. Qed.

Lemma NLWebMcp_fetch_carries (req : Request) :
  returns (carries (Worker.getCorsHeaders (header req "Origin") (Worker.ALLOWED_ORIGINS env)))
          (Worker.NLWebMcp_fetch w env req).
Proof.
  unfold Worker.NLWebMcp_fetch, Worker.rpcDispatch. repeat returns_step; carries_done.
Qed.

Lemma handleAsk_carries (req : Request) (hdrs : Headers) :
  configured (Worker.USE_EXTERNAL_LLM env) = false
  \/ Str.includes (Worker.acceptOf req) "text/event-stream" = false ->
  returns (carries hdrs) (Worker.handleAsk w env req hdrs).
Proof.
  intros Hmode. unfold Worker.handleAsk.
  repeat returns_step; try carries_done.
  all: destruct Hmode as [Hmode | Hmode]; [rewrite Hmode in *|]; discriminate.
Qed.

End WorkerHeaders.

(** X4: on its own paths the unified worker puts the computed CORS
    headers on every response it builds - preflight, errors and the
    tool endpoint included.  The one exception is the streamed answer of
    the external-LLM mode, whose response comes from the AI SDK; so the
    statement is for the managed mode or a client that does not accept
    an event stream. *)
Theorem worker_responses_carry_cors :
  forall (rt : Runtime) (w : World) (env : Worker.Env) (req : Request) (resp : Response),
    method req = "OPTIONS" \/ In (pathname req) workerApiPaths ->
    configured (Worker.USE_EXTERNAL_LLM env) = false
    \/ Str.includes (Worker.acceptOf req) "text/event-stream" = false ->
    outcome (Worker.fetch w env req) = Ok resp ->
    Worker.getCorsHeaders (header req "Origin") (Worker.ALLOWED_ORIGINS env) ⊆ headers resp.
Proof.
  intros rt w env req resp Hpath Hmode. revert resp.
  change (returns
            (fun resp =>
               Worker.getCorsHeaders (header req "Origin") (Worker.ALLOWED_ORIGINS env)
               ⊆ headers resp)
            (Worker.fetch w env req)).
  unfold Worker.fetch.
  destruct (String.eqb (method req) "OPTIONS") eqn:Em; [apply returns_mret; reflexivity|].
  destruct Hpath as [Hm | Hp]; [rewrite Hm in Em; discriminate|].
  destruct (String.eqb_spec (pathname req) "/ask"); [apply handleAsk_carries; exact Hmode|].
  destruct (String.eqb_spec (pathname req) "/mcp"); [apply NLWebMcp_fetch_carries|].
  destruct (String.eqb_spec (pathname req) "/api/ingest");
    [apply worker_handleIngestion_carries|].
  destruct (String.eqb_spec (pathname req) "/api/autorag-search");
    [apply handleAsk_carries; exact Hmode|].
  destruct (String.eqb_spec (pathname req) "/api/status");
    [apply returns_mret; apply map_union_subseteq_l|].
  simpl in Hp. intuition congruence.
Qed.

Lemma worker_responses_carry_cors_witness :
  exists resp,
    outcome (Worker.fetch (rt := decimalRuntime) quietWorld managedEnv
               (postJson "/api/ingest" (Some (VObj [])))) = Ok resp
    /\ status resp = 400
    /\ Worker.getCorsHeaders None None ⊆ headers resp.
Proof.
  eexists. split; [reflexivity|]. split; [reflexivity|].
  refine (worker_responses_carry_cors decimalRuntime quietWorld managedEnv
            (postJson "/api/ingest" (Some (VObj []))) _ _ (or_introl eq_refl) eq_refl).
  right. simpl. tauto.
Defined.

(** ** Verbs *)

(** X5: the verb is checked before anything else.  A request to a
    mutating or search handler with a verb the handler does not serve
    (anything but POST; for the unified search handler anything but GET
    and POST) is answered 405 with no outside call, before the bearer
    check and before the body is read - so also without credentials and
    with a body that does not parse. *)
Theorem wrong_verb_is_405_first :
  forall (rt : Runtime) (w : World) (wenv : Worker.Env) (lenv : Legacy.Env)
         (req : Request) (hdrs : Headers),
    method req <> "POST" ->
    Worker.handleIngestion w wenv req hdrs = methodNotAllowed hdrs
    /\ Legacy.handleSearch w lenv req hdrs = methodNotAllowed hdrs
    /\ Legacy.handleIngestion w lenv req hdrs = methodNotAllowed hdrs
    /\ Legacy.handleRenderAndIngest w lenv req hdrs = methodNotAllowed hdrs
    /\ Legacy.handleSync w lenv req hdrs = methodNotAllowed hdrs
    /\ (method req <> "GET" -> Worker.handleAsk w wenv req hdrs = methodNotAllowed hdrs).
Proof.
  intros rt w wenv lenv req hdrs Hm. apply String.eqb_neq in Hm.
  unfold Worker.handleIngestion, Legacy.handleSearch, Legacy.handleIngestion,
    Legacy.handleRenderAndIngest, Legacy.handleSync, Worker.handleAsk.
  rewrite Hm. cbn [negb andb].
  repeat split; try reflexivity.
  intros Hg. apply String.eqb_neq in Hg. rewrite Hg. reflexivity.
Qed.

Lemma wrong_verb_witness :
  Legacy.handleIngestion (rt := decimalRuntime) quietWorld securedLegacyEnv
    (deleteRequest "/api/ingest") ∅ = methodNotAllowed ∅.
Proof.
  refine (proj1 (proj2 (proj2 (wrong_verb_is_405_first decimalRuntime quietWorld securedEnv
                                 securedLegacyEnv (deleteRequest "/api/ingest") ∅ _)))).
  discriminate.
Defined.

(** ** Handlers of the older worker that cannot fail *)



Section LegacySettles.
Context {rt : Runtime}.
Variable w : World.
Variable env : Legacy.Env.

Lemma settles_pair {A} (t : list Call) (a : A) : settles ((t, Ok a) : M A).
Proof. exists a. reflexivity. Qed.

(** The guarded parse of the render-ingest handler. *)
Lemma parsed_body (req : Request) :
  try_catch (Some <$> req_json req) (fun _ => mret None) = mret (json_body req).
Proof. unfold req_json. destruct (json_body req); reflexivity. Qed.

Lemma handleSync_settles (req : Request) (hdrs : Headers) :
  settles (Legacy.handleSync w env req hdrs).
Proof.
  unfold Legacy.handleSync.
  destruct (negb _); [apply settles_mret|].
  destruct (unauthorized _ req); [apply settles_mret|].
  apply settles_try_catch. intros e _. apply settles_mret.
Qed.

Lemma handleStatus_settles (hdrs : Headers) : settles (Legacy.handleStatus w env hdrs).
Proof.
  unfold Legacy.handleStatus. apply settles_try_catch. intros e _. apply settles_mret.
Qed.

Lemma handleRenderAndIngest_settles (req : Request) (hdrs : Headers) :
  settles (Legacy.handleRenderAndIngest w env req hdrs).
Proof.
  unfold Legacy.handleRenderAndIngest.
  destruct (negb _); [apply settles_mret|].
  destruct (unauthorized _ req); [apply settles_mret|].
  destruct (negb (Legacy.MY_BROWSER env)); [apply settles_mret|].
  rewrite parsed_body, bind_mret.
  destruct (json_body req) as [doc|]; [|apply settles_mret].
  - rewrite optProp_total, bind_lift_Ok.
    destruct (negb _); [apply settles_mret|].
    destruct (match ToString _ with Ok s => URL_parse w s | Throw _ => None end)
      as [[href hostname]|]; [|apply settles_mret].
    destruct (_ && _); [apply settles_mret|].
    apply settles_try_catch. intros e _. apply settles_mret.
Qed.

End LegacySettles.

(** X7: outside its search and ingest paths the older worker's entry
    point always produces a response, whatever the request, the
    configuration and the outside world do: preflight, render-ingest
    (where a body that does not parse is answered 400), sync, status and
    unknown paths never let an exception out. *)
Theorem legacy_fetch_settles_off_search_and_ingest :
  forall (rt : Runtime) (w : World) (env : Legacy.Env) (req : Request),
    pathname req <> "/api/autorag-search" ->
    pathname req <> "/api/ingest" ->
    settles (Legacy.fetch w env req).
Proof.
  intros rt w env req Hs Hi. unfold Legacy.fetch.
  destruct (String.eqb (method req) "OPTIONS"); [apply settles_mret|].
  rewrite legacy_fetch_returned.
  apply String.eqb_neq in Hs, Hi. rewrite Hs, Hi.
  destruct (String.eqb (pathname req) "/api/render-ingest");
    [apply handleRenderAndIngest_settles|].
  destruct (String.eqb (pathname req) "/api/sync"); [apply handleSync_settles|].
  destruct (String.eqb (pathname req) "/api/status"); [apply handleStatus_settles|].
  apply settles_mret.
Qed.

Lemma legacy_fetch_settles_witness :
  settles (Legacy.fetch (rt := decimalRuntime) failingWorld securedLegacyEnv
             (postJson "/api/render-ingest" None)).
Proof.
  refine (legacy_fetch_settles_off_search_and_ingest decimalRuntime failingWorld
            securedLegacyEnv (postJson "/api/render-ingest" None) _ _); discriminate.
Defined.

(** ** Rendering remote pages *)

Lemma triggerAutoRAGSync_calls (w : World) (env : Legacy.Env) (Q : Call -> Prop) :
  (forall m h p, Q (HttpFetch (Legacy.syncUrl env) m h p)) ->
  calls Q (Legacy.triggerAutoRAGSync w env).
Proof.
  intros HQ. unfold Legacy.triggerAutoRAGSync.
  destruct (_ || _ || _); [apply calls_mret|].
  apply calls_try_catch; [|intros; apply calls_mret].
  apply calls_bind; [apply calls_call, HQ|].
  intros response _. repeat calls_step.
Qed.

Lemma allowed_host (hostname : string) (l : list string) :
  negb (Nat.eqb (length l) 0) && negb (Str.mem hostname l) = false ->
  l = [] \/ In hostname l.
Proof.
  destruct l as [|x l]; [auto|]. simpl. intros H. right.
  apply negb_false_iff in H. apply (proj1 (mem_In hostname (x :: l))) in H. exact H.
Qed.

Lemma handleRenderAndIngest_calls {rt : Runtime} (w : World) (env : Legacy.Env)
    (req : Request) (hdrs : Headers) :
  calls (renderCallAllowed w env req) (Legacy.handleRenderAndIngest w env req hdrs).
Proof.
  unfold Legacy.handleRenderAndIngest.
  destruct (negb _); [apply calls_mret|].
  destruct (unauthorized _ req); [apply calls_mret|].
  destruct (negb (Legacy.MY_BROWSER env)); [apply calls_mret|].
  rewrite parsed_body, bind_mret.
  destruct (json_body req) as [doc|] eqn:Hbody; [|apply calls_mret].
  destruct (optProp doc "url") as [url|e] eqn:Hurl; [rewrite bind_lift_Ok|apply calls_throw].
  destruct (negb (truthy url)); [apply calls_mret|].
  destruct (ToString url) as [address|e] eqn:Haddr; [|apply calls_mret].
  destruct (URL_parse w address) as [[href hostname]|] eqn:Hparse; [|apply calls_mret].
  fold (renderHosts env).
  destruct (_ && _) eqn:Hallow; [apply calls_mret|].
  apply allowed_host in Hallow.
  apply calls_try_catch; [|intros; apply calls_mret].
  apply calls_bind; [apply calls_lift|]. intros waitUntil0 Hwait.
  apply calls_bind; [apply calls_lift|]. intros timeoutMs Htimeout.
  apply calls_bind.
  { apply calls_call. simpl. exists doc, url, address, hostname. auto. }
  intros html Hhtml.
  apply calls_bind; [apply calls_lift|]. intros keyPrefix Hkey.
  apply calls_bind.
  { destruct (truthy keyPrefix); [|apply calls_mret].
    apply calls_bind; [apply calls_lift|]. intros. apply calls_mret. }
  intros prefix Hprefix.
  apply calls_bind.
  { apply calls_call. simpl.
    assert (Hw : prop doc "waitUntil" = waitUntil0)
      by (unfold prop; cbn in Hwait; rewrite Hwait; reflexivity).
    assert (Ht : prop doc "timeoutMs" = timeoutMs)
      by (unfold prop; cbn in Htimeout; rewrite Htimeout; reflexivity).
    assert (Hk : prop doc "keyPrefix" = keyPrefix)
      by (unfold prop; cbn in Hkey; rewrite Hkey; reflexivity).
    exists doc, url, address, href, hostname, html, prefix.
    rewrite Hw, Ht. repeat (split; [first [reflexivity | assumption]|]).
    split; [|reflexivity].
    unfold requestedPrefix. rewrite Hk.
    destruct (truthy keyPrefix) eqn:Etruthy.
    - right. destruct keyPrefix as [| | | |p| |]; try discriminate Hprefix.
      exists p. split; [reflexivity|]. split.
      + intros ->. discriminate Etruthy.
      + cbn in Hprefix. injection Hprefix as <-. reflexivity.
    - left. cbn in Hprefix. injection Hprefix as <-. auto. }
  intros _ _.
  apply calls_bind; [|intros; apply calls_mret].
  apply triggerAutoRAGSync_calls. intros. reflexivity.
Qed.

(** X8: the render-ingest handler only ever opens the page the request
    names, and only on an allowed host: when a host allow-list is
    configured, every page it renders has its hostname on that list. *)
Theorem render_only_allowed_hosts :
  forall (rt : Runtime) (w : World) (env : Legacy.Env) (req : Request) (hdrs : Headers)
         (href : string) (waitUntil timeout : Value),
    In (BrowserRender href waitUntil timeout)
       (trace (Legacy.handleRenderAndIngest w env req hdrs)) ->
    exists body url address hostname,
      json_body req = Some body
      /\ optProp body "url" = Ok url
      /\ ToString url = Ok address
      /\ URL_parse w address = Some (href, hostname)
      /\ (renderHosts env = [] \/ In hostname (renderHosts env)).
Proof.
  intros rt w env req hdrs href waitUntil timeout Hin.
  pose proof (handleRenderAndIngest_calls w env req hdrs) as Hc.
  unfold calls in Hc. rewrite List.Forall_forall in Hc.
  exact (Hc _ Hin).
Qed.

Lemma render_only_allowed_hosts_witness :
  exists body url address hostname,
    json_body renderRequest = Some body
    /\ optProp body "url" = Ok url
    /\ ToString (rt := decimalRuntime) url = Ok address
    /\ URL_parse renderWorld address = Some ("https://docs.example/page", hostname)
    /\ (renderHosts renderEnv = [] \/ In hostname (renderHosts renderEnv)).
Proof.
  refine (render_only_allowed_hosts decimalRuntime renderWorld renderEnv renderRequest ∅
            "https://docs.example/page" (VStr "networkidle") (VNum (Fin 20000)) _).
  vm_compute. left. reflexivity.
Defined.

Lemma unsafeHostChar_kept (c : ascii) :
  Legacy.unsafeHostChar c
  = negb (existsb (Ascii.eqb c) (list_ascii_of_string hostCharacters)).
Proof.
  destruct c as [[] [] [] [] [] [] [] []]; vm_compute; reflexivity.
Qed.

Lemma keptInHost_existsb (c : ascii) :
  keptInHost c <-> existsb (Ascii.eqb c) (list_ascii_of_string hostCharacters) = true.
Proof.
  unfold keptInHost. rewrite existsb_exists. split.
  - intros H. exists c. split; [exact H | apply Ascii.eqb_refl].
  - intros (d & Hd & E). apply Ascii.eqb_eq in E. subst d. exact Hd.
Qed.

Lemma replaceAll_host (hostname : string) :
  Forall2 hostCharIn (list_ascii_of_string hostname)
    (list_ascii_of_string (Str.replaceAll Legacy.unsafeHostChar "_" hostname)).
Proof.
  induction hostname as [|c r IH]; cbn [Str.replaceAll list_ascii_of_string]; constructor;
    [|exact IH].
  unfold hostCharIn. rewrite unsafeHostChar_kept, keptInHost_existsb.
  destruct (existsb _ _); cbn [negb]; [left | right]; split;
    first [reflexivity | discriminate].
Qed.

Lemma colonOrDot_eqb (c : ascii) :
  Legacy.colonOrDot c = (Ascii.eqb c ":" || Ascii.eqb c ".").
Proof.
  destruct c as [[] [] [] [] [] [] [] []]; vm_compute; reflexivity.
Qed.

Lemma replaceAll_time (t : string) :
  Forall2 timeCharIn (list_ascii_of_string t)
    (list_ascii_of_string (Str.replaceAll Legacy.colonOrDot "-" t)).
Proof.
  induction t as [|c r IH]; cbn [Str.replaceAll list_ascii_of_string]; constructor;
    [|exact IH].
  unfold timeCharIn. rewrite colonOrDot_eqb.
  destruct (Ascii.eqb_spec c ":") as [->|Hcolon]; [left; auto|].
  destruct (Ascii.eqb_spec c ".") as [->|Hdot]; [left; auto|].
  right. auto.
Qed.

Lemma list_of_append (a b : string) :
  list_ascii_of_string (a +:+ b) = list_ascii_of_string a ++ list_ascii_of_string b.
Proof.
  induction a as [|c a IH]; [reflexivity|].
  change (String c a +:+ b) with (String c (a +:+ b)).
  cbn [list_ascii_of_string app]. rewrite IH. reflexivity.
Qed.

Lemma list_of_rev_app (a b : string) :
  list_ascii_of_string (String.rev_app a b)
  = List.rev (list_ascii_of_string a) ++ list_ascii_of_string b.
Proof.
  revert b. induction a as [|c a IH]; intros b; [reflexivity|].
  cbn [String.rev_app list_ascii_of_string List.rev]. rewrite IH.
  cbn [list_ascii_of_string]. rewrite <- List.app_assoc. reflexivity.
Qed.

Lemma list_of_rev (a : string) :
  list_ascii_of_string (String.rev a) = List.rev (list_ascii_of_string a).
Proof.
  unfold String.rev. rewrite list_of_rev_app. cbn [list_ascii_of_string].
  apply List.app_nil_r.
Qed.

Lemma string_of_same_list (a b : string) :
  list_ascii_of_string a = list_ascii_of_string b -> a = b.
Proof.
  intros H. rewrite <- (string_of_list_ascii_of_string a), H.
  apply string_of_list_ascii_of_string.
Qed.

Lemma dropSlashes_split (s : string) :
  exists lead,
    s = lead +:+ Legacy.dropSlashes s
    /\ slashes lead
    /\ forall r, Legacy.dropSlashes s <> String "/" r.
Proof.
  induction s as [|c s (lead & Hs & Hlead & Hfirst)].
  - exists "". split; [reflexivity|]. split; [constructor | intros r; discriminate].
  - cbn [Legacy.dropSlashes]. destruct (Ascii.eqb_spec c "/") as [->|Hc].
    + exists (String "/" lead).
      change (String "/" lead +:+ Legacy.dropSlashes s)
        with (String "/" (lead +:+ Legacy.dropSlashes s)).
      rewrite <- Hs. split; [reflexivity|].
      split; [constructor; [reflexivity | exact Hlead] | exact Hfirst].
    + exists "". split; [reflexivity|].
      split; [constructor | intros r [= E _]; exact (Hc E)].
Qed.

Lemma stripSlashes_core (p : string) : withoutOuterSlashes p (Legacy.stripSlashes p).
Proof.
  unfold Legacy.stripSlashes, withoutOuterSlashes.
  destruct (dropSlashes_split p) as (lead & Hp & Hlead & Hfirst).
  set (t := Legacy.dropSlashes p) in *.
  destruct (dropSlashes_split (String.rev t)) as (back & Ht & Hback & Hlast).
  set (u := Legacy.dropSlashes (String.rev t)) in *.
  assert (Htu : t = String.rev u +:+ String.rev back).
  { apply string_of_same_list.
    rewrite list_of_append, !list_of_rev, <- List.rev_app_distr, <- list_of_append, <- Ht,
      list_of_rev.
    symmetry. apply List.rev_involutive. }
  exists lead, (String.rev back).
  split; [rewrite <- Htu; exact Hp|].
  split; [exact Hlead|].
  split.
  { unfold slashes in *. rewrite list_of_rev. apply List.Forall_rev. exact Hback. }
  split.
  - intros r E. apply (Hfirst (r +:+ String.rev back)). rewrite Htu, E. reflexivity.
  - intros r E. apply (Hlast (String.rev r)).
    apply string_of_same_list.
    assert (El : list_ascii_of_string (String.rev u)
                 = list_ascii_of_string (r +:+ "/")) by (rewrite E; reflexivity).
    rewrite list_of_rev, list_of_append in El. cbn [list_ascii_of_string] in El.
    apply (f_equal (@List.rev ascii)) in El.
    rewrite List.rev_involutive, List.rev_app_distr in El. cbn [List.rev app] in El.
    rewrite El. cbn [list_ascii_of_string]. rewrite list_of_rev. reflexivity.
Qed.

Lemma requestedPrefix_keyPrefixOf {rt : Runtime} (body : Value) (prefix : string) :
  requestedPrefix body prefix -> keyPrefixOf body prefix.
Proof.
  intros [H | (p & Hp & Hne & ->)]; [left; exact H|].
  right. exists p, (Legacy.stripSlashes p).
  split; [exact Hp|]. split; [exact Hne|]. split; [apply stripSlashes_core | reflexivity].
Qed.

(** X9: what the render-ingest handler stores is the HTML the browser
    returned for the page the request names, as [text/html], tagged with
    the source ["browser-render"], the page's URL and the time.  Its key
    is the prefix the request asks for (none, or its [keyPrefix] without
    leading and trailing slashes, followed by a slash), then the page's
    hostname with every character other than a letter, a digit, a dot or
    a dash replaced by an underscore, an underscore, the time with every
    colon and dot replaced by a dash, and [.html]. *)
Theorem render_stores_rendered_page :
  forall (rt : Runtime) (w : World) (env : Legacy.Env) (req : Request) (hdrs : Headers)
         (key : string) (content contentType : Value) (customMetadata : Headers),
    In (BucketPut key content contentType customMetadata)
       (trace (Legacy.handleRenderAndIngest w env req hdrs)) ->
    exists body url address href hostname html prefix host time,
      json_body req = Some body
      /\ optProp body "url" = Ok url
      /\ ToString url = Ok address
      /\ URL_parse w address = Some (href, hostname)
      /\ browser_render w href
           (or_else (prop body "waitUntil") (VStr "networkidle"))
           (coalesce (prop body "timeoutMs") (VNum (Fin 20000))) = Ok html
      /\ content = VStr html
      /\ contentType = VStr "text/html"
      /\ customMetadata =
           {[ "source" := "browser-render"; "url" := href; "timestamp" := now_iso w ]}
      /\ keyPrefixOf body prefix
      /\ Forall2 hostCharIn (list_ascii_of_string hostname) (list_ascii_of_string host)
      /\ Forall2 timeCharIn (list_ascii_of_string (now_iso w)) (list_ascii_of_string time)
      /\ key = prefix +:+ host +:+ "_" +:+ time +:+ ".html".
Proof.
  intros rt w env req hdrs key content contentType customMetadata Hin.
  pose proof (handleRenderAndIngest_calls w env req hdrs) as Hc.
  unfold calls in Hc. rewrite List.Forall_forall in Hc.
  destruct (Hc _ Hin) as (body & url & address & href & hostname & html & prefix
                          & Hb & Hu & Ha & Hp & Hr & -> & -> & -> & Hpre & ->).
  exists body, url, address, href, hostname, html, prefix,
    (Str.replaceAll Legacy.unsafeHostChar "_" hostname),
    (Str.replaceAll Legacy.colonOrDot "-" (now_iso w)).
  repeat (split; [first [reflexivity | assumption]|]).
  split; [exact (requestedPrefix_keyPrefixOf _ _ Hpre)|].
  split; [apply replaceAll_host|].
  split; [apply replaceAll_time | reflexivity].
Qed.

Lemma render_stores_rendered_page_witness :
  exists body url address href hostname html prefix host time,
    json_body renderRequest = Some body
    /\ optProp body "url" = Ok url
    /\ ToString (rt := decimalRuntime) url = Ok address
    /\ URL_parse renderWorld address = Some (href, hostname)
    /\ browser_render renderWorld href
         (or_else (prop (rt := decimalRuntime) body "waitUntil") (VStr "networkidle"))
         (coalesce (prop (rt := decimalRuntime) body "timeoutMs") (VNum (Fin 20000))) = Ok html
    /\ VStr "<html></html>" = VStr html
    /\ VStr "text/html" = VStr "text/html"
    /\ ({[ "source" := "browser-render"; "url" := "https://docs.example/page";
           "timestamp" := now_iso renderWorld ]} : Headers) =
         {[ "source" := "browser-render"; "url" := href; "timestamp" := now_iso renderWorld ]}
    /\ keyPrefixOf (rt := decimalRuntime) body prefix
    /\ Forall2 hostCharIn (list_ascii_of_string hostname) (list_ascii_of_string host)
    /\ Forall2 timeCharIn (list_ascii_of_string (now_iso renderWorld))
         (list_ascii_of_string time)
    /\ "rendered/docs.example_2025-01-01T00-00-00-000Z.html"
       = prefix +:+ host +:+ "_" +:+ time +:+ ".html".
Proof.
  refine (render_stores_rendered_page decimalRuntime renderWorld renderEnv renderRequest ∅
            "rendered/docs.example_2025-01-01T00-00-00-000Z.html"
            (VStr "<html></html>") (VStr "text/html")
            {[ "source" := "browser-render"; "url" := "https://docs.example/page";
               "timestamp" := now_iso renderWorld ]} _).
  vm_compute. right. left. reflexivity.
Defined.

(** ** What ingestion stores *)

Section Stored.
Context {rt : Runtime}.

Lemma storageKey_inv (path : Value) (key : string) :
  storageKey path = Ok key ->
  exists p, path = VStr p /\ key = (if Str.startsWith p "/" then Str.slice1 p else p).
Proof.
  destruct path; simpl; try discriminate. intros [= <-]. eauto.
Qed.

Lemma prop_of (v : Value) (k : string) (x : Value) : getProp v k = Ok x -> prop v k = x.
Proof. unfold prop. intros ->. reflexivity. Qed.

Lemma resolveContentType_cases (content_type : Value) (key : string) :
  (nullish content_type = false -> resolveContentType content_type key = content_type)
  /\ (nullish content_type = true ->
      resolveContentType content_type key =
        VStr (if Str.endsWith (Str.toLowerCase key) ".html"
              then "text/html" else "text/markdown")).
Proof. unfold resolveContentType, coalesce. split; intros ->; reflexivity. Qed.

Lemma stored_from_steps (body path content content_type : Value) (key : string) :
  getProp body "path" = Ok path ->
  getProp body "content" = Ok content ->
  negb (truthy path) || negb (truthy content) = false ->
  storageKey path = Ok key ->
  getProp body "content_type" = Ok content_type ->
  storedAsRequested body key content (resolveContentType content_type key).
Proof.
  intros Hp Hc Ht Hk Hct.
  apply orb_false_iff in Ht. destruct Ht as [Htp Htc].
  apply negb_false_iff in Htp, Htc.
  destruct (storageKey_inv _ _ Hk) as (p & -> & ->).
  exists p. rewrite (prop_of _ _ _ Hp), (prop_of _ _ _ Hc), (prop_of _ _ _ Hct).
  split; [reflexivity|]. split; [intros ->; discriminate|].
  split; [reflexivity|]. split; [reflexivity|]. split; [exact Htc|].
  apply resolveContentType_cases.
Qed.

End Stored.

(** X10: an ingestion handler writes to the object store only for a POST
    that passed the bearer check, and what it writes is what the request
    asked for: the key is the request's [path] - a non-empty string -
    with a single leading slash removed, the content is the request's
    [content] unchanged (never an empty one), and the content type is
    the request's [content_type] whenever that is present and not
    [null], else [text/html] for a key ending in [.html] in any letter
    case and [text/markdown] for every other key. *)
Theorem ingestion_stores_as_requested :
  forall (rt : Runtime) (w : World) (wenv : Worker.Env) (lenv : Legacy.Env) (req : Request)
         (hdrs : Headers) (key : string) (content contentType : Value)
         (customMetadata : Headers),
    (In (BucketPut key content contentType customMetadata)
        (trace (Worker.handleIngestion w wenv req hdrs)) ->
     method req = "POST"
     /\ unauthorized (Worker.INGESTION_TOKEN wenv) req = false
     /\ exists body, json_body req = Some body
                     /\ storedAsRequested body key content contentType)
    /\ (In (BucketPut key content contentType customMetadata)
           (trace (Legacy.handleIngestion w lenv req hdrs)) ->
        method req = "POST"
        /\ unauthorized (Legacy.INGESTION_TOKEN lenv) req = false
        /\ exists body, json_body req = Some body
                        /\ storedAsRequested body key content contentType).
Proof.
  intros rt w wenv lenv req hdrs key content contentType customMetadata. split.
  - unfold Worker.handleIngestion.
    destruct (String.eqb_spec (method req) "POST") as [Hm|]; [|intros []]. cbn [negb].
    destruct (unauthorized _ req) eqn:Hu; [intros []|].
    unfold req_json. destruct (json_body req) as [doc|]; [rewrite bind_mret|intros []].
    destruct (getProp doc "path") as [path|] eqn:Hp; [rewrite bind_lift_Ok|intros []].
    destruct (truthy path) eqn:Htp.
    + destruct (getProp doc "content") as [cont|] eqn:Hc; [rewrite bind_lift_Ok|intros []].
      destruct (_ || _) eqn:Ht; [intros []|].
      destruct (negb (Worker.DOCS_BUCKET wenv)); [intros []|].
      rewrite trace_try_catch.
      do 4 (run_lift; [|intros []]).
      run_call; cbn; (intros [[= <- <- <- <-] | []]);
        (split; [exact Hm|]; split; [reflexivity|]; exists doc; split; [reflexivity|]);
        eapply stored_from_steps; eauto; rewrite Htp; exact Ht.
    + rewrite bind_mret. cbn [negb orb]. intros [].
  - unfold Legacy.handleIngestion.
    destruct (String.eqb_spec (method req) "POST") as [Hm|]; [|intros []]. cbn [negb].
    destruct (unauthorized _ req) eqn:Hu; [intros []|].
    unfold req_json. destruct (json_body req) as [doc|]; [rewrite bind_mret|intros []].
    destruct (getProp doc "path") as [path|] eqn:Hp; [rewrite bind_lift_Ok|intros []].
    destruct (getProp doc "content") as [cont|] eqn:Hc; [rewrite bind_lift_Ok|intros []].
    destruct (_ || _) eqn:Ht; [intros []|].
    rewrite trace_try_catch.
    do 4 (run_lift; [|intros []]).
    assert (Hdone : storedAsRequested doc a cont (resolveContentType a0 a))
      by (eapply stored_from_steps; eauto).
    pose proof (triggerAutoRAGSync_calls w lenv
                  (fun c => match c with BucketPut _ _ _ _ => False | _ => True end)
                  (fun _ _ _ => I)) as Hsync.
    unfold calls in Hsync. rewrite List.Forall_forall in Hsync.
    run_call.
    + cbn [trace outcome fst snd]. rewrite outcome_bind, !trace_bind.
      destruct (outcome (Legacy.triggerAutoRAGSync w lenv)); cbn;
        rewrite ?app_nil_r;
        (intros [[= <- <- <- <-] | Hin];
         [ split; [exact Hm|]; split; [reflexivity|]; exists doc; split; [reflexivity|];
           exact Hdone
         | destruct (Hsync _ Hin) ]).
    + cbn. intros [[= <- <- <- <-] | []].
      split; [exact Hm|]. split; [reflexivity|]. exists doc. split; [reflexivity|].
      exact Hdone.
Qed.

Lemma ingestion_stores_witness :
  method (postJson "/api/ingest" (Some htmlDocument)) = "POST"
  /\ unauthorized (Worker.INGESTION_TOKEN managedEnv) (postJson "/api/ingest" (Some htmlDocument))
     = false
  /\ exists body,
      json_body (postJson "/api/ingest" (Some htmlDocument)) = Some body
      /\ storedAsRequested (rt := decimalRuntime) body "site/Index.HTML"
           (VStr "<p>hi</p>") (VStr "text/html").
Proof.
  refine (proj1 (ingestion_stores_as_requested decimalRuntime quietWorld managedEnv legacyEnv
                   (postJson "/api/ingest" (Some htmlDocument)) ∅
                   "site/Index.HTML" (VStr "<p>hi</p>") (VStr "text/html")
                   {[ "source" := "api-ingestion"; "timestamp" := now_iso quietWorld ]}) _).
  vm_compute. left. reflexivity.
Defined.



(** ** What [aiSearch] sends *)

Lemma clamp_topK_nearest (n : JsNum) :
  Math_min (Math_max n (Fin 1)) (Fin 50) = nearestWithin 1 50 n.
Proof.
  destruct n as [| | |q]; try reflexivity. simpl.
  destruct (Qle_bool q 1) eqn:E1; [reflexivity|]. simpl.
  destruct (Qle_bool q 50); reflexivity.
Qed.

Lemma clamp_threshold_nearest (n : JsNum) :
  Math_max (Math_min n (Fin 1)) (Fin 0) = nearestWithin 0 1 n.
Proof.
  destruct n as [| | |q]; try reflexivity. simpl.
  destruct (Qle_bool q 1) eqn:E1; simpl.
  - destruct (Qle_bool q 0); reflexivity.
  - apply Qle_bool_false in E1.
    destruct (Qle_bool q 0) eqn:E0; [|reflexivity].
    apply Qle_bool_iff in E0. exfalso.
    apply (Qlt_irrefl 1%Q). apply Qlt_le_trans with q; [exact E1|].
    apply Qle_trans with 0%Q; [exact E0 | discriminate].
Qed.

(** X12: with the binding bound, [aiSearch] makes exactly one call, for
    any arguments, and the call carries the query as given, the rewrite
    flag (true unless given), a [stream: true] entry exactly when
    streaming was asked for, and the count and threshold moved to the
    nearest value inside [1, 50] and [0, 1]: a value already inside
    travels unchanged, a value below or above (infinite ones included)
    becomes the bound, and NaN stays NaN. *)
Theorem aiSearch_sends_nearest_values :
  forall (rt : Runtime) (w : World) (env : Worker.Env) (params : Worker.SearchArgs),
    Worker.AI env = true ->
    exists p,
      trace (Worker.aiSearch w env params) = [AutoragAiSearch (Worker.RAG_ID env) p]
      /\ prop p "query" = VStr (Worker.query params)
      /\ prop p "rewrite_query" = VBool (default true (Worker.rewrite params))
      /\ prop p "stream" =
           (if default false (Worker.stream params) then VBool true else VUndefined)
      /\ max_num_results_of p = VNum (nearestWithin 1 50 (requestedTopK env params))
      /\ score_threshold_of p = VNum (nearestWithin 0 1 (requestedThreshold env params)).
Proof.
  intros rt w env params Hai.
  unfold Worker.aiSearch, Worker.binding_aiSearch. rewrite Hai.
  destruct (default false (Worker.stream params)) eqn:Es; eexists;
    (split; [reflexivity|]);
    unfold max_num_results_of, score_threshold_of, ranking_options_of, prop; cbn;
    rewrite clamp_topK_nearest, clamp_threshold_nearest; auto.
Qed.

Lemma aiSearch_sends_witness :
  exists p,
    trace (Worker.aiSearch (rt := decimalRuntime) quietWorld managedEnv
             (Worker.mkSearchArgs "plugins" (Some (Fin 7)) (Some NegInf) None None))
      = [AutoragAiSearch "docs" p]
    /\ prop (rt := decimalRuntime) p "query" = VStr "plugins"
    /\ prop (rt := decimalRuntime) p "rewrite_query" = VBool true
    /\ prop (rt := decimalRuntime) p "stream" = VUndefined
    /\ max_num_results_of (rt := decimalRuntime) p = VNum (Fin 7)
    /\ score_threshold_of (rt := decimalRuntime) p = VNum (Fin 0).
Proof.
  exact (aiSearch_sends_nearest_values decimalRuntime quietWorld managedEnv
           (Worker.mkSearchArgs "plugins" (Some (Fin 7)) (Some NegInf) None None) eq_refl).
Defined.

(** ** Where the search request is read from *)

(** X13: a JSON POST is read from its body alone - the query string and
    the configured default-streaming flag have no influence on it - and
    every other request is read from the query string alone, whatever
    its body holds.  In both cases an Accept header that names
    [text/event-stream] turns streaming on. *)
Theorem readAsk_sources :
  forall (rt : Runtime) (env : Worker.Env) (req : Request) (accept : string),
    (Worker.isJsonPost req = true ->
     forall (params : list (string * string)) (flag : option string),
       Worker.readAsk (withStreamDefault flag env) (withSearchParams params req) accept
       = Worker.readAsk env req accept)
    /\ (Worker.isJsonPost req = false ->
        forall doc : option Value,
          Worker.readAsk env (withBody doc req) accept = Worker.readAsk env req accept)
    /\ (Str.includes accept "text/event-stream" = true ->
        forall args,
          outcome (Worker.readAsk env req accept) = Ok args -> Worker.ask_stream args = true).
Proof.
  intros rt env req accept. split; [|split].
  - intros Hj params flag. unfold Worker.readAsk.
    change (Worker.isJsonPost (withSearchParams params req)) with (Worker.isJsonPost req).
    rewrite Hj. reflexivity.
  - intros Hj doc. unfold Worker.readAsk.
    change (Worker.isJsonPost (withBody doc req)) with (Worker.isJsonPost req).
    rewrite Hj. reflexivity.
  - intros Hacc.
    change (returns (fun args => Worker.ask_stream args = true)
                    (Worker.readAsk env req accept)).
    unfold Worker.readAsk. rewrite Hacc.
    repeat returns_step; cbn; apply orb_true_r.
Qed.

Lemma readAsk_sources_witness :
  exists args,
    outcome (Worker.readAsk (rt := decimalRuntime) managedEnv streamingGet "text/event-stream")
      = Ok args
    /\ Worker.ask_query args = "plugins"
    /\ Worker.ask_stream args = true.
Proof.
  eexists. split; [vm_compute; reflexivity|]. split; [reflexivity|].
  refine (proj2 (proj2 (readAsk_sources decimalRuntime managedEnv streamingGet
                          "text/event-stream")) eq_refl _ _).
  vm_compute. reflexivity.
Defined.

(** ** The older worker's choice of backend *)

Lemma legacy_handleSearch_trace {rt : Runtime} (w : World) (env : Legacy.Env) (req : Request)
    (hdrs : Headers) :
  trace (Legacy.handleSearch w env req hdrs) = []
  \/ exists body c,
      json_body req = Some body
      /\ trace (Legacy.handleSearch w env req hdrs) = [c]
      /\ legacySearchCall env body c.
Proof.
  unfold Legacy.handleSearch.
  destruct (negb _); [left; reflexivity|].
  unfold req_json. destruct (json_body req) as [doc|]; [rewrite bind_mret|left; reflexivity].
  destruct (getProp doc "query") as [query|] eqn:Hq; [rewrite bind_lift_Ok|left; reflexivity].
  destruct (negb _); [left; reflexivity|].
  rewrite trace_try_catch.
  destruct (getProp doc "use_ai_search") as [use|] eqn:Hu;
    [rewrite bind_lift_Ok|left; reflexivity].
  do 6 (run_lift; [|left; reflexivity]).
  apply prop_of in Hq, Hu.
  right. exists doc.
  destruct (Legacy.AI env) eqn:Hai.
  - destruct (negb (is_false use)) eqn:Euse;
      [apply negb_true_iff in Euse | apply negb_false_iff in Euse];
      run_call; cbn; eexists; (split; [reflexivity|]); (split; [reflexivity|]);
      unfold legacySearchCall; rewrite Hu, Hq, Hai; repeat split; auto.
  - assert (Hend : (if negb (is_false use) then "ai-search" else "search")
                   = Str.slice1 (if is_false use then "/search" else "/ai-search"))
      by (destruct (is_false use); reflexivity).
    match goal with
    | |- context [call ?c ?r ≫= _] =>
        assert (Hc : legacySearchCall env doc c);
        [|exists c; split; [reflexivity|]; split; [|exact Hc]]
    end.
    { unfold legacySearchCall. rewrite Hu, Hq, Hai. repeat split; try reflexivity.
      destruct (is_false use); reflexivity. }
    clear Hc. run_call; [|reflexivity].
    cbn [trace outcome fst snd].
    destruct (negb (fr_ok a5)).
    + run_lift; reflexivity.
    + destruct (if truthy a4 then fr_body a5 else None); [reflexivity|].
      do 3 (run_lift; [|reflexivity]). reflexivity.
Qed.

(** X14: the older worker's search handler makes at most one outside
    call per request, and which one depends on the binding alone.  With
    the binding bound it goes through the binding and never to the REST
    API; without it, it POSTs to the REST endpoint with the API token as
    bearer and never touches the binding.  Either way the
    answer-generating kind is used unless the body says [use_ai_search:
    false], and the call carries the body's query. *)
Theorem legacy_search_backend :
  forall (rt : Runtime) (w : World) (env : Legacy.Env) (req : Request) (hdrs : Headers),
    length (trace (Legacy.handleSearch w env req hdrs)) <= 1
    /\ forall c,
        In c (trace (Legacy.handleSearch w env req hdrs)) ->
        exists body, json_body req = Some body /\ legacySearchCall env body c.
Proof.
  intros rt w env req hdrs.
  destruct (legacy_handleSearch_trace w env req hdrs) as [-> | (body & c & Hb & -> & Hc)].
  - split; [simpl; lia | intros c []].
  - split; [simpl; lia|]. intros c' [<- | []]. eauto.
Qed.

Lemma legacy_search_backend_witness :
  exists body,
    json_body (postJson "/api/autorag-search" (Some plainSearch)) = Some body
    /\ legacySearchCall (rt := decimalRuntime) restEnv body
         (HttpFetch "https://api.cloudflare.com/client/v4/accounts/acct/autorag/rags/docs/ai-search"
            "POST"
            {[ "Content-Type" := "application/json"; "Authorization" := "Bearer secret" ]}
            (Some plainSearch)).
Proof.
  refine (proj2 (legacy_search_backend decimalRuntime quietWorld restEnv
                   (postJson "/api/autorag-search" (Some plainSearch)) ∅) _ _).
  vm_compute. left. reflexivity.
Defined.

(** ** The REST fallback of the older worker *)








(** ** Which services a request can reach *)

Section ServiceMap.
Context {rt : Runtime}.
Variable w : World.

Lemma handleAsk_services (env : Worker.Env) (req : Request) (corsHeaders : Headers) :
  calls (fun c =>
           match c with
           | AutoragAiSearch rag _ =>
               rag = Worker.RAG_ID env /\ configured (Worker.USE_EXTERNAL_LLM env) = false
           | AutoragSearch rag _ =>
               rag = Worker.RAG_ID env /\ configured (Worker.USE_EXTERNAL_LLM env) = true
           | StreamText _ _ _ _ => configured (Worker.USE_EXTERNAL_LLM env) = true
           | _ => False
           end)
        (Worker.handleAsk w env req corsHeaders).
Proof.
  unfold Worker.handleAsk.
  destruct (_ && _); [apply calls_mret|].
  apply calls_bind; [unfold calls; rewrite readAsk_trace; constructor|].
  intros args _. destruct (String.eqb _ _); [apply calls_mret|].
  apply calls_try_catch; [|intros; apply calls_mret].
  destruct (configured (Worker.USE_EXTERNAL_LLM env)) eqn:Hllm; cbn [negb].
  - unfold Worker.binding_search.
    repeat first [ calls_step | apply calls_call; cbn; auto ].
  - unfold Worker.aiSearch, Worker.binding_aiSearch.
    repeat first [ calls_step | apply calls_call; cbn; auto ].
Qed.

Lemma NLWebMcp_fetch_services (env : Worker.Env) (req : Request) :
  calls (fun c =>
           match c with
           | AutoragAiSearch rag _ => rag = Worker.RAG_ID env
           | _ => False
           end)
        (Worker.NLWebMcp_fetch w env req).
Proof.
  unfold Worker.NLWebMcp_fetch, Worker.rpcDispatch, Worker.aiSearch, Worker.binding_aiSearch.
  rewrite catch_with_req_json.
  repeat first [ calls_step | apply calls_call; cbn; auto ].
Qed.

Lemma worker_handleIngestion_services (env : Worker.Env) (req : Request)
    (corsHeaders : Headers) :
  calls (fun c =>
           match c with
           | BucketPut _ _ _ _ =>
               method req = "POST" /\ unauthorized (Worker.INGESTION_TOKEN env) req = false
           | _ => False
           end)
        (Worker.handleIngestion w env req corsHeaders).
Proof.
  unfold Worker.handleIngestion.
  destruct (String.eqb_spec (method req) "POST") as [Hm|]; [|apply calls_mret]. cbn [negb].
  destruct (unauthorized _ req) eqn:Hu; [apply calls_mret|].
  unfold req_json.
  repeat first [ calls_step | apply calls_call; cbn; auto ].
Qed.

End ServiceMap.

(** X17: which outside services a request to the unified worker can reach
    is fixed by its path.  The object store is written only by an
    authorized POST to [/api/ingest]; the retrieval backend is reached
    only from [/ask], [/api/autorag-search] and [/mcp] and always under
    the configured instance name - the tool endpoint always through the
    answer-generating call, the search paths through it only when no
    external LLM is configured, and through retrieval-only search and the
    external model only when one is; the static assets are consulted
    only for a path the worker does not serve itself; and no request
    makes it open an HTTP connection or a browser. *)
Theorem worker_services_by_path :
  forall (rt : Runtime) (w : World) (env : Worker.Env) (req : Request) (c : Call),
    In c (trace (Worker.fetch w env req)) -> workerMayCall env req c.
Proof.
  intros rt w env req c. unfold Worker.fetch.
  destruct (String.eqb (method req) "OPTIONS"); [intros []|].
  destruct (String.eqb_spec (pathname req) "/ask") as [Hask|Nask].
  { intros Hin. epose proof (handleAsk_services w env req _) as H.
    unfold calls in H. rewrite List.Forall_forall in H. specialize (H _ Hin).
    destruct c; cbn; intuition. }
  destruct (String.eqb_spec (pathname req) "/mcp") as [Hmcp|Nmcp].
  { intros Hin. pose proof (NLWebMcp_fetch_services w env req) as H.
    unfold calls in H. rewrite List.Forall_forall in H. specialize (H _ Hin).
    destruct c; cbn; intuition. }
  destruct (String.eqb_spec (pathname req) "/api/ingest") as [Hing|Ning].
  { intros Hin. epose proof (worker_handleIngestion_services w env req _) as H.
    unfold calls in H. rewrite List.Forall_forall in H. specialize (H _ Hin).
    destruct c; cbn; intuition. }
  destruct (String.eqb_spec (pathname req) "/api/autorag-search") as [Hsearch|Nsearch].
  { intros Hin. epose proof (handleAsk_services w env req _) as H.
    unfold calls in H. rewrite List.Forall_forall in H. specialize (H _ Hin).
    destruct c; cbn; intuition. }
  destruct (String.eqb_spec (pathname req) "/api/status") as [Hstatus|Nstatus];
    [intros []|].
  rewrite trace_bind. cbn [trace call fst].
  assert (Hrest : forall r : Result Response,
             trace (match r with
                    | Ok a => if (status a =? 404)%nat
                              then mret (Worker.notFound (Worker.getCorsHeaders (header req "Origin")
                                                            (Worker.ALLOWED_ORIGINS env)))
                              else mret a
                    | Throw e => throw e
                    end) = []).
  { intros [a|e]; [destruct (_ =? _)%nat|]; reflexivity. }
  intros Hin.
  assert (Hc : c = AssetsFetch req).
  { destruct (outcome _) in Hin; cbn in Hin.
    - destruct (_ =? _)%nat in Hin; cbn in Hin; intuition.
    - intuition. }
  subst c. cbn. split; [reflexivity|].
  unfold workerApiPaths. cbn [Str.mem].
  repeat match goal with
         | H : pathname req <> ?p |- _ =>
             apply String.eqb_neq in H; rewrite H; clear H
         end.
  reflexivity.
Qed.

Lemma worker_services_witness :
  workerMayCall managedEnv (postJson "/ask" (Some (VObj [ ("query", VStr "plugins") ])))
    (AutoragAiSearch (Worker.RAG_ID managedEnv)
       (VObj (Worker.searchParamsOf (rt := decimalRuntime) managedEnv
                (Worker.mkSearchArgs "plugins" (Some (Fin 6)) (Some (Fin (3 # 10)))
                   (Some false) (Some true))))).
Proof.
  refine (worker_services_by_path decimalRuntime quietWorld managedEnv
            (postJson "/ask" (Some (VObj [ ("query", VStr "plugins") ]))) _ _).
  vm_compute. left. reflexivity.
Defined.

Section LegacyServiceMap.
Context {rt : Runtime}.
Variable w : World.
Variable env : Legacy.Env.

(** A call to the REST API of the configured account, with the API token. *)
Let restCall (c : Call) : Prop :=
  match c with
  | HttpFetch url _ h _ =>
      (exists suffix, url = Legacy.autoragUrl env suffix)
      /\ h !! "Authorization" = Some ("Bearer " +:+ tmpl (Legacy.API_TOKEN env))
  | _ => False
  end.

Lemma calls_impl {A} (P Q : Call -> Prop) (m : M A) :
  (forall c, P c -> Q c) -> calls P m -> calls Q m.
Proof. unfold calls. intros H Hc. exact (List.Forall_impl _ H Hc). Qed.

Lemma sync_bearer :
  Legacy.syncHeaders env !! "Authorization"
  = Some ("Bearer " +:+ tmpl (Legacy.API_TOKEN env)).
Proof. unfold Legacy.syncHeaders. apply lookup_insert_eq. Qed.

Lemma search_bearer (token : string) :
  ({[ "Content-Type" := "application/json"; "Authorization" := token ]} : Headers)
    !! "Authorization" = Some token.
Proof. unfold Headers. rewrite lookup_insert_ne by discriminate. apply lookup_singleton_eq. Qed.

Lemma triggerAutoRAGSync_services (Q : Call -> Prop) :
  (forall c, restCall c -> Q c) -> calls Q (Legacy.triggerAutoRAGSync w env).
Proof.
  intros HQ. apply (calls_impl restCall); [exact HQ|].
  unfold Legacy.triggerAutoRAGSync.
  destruct (_ || _ || _); [apply calls_mret|].
  apply calls_try_catch; [|intros; apply calls_mret].
  apply calls_bind.
  - apply calls_call. split; [exists "/sync"; reflexivity | apply sync_bearer].
  - intros response _. repeat calls_step.
Qed.

Lemma legacy_handleSearch_services (req : Request) (hdrs : Headers) :
  calls (fun c =>
           match c with
           | AutoragAiSearch _ _ | AutoragSearch _ _ =>
               Legacy.AI env = true /\ method req = "POST"
           | _ => restCall c
           end)
        (Legacy.handleSearch w env req hdrs).
Proof.
  unfold Legacy.handleSearch.
  destruct (String.eqb_spec (method req) "POST") as [Hm|]; [|apply calls_mret]. cbn [negb].
  unfold req_json.
  repeat first
    [ calls_step
    | apply calls_call; cbn;
      first [ split; [reflexivity | exact Hm]
            | split; [eexists; reflexivity | apply search_bearer] ] ].
Qed.

Lemma legacy_handleIngestion_services (req : Request) (hdrs : Headers) :
  calls (fun c =>
           match c with
           | BucketPut _ _ _ _ =>
               method req = "POST" /\ unauthorized (Legacy.INGESTION_TOKEN env) req = false
           | _ => restCall c
           end)
        (Legacy.handleIngestion w env req hdrs).
Proof.
  unfold Legacy.handleIngestion.
  destruct (String.eqb_spec (method req) "POST") as [Hm|]; [|apply calls_mret]. cbn [negb].
  destruct (unauthorized _ req) eqn:Hu; [apply calls_mret|].
  unfold req_json.
  repeat first
    [ apply triggerAutoRAGSync_services; intros [] Hc; first [exact Hc | exfalso; exact Hc]
    | calls_step
    | apply calls_call; cbn; auto ].
Qed.

Lemma handleRenderAndIngest_services (req : Request) (hdrs : Headers) :
  calls (fun c =>
           match c with
           | BucketPut _ _ _ _ =>
               method req = "POST" /\ unauthorized (Legacy.INGESTION_TOKEN env) req = false
           | BrowserRender _ _ _ =>
               method req = "POST" /\ unauthorized (Legacy.INGESTION_TOKEN env) req = false
               /\ Legacy.MY_BROWSER env = true
           | _ => restCall c
           end)
        (Legacy.handleRenderAndIngest w env req hdrs).
Proof.
  unfold Legacy.handleRenderAndIngest.
  destruct (String.eqb_spec (method req) "POST") as [Hm|]; [|apply calls_mret]. cbn [negb].
  destruct (unauthorized _ req) eqn:Hu; [apply calls_mret|].
  destruct (Legacy.MY_BROWSER env) eqn:Hb; [|apply calls_mret]. cbn [negb].
  rewrite parsed_body, bind_mret.
  repeat first
    [ apply triggerAutoRAGSync_services; intros [] Hc; first [exact Hc | exfalso; exact Hc]
    | calls_step
    | apply calls_call; cbn; auto ].
Qed.

Lemma handleSync_services (req : Request) (hdrs : Headers) :
  calls restCall (Legacy.handleSync w env req hdrs).
Proof.
  unfold Legacy.handleSync.
  repeat first [ apply triggerAutoRAGSync_services; intros c Hc; exact Hc | calls_step ].
Qed.

Lemma handleStatus_services (hdrs : Headers) :
  calls restCall (Legacy.handleStatus w env hdrs).
Proof.
  unfold Legacy.handleStatus.
  repeat first
    [ calls_step
    | apply calls_call; cbn; split; [exists ""; reflexivity | apply lookup_singleton_eq] ].
Qed.

End LegacyServiceMap.

(** X18: which outside services a request to the older worker can reach.
    The retrieval binding is used only by a POST to
    [/api/autorag-search]; the object store is written only by an
    authorized POST to [/api/ingest] or [/api/render-ingest]; a browser
    is opened only by an authorized POST to [/api/render-ingest]; and
    every HTTP request the worker makes, on any path, goes to the AutoRAG
    REST API of the configured account and instance and carries the API
    token as bearer - the token is sent nowhere else.  It never consults
    static assets or an external model. *)
Theorem legacy_services_by_path :
  forall (rt : Runtime) (w : World) (env : Legacy.Env) (req : Request) (c : Call),
    In c (trace (Legacy.fetch w env req)) -> legacyMayCall env req c.
Proof.
  intros rt w env req c.
  unfold Legacy.fetch.
  destruct (String.eqb (method req) "OPTIONS"); [intros []|].
  rewrite legacy_fetch_returned.
  destruct (String.eqb_spec (pathname req) "/api/autorag-search") as [Hp|_].
  { intros Hin. epose proof (legacy_handleSearch_services w env req _) as H.
    unfold calls in H. rewrite List.Forall_forall in H. specialize (H _ Hin).
    destruct c; cbn in *; intuition. }
  destruct (String.eqb_spec (pathname req) "/api/ingest") as [Hp|_].
  { intros Hin. epose proof (legacy_handleIngestion_services w env req _) as H.
    unfold calls in H. rewrite List.Forall_forall in H. specialize (H _ Hin).
    destruct c; cbn in *; intuition. }
  destruct (String.eqb_spec (pathname req) "/api/render-ingest") as [Hp|_].
  { intros Hin. epose proof (handleRenderAndIngest_services w env req _) as H.
    unfold calls in H. rewrite List.Forall_forall in H. specialize (H _ Hin).
    destruct c; cbn in *; intuition. }
  destruct (String.eqb_spec (pathname req) "/api/sync") as [Hp|_].
  { intros Hin. epose proof (handleSync_services w env req _) as H.
    unfold calls in H. rewrite List.Forall_forall in H. specialize (H _ Hin).
    destruct c; cbn in *; intuition. }
  destruct (String.eqb_spec (pathname req) "/api/status") as [Hp|_].
  { intros Hin. epose proof (handleStatus_services w env _) as H.
    unfold calls in H. rewrite List.Forall_forall in H. specialize (H _ Hin).
    destruct c; cbn in *; intuition. }
  intros [].
Qed.

Lemma legacy_services_witness :
  legacyMayCall restEnv (postJson "/api/autorag-search" (Some plainSearch))
    (HttpFetch "https://api.cloudflare.com/client/v4/accounts/acct/autorag/rags/docs/ai-search"
       "POST"
       {[ "Content-Type" := "application/json"; "Authorization" := "Bearer secret" ]}
       (Some plainSearch)).
Proof.
  refine (legacy_services_by_path decimalRuntime quietWorld restEnv
            (postJson "/api/autorag-search" (Some plainSearch)) _ _).
  vm_compute. left. reflexivity.
Defined.

(** ** Failures behind the search handler *)



(** ** The tool endpoint beyond [tools/call] *)



(** X21: the tool endpoint reaches the retrieval backend for one kind of
    request only.  Whenever it makes an outside call, the request is a
    POST whose body parsed, its method is [tools/call], the tool named is
    [ask], the query - as a string - is not empty, and that call is the
    only one: an answer-generating search under the configured instance
    name that never asks for a stream.  So [initialize], [tools/list],
    unknown methods and tools, and bodies that do not parse cost no
    backend call. *)
Theorem mcp_searches_only_for_ask :
  forall (rt : Runtime) (w : World) (env : Worker.Env) (req : Request) (c : Call),
    In c (trace (Worker.NLWebMcp_fetch w env req)) ->
    method req = "POST"
    /\ trace (Worker.NLWebMcp_fetch w env req) = [c]
    /\ exists rpc, json_body req = Some rpc /\ toolSearch env rpc c.
Proof.
  intros rt w env req c. unfold Worker.NLWebMcp_fetch.
  destruct (String.eqb (method req) "OPTIONS"); [intros []|].
  destruct (String.eqb_spec (method req) "POST") as [Hm|]; [|intros []]. cbn [negb].
  rewrite catch_with_req_json, bind_mret.
  destruct (json_body req) as [rpc|] eqn:Hb; cbn [from_option id]; [|intros []].
  destruct (getProp rpc "id") as [id0|] eqn:Hid; [rewrite bind_lift_Ok|intros []].
  rewrite trace_try_catch.
  assert (Hnone : forall e : JsError,
             trace (mret (Worker.rpcError (coalesce id0 VNull)
                            (Worker.getCorsHeaders (header req "Origin")
                               (Worker.ALLOWED_ORIGINS env))
                            (-32000)%Z "Server error"
                            (VObj [ ("message", VStr (message_or_string e)) ]))) = [])
    by reflexivity.
  match goal with
  | |- In c (match ?o with Ok _ => ?t | Throw e => ?t ++ _ end) -> _ =>
      assert (Htrace : match o with Ok _ => t | Throw e => t ++ [] end = t)
        by (destruct o; [reflexivity | apply app_nil_r]);
      change (In c (match o with Ok _ => t | Throw e => t ++ [] end) ->
              method req = "POST"
              /\ match o with Ok _ => t | Throw e => t ++ [] end = [c]
              /\ exists rpc0, Some rpc = Some rpc0 /\ toolSearch env rpc0 c);
      rewrite Htrace; clear Htrace
  end.
  unfold Worker.rpcDispatch.
  rewrite (getProp_total _ _ _ Hid "method"), bind_lift_Ok.
  destruct (is_str (prop rpc "method") "initialize"); [intros []|].
  destruct (is_str (prop rpc "method") "tools/list"); [intros []|].
  destruct (is_str (prop rpc "method") "tools/call") eqn:Hcall;
    [|destruct (ToString (prop rpc "method")); intros []].
  apply is_str_true in Hcall.
  rewrite (getProp_total _ _ _ Hid "params"), bind_lift_Ok.
  rewrite !getProp_or_else_obj, !bind_lift_Ok.
  fold (toolName rpc). fold (toolArguments rpc).
  destruct (is_str (toolName rpc) "ask") eqn:Hask; cbn [negb];
    [|destruct (ToString (toolName rpc)); intros []].
  apply is_str_true in Hask.
  rewrite (optProp_total _ "query"), bind_lift_Ok.
  fold (toolArgument rpc "query"). fold (toolQuery rpc).
  destruct (toString_method (toolQuery rpc)) as [q|] eqn:Hq;
    [rewrite bind_lift_Ok|intros []].
  destruct (String.eqb_spec q "") as [|Hne]; [intros []|].
  rewrite (optProp_total _ "topK"), bind_lift_Ok.
  destruct (ToNumber _) as [topK|]; [rewrite bind_lift_Ok|intros []].
  rewrite (optProp_total _ "threshold"), bind_lift_Ok.
  destruct (ToNumber _) as [threshold|]; [rewrite bind_lift_Ok|intros []].
  rewrite (optProp_total _ "rewrite"), bind_lift_Ok.
  rewrite trace_bind.
  match goal with
  | |- context [Worker.aiSearch w env ?p] => set (params := p)
  end.
  assert (Hai : trace (Worker.aiSearch w env params) = []
                \/ trace (Worker.aiSearch w env params)
                   = [AutoragAiSearch (Worker.RAG_ID env)
                        (VObj (Worker.searchParamsOf env params))]).
  { unfold Worker.aiSearch, Worker.binding_aiSearch. cbn [Worker.stream params default].
    destruct (Worker.AI env); [right|left]; reflexivity. }
  assert (Hlast : forall o : Result Value,
             match o with
             | Ok a =>
                 trace (Worker.aiSearch w env params) ++
                 trace (mret (Worker.json
                                (VObj [ ("jsonrpc", VStr "2.0"); ("id", coalesce id0 VNull);
                                        ("result", a) ])
                                200
                                (Worker.getCorsHeaders (header req "Origin")
                                   (Worker.ALLOWED_ORIGINS env))))
             | Throw _ => trace (Worker.aiSearch w env params)
             end = trace (Worker.aiSearch w env params))
    by (intros [a|e]; [apply app_nil_r | reflexivity]).
  rewrite Hlast. clear Hlast.
  destruct Hai as [-> | ->]; [intros []|].
  intros [<- | []].
  split; [exact Hm|]. split; [reflexivity|].
  exists rpc. split; [reflexivity|].
  split; [exact Hcall|]. split; [exact Hask|].
  exists params. repeat split; [exact Hne | exact Hq].
Qed.

Lemma mcp_searches_only_for_ask_witness :
  method (postJson "/mcp" (Some (toolCall (VNum (Fin 1)) (VStr "ask") plainSearch))) = "POST"
  /\ trace (Worker.NLWebMcp_fetch (rt := decimalRuntime) quietWorld managedEnv
              (postJson "/mcp" (Some (toolCall (VNum (Fin 1)) (VStr "ask") plainSearch))))
     = [AutoragAiSearch "docs"
          (VObj (Worker.searchParamsOf (rt := decimalRuntime) managedEnv
                   (Worker.mkSearchArgs "plugins" (Some (Fin 6)) (Some (Fin (3 # 10)))
                      (Some false) (Some true))))]
  /\ exists rpc,
       json_body (postJson "/mcp" (Some (toolCall (VNum (Fin 1)) (VStr "ask") plainSearch)))
         = Some rpc
       /\ toolSearch (rt := decimalRuntime) managedEnv rpc
            (AutoragAiSearch "docs"
               (VObj (Worker.searchParamsOf (rt := decimalRuntime) managedEnv
                        (Worker.mkSearchArgs "plugins" (Some (Fin 6)) (Some (Fin (3 # 10)))
                           (Some false) (Some true))))).
Proof.
  refine (mcp_searches_only_for_ask decimalRuntime quietWorld managedEnv
            (postJson "/mcp" (Some (toolCall (VNum (Fin 1)) (VStr "ask") plainSearch))) _ _).
  vm_compute. left. reflexivity.
Defined.

(** ** The status endpoint of the older worker *)


(** * The ingestion script *)

(** ** Strings *)

Lemma string_app_cons (c : ascii) (s t : string) : String c s +:+ t = String c (s +:+ t).
Proof. reflexivity. Qed.

Lemma string_app_nil_l (s : string) : "" +:+ s = s.
Proof. reflexivity. Qed.

Lemma string_app_assoc (a b c : string) : (a +:+ b) +:+ c = a +:+ b +:+ c.
Proof.
  induction a as [|x a IH]; [reflexivity|]. rewrite !string_app_cons, IH. reflexivity.
Qed.

Lemma string_app_nil_r (s : string) : s +:+ "" = s.
Proof.
  induction s as [|c s IH]; [reflexivity|]. rewrite string_app_cons, IH. reflexivity.
Qed.

Lemma rev_app_app (s t u : string) : String.rev_app s t +:+ u = String.rev_app s (t +:+ u).
Proof. revert t. induction s as [|c s IH]; intros t; [reflexivity|]. cbn. apply IH. Qed.

Lemma rev_app_rev_app (a b c : string) :
  String.rev_app (String.rev_app a b) c = String.rev_app b (a +:+ c).
Proof. revert b. induction a as [|x a IH]; intros b; [reflexivity|]. cbn. rewrite IH. reflexivity. Qed.

Lemma rev_rev_app (key : string) : String.rev (String.rev_app key "") = key.
Proof. unfold String.rev. rewrite rev_app_rev_app. cbn. apply string_app_nil_r. Qed.

Lemma split_go_nonempty (sep : ascii) (cur s : string) : Str.split_go sep cur s <> [].
Proof.
  revert cur. induction s as [|c s IH]; intros cur; cbn; [discriminate|].
  destruct (Ascii.eqb c sep); [discriminate | apply IH].
Qed.

(** Splitting at the first separator: the text before it, then the
    pieces of what follows. *)
Lemma split_go_key (sep : ascii) (cur key value : string) :
  lacks sep key ->
  Str.split_go sep cur (key +:+ String sep value)
  = String.rev (String.rev_app key cur) :: Str.split_go sep "" value.
Proof.
  revert cur. induction key as [|c key IH]; intros cur Hk.
  - rewrite string_app_nil_l. cbn. rewrite Ascii.eqb_refl. reflexivity.
  - inversion Hk as [|? ? Hc Hrest]; subst. rewrite string_app_cons. cbn.
    apply Ascii.eqb_neq in Hc. rewrite Hc. apply IH. exact Hrest.
Qed.

Lemma split_go_lacks (sep : ascii) (cur s : string) :
  lacks sep s -> Str.split_go sep cur s = [String.rev (String.rev_app s cur)].
Proof.
  revert cur. induction s as [|c s IH]; intros cur Hs; [reflexivity|].
  inversion Hs as [|? ? Hc Hrest]; subst. cbn.
  apply Ascii.eqb_neq in Hc. rewrite Hc. apply IH. exact Hrest.
Qed.

(** Joining the pieces with the separator gives the text back. *)
Lemma join_split_go (sep : ascii) (cur s : string) :
  Str.join (String sep "") (Str.split_go sep cur s) = String.rev cur +:+ s.
Proof.
  revert cur. induction s as [|c s IH]; intros cur.
  - cbn. symmetry. apply string_app_nil_r.
  - cbn [Str.split_go]. destruct (Ascii.eqb_spec c sep) as [->|Hc].
    + pose proof (split_go_nonempty sep "" s) as Hne.
      pose proof (IH "") as Hj.
      destruct (Str.split_go sep "" s) as [|x l]; [contradiction|].
      change (Str.join (String sep "") (String.rev cur :: x :: l))
        with (String.rev cur +:+ String sep "" +:+ Str.join (String sep "") (x :: l)).
      rewrite Hj. reflexivity.
    + rewrite IH. unfold String.rev. cbn [String.rev_app].
      rewrite !rev_app_app. reflexivity.
Qed.

Lemma trimEnd_idempotent (s : string) : Str.trimEnd (Str.trimEnd s) = Str.trimEnd s.
Proof.
  induction s as [|c s IH]; [reflexivity|]. cbn [Str.trimEnd].
  destruct (Str.isSpace (String c (Str.trimEnd s))) eqn:E; [reflexivity|].
  cbn [Str.trimEnd]. rewrite IH, E. reflexivity.
Qed.

(** [trimEnd] keeps a prefix of the text. *)
Lemma trimEnd_prefix (s : string) : exists u, s = Str.trimEnd s +:+ u.
Proof.
  induction s as [|c s [u IH]]; [exists ""; reflexivity|]. cbn [Str.trimEnd].
  destruct (Str.isSpace (String c (Str.trimEnd s))).
  - exists (String c s). reflexivity.
  - exists u. rewrite string_app_cons, <- IH. reflexivity.
Qed.

(** White space at the start of a prefix is white space at the start of
    the whole. *)
Lemma afterSpace_app (p u r : string) :
  Str.afterSpace p = Some r -> Str.afterSpace (p +:+ u) = Some (r +:+ u).
Proof.
  intros H. destruct (afterSpace_sound p r H) as (t & Ht & ->).
  rewrite string_app_assoc. apply afterSpace_space. exact Ht.
Qed.

Lemma trimStart_trimEnd (s : string) :
  Str.afterSpace s = None -> Str.trimStart (Str.trimEnd s) = Str.trimEnd s.
Proof.
  intros Hs. rewrite trimStart_eq.
  destruct (Str.afterSpace (Str.trimEnd s)) as [r|] eqn:E; [|reflexivity].
  destruct (trimEnd_prefix s) as [u Hu].
  apply (afterSpace_app _ u) in E. rewrite <- Hu, Hs in E. discriminate.
Qed.

(** What [trim] returns has no white space left at either end. *)
Lemma trim_idempotent (s : string) : Str.trim (Str.trim s) = Str.trim s.
Proof.
  unfold Str.trim.
  rewrite (trimStart_trimEnd _ (trimStart_clean s)). apply trimEnd_idempotent.
Qed.

(** ** The frontmatter expression *)

Lemma stripPrefix_sound (p s r : string) : Ingest.stripPrefix p s = Some r -> s = p +:+ r.
Proof.
  revert s. induction p as [|a p IH]; intros s; cbn.
  - intros [= ->]. reflexivity.
  - destruct s as [|b s]; [discriminate|].
    destruct (Ascii.eqb_spec a b) as [->|]; [|discriminate].
    intros H. rewrite (IH _ H). reflexivity.
Qed.

Lemma stripPrefix_complete (p r : string) : Ingest.stripPrefix p (p +:+ r) = Some r.
Proof.
  induction p as [|a p IH]; [reflexivity|].
  rewrite string_app_cons. cbn. rewrite Ascii.eqb_refl. exact IH.
Qed.

Lemma prefix_nl_cons (c : ascii) (r : string) :
  String.prefix nl (String c r) = Ascii.eqb c "010".
Proof.
  cbn [String.prefix nl].
  destruct (ascii_dec (ascii_of_nat 10) c) as [<-|Hc]; [destruct r; reflexivity|].
  symmetry. apply Ascii.eqb_neq. intros ->. apply Hc. reflexivity.
Qed.

(** [afterLineFeeds] steps over leading white space one code point at a
    time and notes what follows each line feed. *)
Lemma afterLineFeeds_eq (s : string) :
  Ingest.afterLineFeeds s =
    match Str.afterSpace s with
    | Some r => Ingest.afterLineFeeds r ++ (if String.prefix nl s then [r] else [])
    | None => []
    end.
Proof.
  destruct s as [|c1 r1]; [reflexivity|].
  rewrite prefix_nl_cons. cbn [Ingest.afterLineFeeds Str.afterSpace].
  destruct (Str.isSpace (String c1 "")) eqn:E1; [reflexivity|].
  assert (Hnl : Ascii.eqb c1 "010" = false).
  { destruct (Ascii.eqb_spec c1 "010") as [->|]; [|reflexivity].
    vm_compute in E1. discriminate E1. }
  rewrite Hnl.
  destruct r1 as [|c2 r2]; [reflexivity|].
  destruct (Str.isSpace (String c1 (String c2 ""))); [rewrite app_nil_r; reflexivity|].
  destruct r2 as [|c3 r3]; [reflexivity|].
  destruct (Str.isSpace (String c1 (String c2 (String c3 ""))));
    [rewrite app_nil_r|]; reflexivity.
Qed.

Lemma prefix_nl (s : string) :
  String.prefix nl s = true -> s = nl +:+ Str.slice1 s /\ Str.afterSpace s = Some (Str.slice1 s).
Proof.
  destruct s as [|c r]; [discriminate|]. rewrite prefix_nl_cons.
  intros H. apply Ascii.eqb_eq in H. subst c. split; reflexivity.
Qed.

Lemma afterLineFeeds_sound (s r : string) :
  In r (Ingest.afterLineFeeds s) -> exists ws, blankText ws /\ s = ws +:+ nl +:+ r.
Proof.
  remember (String.length s) as n eqn:Hn.
  assert (Hle : String.length s <= n) by lia. clear Hn.
  revert s Hle. induction n as [|n IH]; intros s Hle; rewrite afterLineFeeds_eq;
    destruct (Str.afterSpace s) as [r1|] eqn:E; try (intros []);
    pose proof (afterSpace_shorter _ _ E) as Hlen; [lia|].
  intros Hin. apply List.in_app_or in Hin. destruct Hin as [Hin | Hin].
  - destruct (IH r1 ltac:(lia) Hin) as (ws & Hws & ->).
    destruct (afterSpace_sound _ _ E) as (t & Ht & ->).
    exists (t +:+ ws). split; [constructor; assumption|].
    rewrite string_app_assoc. reflexivity.
  - destruct (String.prefix nl s) eqn:Hp; [|destruct Hin].
    destruct Hin as [<- | []].
    destruct (prefix_nl s Hp) as [Hs Hafter].
    rewrite Hafter in E. injection E as <-.
    exists "". split; [constructor | exact Hs].
Qed.

Lemma afterLineFeeds_complete (ws r : string) :
  blankText ws -> In r (Ingest.afterLineFeeds (ws +:+ nl +:+ r)).
Proof.
  induction 1 as [|t ws Ht _ IH].
  - change ("" +:+ nl +:+ r) with (nl +:+ r).
    rewrite afterLineFeeds_eq, (afterSpace_space nl r) by (vm_compute; tauto).
    change (nl +:+ r) with (String "010" r). rewrite prefix_nl_cons.
    apply List.in_or_app. right. left. reflexivity.
  - rewrite afterLineFeeds_eq, string_app_assoc, (afterSpace_space t _ Ht).
    apply List.in_or_app. left. exact IH.
Qed.

Lemma head_In {A} (l : list A) (x : A) : head l = Some x -> In x l.
Proof. destruct l; cbn; [discriminate|]. intros [= ->]. left. reflexivity. Qed.

Lemma closing_sound (s rest : string) :
  Ingest.closing s = Some rest ->
  exists ws, blankText ws /\ s = nl +:+ "---" +:+ ws +:+ nl +:+ rest.
Proof.
  unfold Ingest.closing.
  destruct (Ingest.stripPrefix (nl +:+ "---") s) as [r|] eqn:Hp; [|discriminate].
  intros Hh. apply head_In, afterLineFeeds_sound in Hh. destruct Hh as (ws & Hws & ->).
  exists ws. split; [exact Hws|]. apply stripPrefix_sound in Hp. exact Hp.
Qed.

Lemma closing_complete (ws rest : string) :
  blankText ws -> exists rest', Ingest.closing (nl +:+ "---" +:+ ws +:+ nl +:+ rest) = Some rest'.
Proof.
  intros Hws. unfold Ingest.closing.
  change (nl +:+ "---" +:+ ws +:+ nl +:+ rest)
    with ((nl +:+ "---") +:+ ws +:+ nl +:+ rest).
  rewrite stripPrefix_complete.
  pose proof (afterLineFeeds_complete ws rest Hws) as Hin.
  destruct (Ingest.afterLineFeeds (ws +:+ nl +:+ rest)) as [|x l]; [destruct Hin|].
  exists x. reflexivity.
Qed.

Lemma capture_eq (s : string) :
  Ingest.capture s =
    match Ingest.closing s with
    | Some rest => Some ("", rest)
    | None =>
        match s with
        | String c r =>
            match Ingest.capture r with
            | Some (captured, rest) => Some (String c captured, rest)
            | None => None
            end
        | EmptyString => None
        end
    end.
Proof. destruct s; reflexivity. Qed.

Lemma capture_sound (s captured rest : string) :
  Ingest.capture s = Some (captured, rest) ->
  exists ws, blankText ws /\ s = captured +:+ nl +:+ "---" +:+ ws +:+ nl +:+ rest.
Proof.
  revert captured. induction s as [|c s IH]; intros captured; rewrite capture_eq.
  - destruct (Ingest.closing "") as [r|] eqn:Hc; [|discriminate].
    intros [= <- <-]. apply closing_sound in Hc. exact Hc.
  - destruct (Ingest.closing (String c s)) as [r|] eqn:Hc.
    + intros [= <- <-]. apply closing_sound in Hc. exact Hc.
    + destruct (Ingest.capture s) as [[cap' rest']|]; [|discriminate].
      intros [= <- <-]. destruct (IH cap' eq_refl) as (ws & Hws & ->).
      exists ws. split; [exact Hws | reflexivity].
Qed.

Lemma capture_complete (frontmatter ws rest : string) :
  blankText ws ->
  exists captured rest',
    Ingest.capture (frontmatter +:+ nl +:+ "---" +:+ ws +:+ nl +:+ rest)
    = Some (captured, rest').
Proof.
  intros Hws. induction frontmatter as [|c fm IH]; rewrite capture_eq.
  - destruct (closing_complete ws rest Hws) as (rest' & Hc).
    change ("" +:+ nl +:+ "---" +:+ ws +:+ nl +:+ rest)
      with (nl +:+ "---" +:+ ws +:+ nl +:+ rest).
    rewrite Hc. eauto.
  - destruct (Ingest.closing _) as [r|]; [eauto|].
    change (String c fm +:+ nl +:+ "---" +:+ ws +:+ nl +:+ rest)
      with (String c (fm +:+ nl +:+ "---" +:+ ws +:+ nl +:+ rest)).
    destruct IH as (captured & rest' & ->). eauto.
Qed.

Lemma firstMatch_sound {A B} (f : A -> option B) (l : list A) (y : B) :
  Ingest.firstMatch f l = Some y -> exists x, In x l /\ f x = Some y.
Proof.
  induction l as [|x l IH]; cbn; [discriminate|].
  destruct (f x) as [y'|] eqn:Hx.
  - intros [= ->]. exists x. split; [left; reflexivity | exact Hx].
  - intros H. destruct (IH H) as (x' & Hin & Hx'). exists x'. split; [right|]; assumption.
Qed.

Lemma firstMatch_complete {A B} (f : A -> option B) (l : list A) (x : A) (y : B) :
  In x l -> f x = Some y -> exists y', Ingest.firstMatch f l = Some y'.
Proof.
  induction l as [|x' l IH]; cbn; [intros []|].
  intros [-> | Hin] Hx.
  - rewrite Hx. eauto.
  - destruct (f x'); [eauto|]. apply IH; assumption.
Qed.

Lemma matchFrontmatter_sound (content frontmatter rest : string) :
  Ingest.matchFrontmatter content = Some (frontmatter, rest) -> fenced content frontmatter rest.
Proof.
  unfold Ingest.matchFrontmatter.
  destruct (Ingest.stripPrefix "---" content) as [opened|] eqn:Hp; [|discriminate].
  intros Hm. apply firstMatch_sound in Hm. destruct Hm as (r & Hin & Hc).
  apply afterLineFeeds_sound in Hin. destruct Hin as (ws1 & Hws1 & ->).
  apply capture_sound in Hc. destruct Hc as (ws2 & Hws2 & ->).
  apply stripPrefix_sound in Hp. exists ws1, ws2. auto.
Qed.

Lemma matchFrontmatter_complete (content frontmatter rest : string) :
  fenced content frontmatter rest -> Ingest.matchFrontmatter content <> None.
Proof.
  intros (ws1 & ws2 & Hws1 & Hws2 & ->). unfold Ingest.matchFrontmatter.
  rewrite stripPrefix_complete.
  destruct (capture_complete frontmatter ws2 rest Hws2) as (captured & rest' & Hc).
  destruct (firstMatch_complete Ingest.capture _ _ _
              (afterLineFeeds_complete ws1 _ Hws1) Hc) as (y & ->).
  discriminate.
Qed.

(** X23: [extractFrontmatter] removes a leading fenced block and nothing
    else.  Either the content has the shape the expression describes -
    three dashes, a line end, a block, a line with three dashes, the rest
    (white space may trail either fence) - and then the returned content
    is that rest and the metadata are read from that block, line by line;
    or the content has that shape in no way, and it is returned unchanged
    with empty metadata. *)
Theorem frontmatter_is_a_fenced_block :
  forall content : string,
    (exists frontmatter,
        fenced content frontmatter (fst (Ingest.extractFrontmatter content))
        /\ snd (Ingest.extractFrontmatter content)
           = foldl Ingest.parseLine ∅ (Str.split "010" frontmatter))
    \/ (Ingest.extractFrontmatter content = (content, ∅)
        /\ forall frontmatter rest, fenced content frontmatter rest -> False).
Proof.
  intros content. unfold Ingest.extractFrontmatter.
  destruct (Ingest.matchFrontmatter content) as [[frontmatter rest]|] eqn:Hm.
  - left. exists frontmatter. split; [|reflexivity].
    apply matchFrontmatter_sound. exact Hm.
  - right. split; [reflexivity|]. intros frontmatter rest Hf.
    exact (matchFrontmatter_complete _ _ _ Hf Hm).
Qed.

(** ** Metadata lines *)

(** X24: a metadata line is cut at its first colon only.  For a line
    [key:value] whose key is not empty and has no colon, the entry stored
    is the trimmed key with the trimmed text after that colon - further
    colons in the value, as in a URL, are kept; a line without a colon,
    and a line that starts with one, store nothing. *)
Theorem frontmatter_line_keeps_colons :
  forall (metadata : gmap string string) (key value : string),
    lacks ":" key ->
    (key <> "" ->
     String.eqb (Str.trim key) "__proto__" = false ->
     Ingest.parseLine metadata (key +:+ ":" +:+ value)
     = <[ Str.trim key := Str.trim value ]> metadata)
    /\ Ingest.parseLine metadata key = metadata
    /\ Ingest.parseLine metadata (":" +:+ value) = metadata.
Proof.
  intros metadata key value Hk. unfold Ingest.parseLine, Str.split. split; [|split].
  - intros Hne Hproto.
    change (key +:+ ":" +:+ value) with (key +:+ String ":" value).
    rewrite (split_go_key ":" "" key value Hk), rev_rev_app.
    apply String.eqb_neq in Hne. rewrite Hne. cbn [negb andb].
    pose proof (split_go_nonempty ":" "" value) as Hparts.
    pose proof (join_split_go ":" "" value) as Hjoin.
    destruct (Str.split_go ":" "" value) as [|x l]; [contradiction|].
    cbn [length Nat.eqb negb]. unfold Ingest.assign. rewrite Hproto.
    change (String ":" "") with ":" in Hjoin. rewrite Hjoin. reflexivity.
  - rewrite (split_go_lacks ":" "" key Hk). cbn [length Nat.eqb negb].
    rewrite andb_false_r. reflexivity.
  - reflexivity.
Qed.

Lemma frontmatter_line_witness :
  Ingest.parseLine ∅ ("link" +:+ ":" +:+ " https://docs.example/vault")
  = <[ Str.trim "link" := Str.trim " https://docs.example/vault" ]> ∅.
Proof.
  refine (proj1 (frontmatter_line_keeps_colons ∅ "link" " https://docs.example/vault" _)
            _ eq_refl).
  - repeat constructor; discriminate.
  - discriminate.
Defined.

Lemma foldl_invariant {A B} (P : A -> Prop) (f : A -> B -> A) (l : list B) (a : A) :
  P a -> (forall a b, P a -> P (f a b)) -> P (foldl f a l).
Proof.
  intros Ha Hf. revert a Ha. induction l as [|b l IH]; intros a Ha; cbn; [exact Ha|].
  apply IH, Hf, Ha.
Qed.

(** X25: whatever the file holds, every metadata entry
    [extractFrontmatter] returns has a key and a value without white
    space at either end, and no entry is ever stored under [__proto__]. *)
Theorem frontmatter_entries_are_trimmed :
  forall (content k v : string),
    snd (Ingest.extractFrontmatter content) !! k = Some v ->
    Str.trim k = k /\ Str.trim v = v /\ String.eqb k "__proto__" = false.
Proof.
  intros content k v. unfold Ingest.extractFrontmatter.
  destruct (Ingest.matchFrontmatter content) as [[frontmatter rest]|];
    cbn [snd]; [|rewrite lookup_empty; discriminate].
  revert k v.
  apply (foldl_invariant
           (fun m : gmap string string =>
              forall k v, m !! k = Some v ->
                          Str.trim k = k /\ Str.trim v = v /\ String.eqb k "__proto__" = false)).
  - intros k v. rewrite lookup_empty. discriminate.
  - intros m line Hm k v. unfold Ingest.parseLine.
    destruct (Str.split ":" line) as [|key valueParts]; [apply Hm|].
    destruct (_ && _); [|apply Hm].
    unfold Ingest.assign. destruct (String.eqb (Str.trim key) "__proto__") eqn:Hp; [apply Hm|].
    rewrite lookup_insert_Some. intros [[<- <-] | [_ Hv]]; [|exact (Hm _ _ Hv)].
    split; [apply trim_idempotent|]. split; [apply trim_idempotent | exact Hp].
Qed.

Lemma frontmatter_entries_witness :
  Str.trim "link" = "link"
  /\ Str.trim "https://docs.example/vault" = "https://docs.example/vault"
  /\ String.eqb "link" "__proto__" = false.
Proof.
  refine (frontmatter_entries_are_trimmed notedFile "link" "https://docs.example/vault" _).
  vm_compute. reflexivity.
Defined.

(** * What the external model is given *)

Lemma trace_call_bind {A B} (c : Call) (r : Result A) (k : A -> M B) :
  (forall a, trace (k a) = []) -> trace (call c r ≫= k) = [c].
Proof.
  intros Hk. destruct r as [a|e]; [rewrite bind_call_Ok | rewrite bind_call_Throw].
  - cbn [trace fst]. rewrite Hk. reflexivity.
  - reflexivity.
Qed.

Lemma trace_after_call {A} (c : Call) (m : M A) (h : JsError -> M A) (t : list Call) :
  trace m = t -> (forall e, trace (h e) = []) ->
  trace (try_catch (c :: trace m, outcome m) h) = c :: t.
Proof.
  intros Hm Hh. rewrite trace_try_catch. cbn [trace outcome fst snd]. rewrite Hm.
  destruct (outcome m); [reflexivity|]. rewrite Hh. apply app_nil_r.
Qed.

Section Context_.
Context {rt : Runtime}.

Lemma fragmentText_read (part v : Value) (text : string) :
  Worker.fragmentText part = Ok v ->
  match v with
  | VUndefined | VNull => Ok ""
  | _ => ToString v
  end = Ok text ->
  fragmentRead part text.
Proof.
  destruct part as [| | | | |items|fields]; cbn; try discriminate.
  - intros [= <-] [= <-]. reflexivity.
  - unfold hasOwn. destruct (own fields "text") as [x|]; cbn.
    + intros [= <-]. destruct x; cbn; intros H; first [injection H as <-; reflexivity | exact H].
    + intros [= <-] [= <-]. reflexivity.
Qed.

Lemma fragments_read (parts vals : list Value) (texts : list string) :
  Forall2 (fun part v => Worker.fragmentText part = Ok v) parts vals ->
  Forall2 (fun v text =>
             match v with
             | VUndefined | VNull => Ok ""
             | _ => ToString v
             end = Ok text) vals texts ->
  Forall2 fragmentRead parts texts.
Proof.
  intros H. revert texts. induction H as [|part v parts vals Hpart _ IH]; intros texts Ht.
  - inversion Ht. constructor.
  - inversion Ht as [|? text ? texts' Hv Hrest]; subst.
    constructor; [exact (fragmentText_read _ _ _ Hpart Hv) | apply IH; exact Hrest].
Qed.

Lemma formatItem_read (item : Value) (file : string) :
  Worker.formatItem item = Ok file -> documentRead item file.
Proof.
  unfold Worker.formatItem, documentRead.
  destruct (getProp item "content") as [content|e] eqn:Hcontent; [|discriminate].
  cbn [mbind Result_bind].
  destruct (or_else content (VArr [])) as [| | | | |parts|fields] eqn:Hparts;
    try discriminate.
  cbn [as_array mbind Result_bind].
  destruct (mapM Worker.fragmentText parts) as [vals|e] eqn:Hvals; [|discriminate].
  cbn [mbind Result_bind]. unfold join_values.
  destruct (mapM _ vals) as [texts|e] eqn:Htexts; [|discriminate].
  cbn [fmap Result_fmap mbind Result_bind].
  rewrite (getProp_total _ _ _ Hcontent "filename"). cbn [mbind Result_bind].
  destruct (ToString (prop item "filename")) as [name|e] eqn:Hname; [|discriminate].
  cbn [mbind Result_bind mret Result_ret]. intros [= <-].
  exists name, parts, texts.
  split; [exact (getProp_Ok_nonnull _ _ _ Hcontent)|].
  split; [first [exact Hname | reflexivity]|].
  split.
  { unfold prop. rewrite Hcontent. exact Hparts. }
  split; [|reflexivity].
  apply mapM_Result_Forall2 in Hvals, Htexts.
  exact (fragments_read _ _ _ Hvals Htexts).
Qed.

Lemma formatChunks_context (data : Value) (chunks : string) :
  Worker.formatChunks data = Ok chunks -> contextOf data chunks.
Proof.
  unfold Worker.formatChunks, contextOf.
  destruct data as [| | | | |items|fields]; try discriminate.
  cbn [as_array mbind Result_bind].
  destruct (mapM Worker.formatItem items) as [files|e] eqn:Hfiles; [|discriminate].
  cbn [mbind Result_bind mret Result_ret]. intros [= <-].
  exists items, files. split; [reflexivity|]. split; [|reflexivity].
  apply mapM_Result_Forall2 in Hfiles.
  induction Hfiles as [|item file items files Hitem _ IH]; constructor;
    [exact (formatItem_read _ _ Hitem) | exact IH].
Qed.

End Context_.

(** X26: in the external-LLM mode the model is called only after a
    retrieval that returned documents, as the second and last outside
    call of the request, and what it is given is fixed by that retrieval
    and the request.  The model is [gpt-4o-mini]; the provider settings
    are the OpenAI key alone when [USE_EXTERNAL_LLM] is ["openai"], and
    the Azure key with the endpoint and API version as base URL for any
    other value; the instruction is fixed; and there are exactly two user
    messages - the retrieved documents, one [<file>] element per
    document with its file name and its text fragments, joined by blank
    lines, then the query as read from the request. *)
Theorem llm_sees_documents_then_query :
  forall (rt : Runtime) (w : World) (env : Worker.Env) (req : Request) (corsHeaders : Headers)
         (provider : Value) (model system : string) (messages : list (string * string)),
    In (StreamText provider model system messages)
       (trace (Worker.handleAsk w env req corsHeaders)) ->
    exists args searchResult data chunks,
      outcome (Worker.readAsk env req (Worker.acceptOf req)) = Ok args
      /\ autorag_search w (Worker.RAG_ID env) (Worker.retrievalParams args) = Ok searchResult
      /\ optProp searchResult "data" = Ok data
      /\ truthy (prop data "length") = true
      /\ contextOf data chunks
      /\ (Worker.USE_EXTERNAL_LLM env = Some "openai" ->
          provider = VObj [ ("apiKey", str_opt (Worker.OPENAI_API_KEY env)) ])
      /\ (Worker.USE_EXTERNAL_LLM env <> Some "openai" ->
          provider =
            VObj [ ("apiKey", str_opt (Worker.AZURE_OPENAI_API_KEY env));
                   ("baseURL",
                     VStr (tmpl (Worker.AZURE_OPENAI_ENDPOINT env) +:+ "?api-version="
                             +:+ tmpl (Worker.AZURE_OPENAI_API_VERSION env))) ])
      /\ model = "gpt-4o-mini"
      /\ system = systemPrompt
      /\ messages = [ ("user", chunks); ("user", Worker.ask_query args) ]
      /\ trace (Worker.handleAsk w env req corsHeaders)
         = [ AutoragSearch (Worker.RAG_ID env) (Worker.retrievalParams args);
             StreamText provider model system messages ].
Proof.
  intros rt w env req corsHeaders provider model system messages Hin.
  assert (Hllm : configured (Worker.USE_EXTERNAL_LLM env) = true).
  { pose proof (handleAsk_services w env req corsHeaders) as H.
    unfold calls in H. rewrite List.Forall_forall in H. exact (H _ Hin). }
  revert Hin. unfold Worker.handleAsk.
  destruct (_ && _); [intros []|].
  rewrite trace_bind, readAsk_trace.
  destruct (outcome (Worker.readAsk env req (Worker.acceptOf req))) as [args|e]; [|intros []].
  cbn [app]. destruct (String.eqb _ _); [intros []|].
  rewrite Hllm. cbn [negb].
  unfold Worker.binding_search.
  destruct (Worker.AI env); [|cbn; intuition discriminate].
  destruct (autorag_search w _ _) as [searchResult|e] eqn:Hsearch;
    [rewrite bind_call_Ok | rewrite bind_call_Throw; cbn; intuition discriminate].
  destruct (optProp searchResult "data") as [data|e] eqn:Hdata;
    [rewrite bind_lift_Ok | rewrite bind_lift_Throw; cbn; intuition discriminate].
  rewrite (optProp_total data "length"), bind_lift_Ok.
  destruct (truthy (if nullish data then VUndefined else prop data "length")) eqn:Hlen;
    cbn [negb]; [|cbn; intuition discriminate].
  assert (Hlength : truthy (prop data "length") = true).
  { destruct (nullish data); [discriminate Hlen | exact Hlen]. }
  destruct (Worker.formatChunks data) as [chunks|e] eqn:Hchunks;
    [rewrite bind_lift_Ok | rewrite bind_lift_Throw; cbn; intuition discriminate].
  apply formatChunks_context in Hchunks.
  intros Hin. set (run := try_catch _ _) in *.
  assert (Htrace :
            trace run
            = [ AutoragSearch (Worker.RAG_ID env) (Worker.retrievalParams args);
                StreamText (Worker.llmProvider env) "gpt-4o-mini" systemPrompt
                  [ ("user", chunks); ("user", Worker.ask_query args) ] ]).
  { subst run. apply trace_after_call; [|reflexivity].
    apply trace_call_bind. intros generated.
    destruct (Str.includes _ _); [reflexivity|].
    destruct (st_text generated); reflexivity. }
  rewrite Htrace in Hin |- *.
  destruct Hin as [Hc | [Hc | []]]; [discriminate Hc|].
  injection Hc as <- <- <- <-.
  exists args, searchResult, data, chunks.
  repeat (split; [first [reflexivity | assumption]|]).
  split; [|split; [|repeat split]].
  - intros Hopenai. unfold Worker.llmProvider. rewrite Hopenai. reflexivity.
  - intros Hother. unfold Worker.llmProvider.
    destruct (Worker.USE_EXTERNAL_LLM env) as [name|]; [|reflexivity].
    cbn [str_opt is_str]. destruct (String.eqb_spec name "openai") as [->|]; [|reflexivity].
    contradiction.
Qed.

Lemma llm_sees_documents_witness :
  (exists args searchResult data chunks,
    outcome (Worker.readAsk (rt := decimalRuntime) externalEnv
               (postJson "/ask" (Some plainSearch))
               (Worker.acceptOf (postJson "/ask" (Some plainSearch)))) = Ok args
    /\ autorag_search docsWorld (Worker.RAG_ID externalEnv) (Worker.retrievalParams args)
       = Ok searchResult
    /\ optProp searchResult "data" = Ok data
    /\ truthy (prop (rt := decimalRuntime) data "length") = true
    /\ contextOf (rt := decimalRuntime) data chunks
    /\ (Worker.USE_EXTERNAL_LLM externalEnv = Some "openai" ->
        VObj [ ("apiKey", VStr "key") ]
        = VObj [ ("apiKey", str_opt (Worker.OPENAI_API_KEY externalEnv)) ])
    /\ (Worker.USE_EXTERNAL_LLM externalEnv <> Some "openai" ->
        VObj [ ("apiKey", VStr "key") ]
        = VObj [ ("apiKey", str_opt (Worker.AZURE_OPENAI_API_KEY externalEnv));
                 ("baseURL",
                   VStr (tmpl (Worker.AZURE_OPENAI_ENDPOINT externalEnv) +:+ "?api-version="
                           +:+ tmpl (Worker.AZURE_OPENAI_API_VERSION externalEnv))) ])
    /\ "gpt-4o-mini" = "gpt-4o-mini"
    /\ systemPrompt = systemPrompt
    /\ [ ("user", fileElement "vault.md" "Vault API"); ("user", "plugins") ]
       = [ ("user", chunks); ("user", Worker.ask_query args) ]
    /\ trace (Worker.handleAsk (rt := decimalRuntime) docsWorld externalEnv
                (postJson "/ask" (Some plainSearch)) ∅)
       = [ AutoragSearch (Worker.RAG_ID externalEnv) (Worker.retrievalParams args);
           StreamText
             (VObj [ ("apiKey", VStr "key") ])
             "gpt-4o-mini" systemPrompt
             [ ("user", fileElement "vault.md" "Vault API"); ("user", "plugins") ] ])
  /\
  (exists args searchResult data chunks,
    outcome (Worker.readAsk (rt := decimalRuntime) azureEnv
               (postJson "/ask" (Some plainSearch))
               (Worker.acceptOf (postJson "/ask" (Some plainSearch)))) = Ok args
    /\ autorag_search docsWorld (Worker.RAG_ID azureEnv) (Worker.retrievalParams args)
       = Ok searchResult
    /\ optProp searchResult "data" = Ok data
    /\ truthy (prop (rt := decimalRuntime) data "length") = true
    /\ contextOf (rt := decimalRuntime) data chunks
    /\ (Worker.USE_EXTERNAL_LLM azureEnv = Some "openai" ->
        VObj [ ("apiKey", VStr "azure-key");
               ("baseURL", VStr "https://llm.example/openai?api-version=2024-06-01") ]
        = VObj [ ("apiKey", str_opt (Worker.OPENAI_API_KEY azureEnv)) ])
    /\ (Worker.USE_EXTERNAL_LLM azureEnv <> Some "openai" ->
        VObj [ ("apiKey", VStr "azure-key");
               ("baseURL", VStr "https://llm.example/openai?api-version=2024-06-01") ]
        = VObj [ ("apiKey", str_opt (Worker.AZURE_OPENAI_API_KEY azureEnv));
                 ("baseURL",
                   VStr (tmpl (Worker.AZURE_OPENAI_ENDPOINT azureEnv) +:+ "?api-version="
                           +:+ tmpl (Worker.AZURE_OPENAI_API_VERSION azureEnv))) ])
    /\ "gpt-4o-mini" = "gpt-4o-mini"
    /\ systemPrompt = systemPrompt
    /\ [ ("user", fileElement "vault.md" "Vault API"); ("user", "plugins") ]
       = [ ("user", chunks); ("user", Worker.ask_query args) ]
    /\ trace (Worker.handleAsk (rt := decimalRuntime) docsWorld azureEnv
                (postJson "/ask" (Some plainSearch)) ∅)
       = [ AutoragSearch (Worker.RAG_ID azureEnv) (Worker.retrievalParams args);
           StreamText
             (VObj [ ("apiKey", VStr "azure-key");
               ("baseURL", VStr "https://llm.example/openai?api-version=2024-06-01") ])
             "gpt-4o-mini" systemPrompt
             [ ("user", fileElement "vault.md" "Vault API"); ("user", "plugins") ] ]).
Proof.
  split.
  - refine (llm_sees_documents_then_query decimalRuntime docsWorld externalEnv
              (postJson "/ask" (Some plainSearch)) ∅ _ _ _ _ _).
    vm_compute. right. left. reflexivity.
  - refine (llm_sees_documents_then_query decimalRuntime docsWorld azureEnv
              (postJson "/ask" (Some plainSearch)) ∅ _ _ _ _ _).
    vm_compute. right. left. reflexivity.
Defined.
